(** * EPFO data extractor: the worker loop and its three extraction protocols

    A shallow embedding of [main.py]: the Playwright worker thread
    ([playwright_worker]) and the task functions it dispatches to
    ([run_uan_extraction], [run_ecr_extraction], [run_msd_extraction]),
    together with [get_month_index].

    The browser is the environment.  Every Playwright call is answered by a
    recorded observation ([pw]): either a value or a [PlaywrightError].  The
    program's own effects (events put on [result_queue], log lines, files
    written, archives, the download click) are collected, in program order,
    in a trace.  Two file operations can fail: [to_excel] on the path the
    user chose, answered by the environment like a Playwright call, and
    [zf.write] on a file the task has removed.  Text is ASCII text
    ([string]); the Python string methods used by the source are modelled
    on that domain. *)

From Stdlib Require Import String Ascii List ZArith Lia Bool Arith PeanoNat.
From Stdlib Require Import DecimalString.
Import ListNotations.

Local Open Scope string_scope.
Local Open Scope list_scope.
Local Open Scope nat_scope.

(** ** Python strings *)

Module PyStr.

Definition code (c : ascii) : nat := nat_of_ascii c.

(** [str.isspace] on ASCII: TAB, LF, VT, FF, CR, the four separators
    FS, GS, RS, US and the space. *)
Definition is_space (c : ascii) : bool :=
  let n := code c in
  ((9 <=? n) && (n <=? 13)) || ((28 <=? n) && (n <=? 32)).

(** The white space [int()] tolerates around a literal: TAB..CR and space. *)
Definition is_int_space (c : ascii) : bool :=
  let n := code c in
  ((9 <=? n) && (n <=? 13)) || (n =? 32).

Definition is_upper (c : ascii) : bool :=
  let n := code c in (65 <=? n) && (n <=? 90).

Definition is_lower (c : ascii) : bool :=
  let n := code c in (97 <=? n) && (n <=? 122).

Definition is_cased (c : ascii) : bool := is_upper c || is_lower c.

Definition is_digit (c : ascii) : bool :=
  let n := code c in (48 <=? n) && (n <=? 57).

Definition to_upper (c : ascii) : ascii :=
  if is_lower c then ascii_of_nat (code c - 32) else c.

Definition to_lower (c : ascii) : ascii :=
  if is_upper c then ascii_of_nat (code c + 32) else c.

Fixpoint lstrip_by (sp : ascii -> bool) (s : string) : string :=
  match s with
  | EmptyString => EmptyString
  | String c r => if sp c then lstrip_by sp r else s
  end.

Fixpoint rstrip_by (sp : ascii -> bool) (s : string) : string :=
  match s with
  | EmptyString => EmptyString
  | String c r =>
      match rstrip_by sp r with
      | EmptyString => if sp c then EmptyString else String c EmptyString
      | r' => String c r'
      end
  end.

(** [s.strip()] *)
Definition strip (s : string) : string :=
  rstrip_by is_space (lstrip_by is_space s).

(** [s.title()]: a cased character is upper-cased when the character
    before it is not cased, and lower-cased when it is. *)
Fixpoint title_from (previous_is_cased : bool) (s : string) : string :=
  match s with
  | EmptyString => EmptyString
  | String c r =>
      String (if previous_is_cased then to_lower c else to_upper c)
             (title_from (is_cased c) r)
  end.

Definition title (s : string) : string := title_from false s.

(** [s.split(sep)] for a one-character separator; never the empty list. *)
Fixpoint split (sep : ascii) (s : string) : list string :=
  match s with
  | EmptyString => [EmptyString]
  | String c r =>
      if Ascii.eqb c sep then EmptyString :: split sep r
      else match split sep r with
           | h :: t => String c h :: t
           | [] => [String c EmptyString]
           end
  end.

(** [needle in s] *)
Fixpoint contains (needle s : string) : bool :=
  String.prefix needle s ||
  match s with
  | EmptyString => false
  | String _ r => contains needle r
  end.

Definition of_nat (n : nat) : string := NilZero.string_of_uint (Nat.to_uint n).
Definition of_Z (z : Z) : string := NilZero.string_of_int (Z.to_int z).

(** *** [int(s)] *)

(** Digits with single underscores between them; [after_digit] tells
    whether the previous character was a digit.  The accumulator is the
    value read so far and the number of digits read. *)
Fixpoint int_digits (after_digit : bool) (acc : Z) (count : nat) (s : string)
  : option (Z * nat) :=
  match s with
  | EmptyString => if after_digit then Some (acc, count) else None
  | String c r =>
      if is_digit c then
        int_digits true (acc * 10 + Z.of_nat (code c - 48)) (S count) r
      else if Ascii.eqb c "_" then
        if after_digit then int_digits false acc count r else None
      else None
  end.

(** CPython's limit on the digits of a decimal literal
    ([sys.int_info.default_max_str_digits]). *)
Definition max_str_digits : nat := 4300.

Definition int_unsigned (s : string) : option Z :=
  match int_digits false 0 0 s with
  | Some (v, count) => if count <=? max_str_digits then Some v else None
  | None => None
  end.

(** [int(s)]: [None] stands for the [ValueError] of an invalid literal. *)
Definition int (s : string) : option Z :=
  match rstrip_by is_int_space (lstrip_by is_int_space s) with
  | String "+" r => int_unsigned r
  | String "-" r => option_map Z.opp (int_unsigned r)
  | body => int_unsigned body
  end.

(** *** [repr(s)] *)

Definition quote : ascii := "'"%char.
Definition double_quote : ascii := ascii_of_nat 34.
Definition backslash : ascii := ascii_of_nat 92.

Fixpoint has (c : ascii) (s : string) : bool :=
  match s with
  | EmptyString => false
  | String d r => Ascii.eqb c d || has c r
  end.

Definition hex_digit (n : nat) : ascii :=
  if n <? 10 then ascii_of_nat (48 + n) else ascii_of_nat (87 + n).

(** One character of a literal delimited by [delimiter]. *)
Definition repr_char (delimiter c : ascii) : string :=
  let n := code c in
  if Ascii.eqb c delimiter || Ascii.eqb c backslash then String backslash (String c EmptyString)
  else if n =? 9 then String backslash "t"
  else if n =? 10 then String backslash "n"
  else if n =? 13 then String backslash "r"
  else if (n <? 32) || (127 <=? n) then
    String backslash (String "x" (String (hex_digit (n / 16)) (String (hex_digit (n mod 16))
                                                                  EmptyString)))
  else String c EmptyString.

Fixpoint repr_body (delimiter : ascii) (s : string) : string :=
  match s with
  | EmptyString => EmptyString
  | String c r => repr_char delimiter c ++ repr_body delimiter r
  end.

(** [repr(s)]: single quotes, unless the text has a single quote and no
    double quote. *)
Definition repr (s : string) : string :=
  let delimiter := if has quote s && negb (has double_quote s) then double_quote else quote in
  String delimiter (repr_body delimiter s ++ String delimiter EmptyString).

(** *** The text of the [ValueError] of [int(s)] *)

(** The digits of the run of digits and underscores at the head of [s];
    [None] when an underscore is misplaced in it ([no_underscore] tells
    that an underscore cannot come next). *)
Fixpoint scan_digits (no_underscore : bool) (count : nat) (s : string) : option nat :=
  match s with
  | EmptyString => if no_underscore then None else Some count
  | String c r =>
      if is_digit c then scan_digits false (S count) r
      else if Ascii.eqb c "_" then
        if no_underscore then None else scan_digits true count r
      else if no_underscore then None else Some count
  end.

(** The literal is refused for its length as soon as its run of digits is
    read, before what follows the run is looked at. *)
Definition int_error (s : string) : string :=
  let body := match rstrip_by is_int_space (lstrip_by is_int_space s) with
              | String "+" r => r
              | String "-" r => r
              | body => body
              end in
  match scan_digits true 0 body with
  | Some digits =>
      if max_str_digits <? digits then
        "Exceeds the limit (4300 digits) for integer string conversion: value has "
        ++ of_nat digits ++ " digits; use sys.set_int_max_str_digits() to increase the limit"
      else "invalid literal for int() with base 10: " ++ substring 0 200 (repr s)
  | None => "invalid literal for int() with base 10: " ++ substring 0 200 (repr s)
  end.

End PyStr.

(** ** Exceptions *)

Inductive exn_class := PlaywrightError | ValueError | OverflowError | FileNotFoundError.

Record exn := Exn { cls : exn_class; message : string }.

Definition exn_class_eqb (a b : exn_class) : bool :=
  match a, b with
  | PlaywrightError, PlaywrightError => true
  | ValueError, ValueError => true
  | OverflowError, OverflowError => true
  | FileNotFoundError, FileNotFoundError => true
  | _, _ => false
  end.

(** [isinstance(e, classes)], as an [except (A, B)] clause tests it. *)
Definition isinstance (e : exn) (classes : list exn_class) : bool :=
  existsb (exn_class_eqb (cls e)) classes.

(** ** [datetime] *)

Record datetime := Datetime { year : Z; month : Z; day : Z }.

Definition is_leap (y : Z) : bool :=
  ((y mod 4 =? 0) && negb (y mod 100 =? 0) || (y mod 400 =? 0))%Z.

Definition days_in_month (y m : Z) : Z :=
  (if m =? 2 then (if is_leap y then 29 else 28)
   else if (m =? 4) || (m =? 6) || (m =? 9) || (m =? 11) then 30
   else 31)%Z.

(** The arguments of the C constructor are C [int]s. *)
Definition fits_c_int (z : Z) : bool :=
  ((- 2147483648 <=? z) && (z <=? 2147483647))%Z.

(** A C [long] of 64 bits. *)
Definition fits_c_long (z : Z) : bool :=
  ((- 9223372036854775808 <=? z) && (z <=? 9223372036854775807))%Z.

(** The text of the [OverflowError] of the conversion of [z] to a C [int]. *)
Definition c_int_overflow_text (z : Z) : string :=
  if negb (fits_c_long z) then "Python int too large to convert to C long"
  else if (0 <? z)%Z then "signed integer is greater than maximum"
  else "signed integer is less than minimum".

(** The first of the arguments, in order, that is no C [int]. *)
Definition first_overflow (args : list Z) : option Z :=
  find (fun z => negb (fits_c_int z)) args.

(** [datetime(y, m, d)] of CPython's [_datetime]: the arguments are
    converted to C [int] first, in order ([OverflowError]), then
    range-checked ([ValueError]). *)
Definition mk_datetime (y m d : Z) : exn + datetime :=
  match first_overflow [y; m; d] with
  | Some z => inl (Exn OverflowError (c_int_overflow_text z))
  | None =>
      if negb ((1 <=? y) && (y <=? 9999))%Z then
        inl (Exn ValueError ("year " ++ PyStr.of_Z y ++ " is out of range"))
      else if negb ((1 <=? m) && (m <=? 12))%Z then
        inl (Exn ValueError "month must be in 1..12")
      else if negb ((1 <=? d) && (d <=? days_in_month y m))%Z then
        inl (Exn ValueError "day is out of range for month")
      else inr (Datetime y m d)
  end.

(** [a <= b] on datetimes (times of day are all midnight here). *)
Definition datetime_le (a b : datetime) : bool :=
  ((year a <? year b)
   || ((year a =? year b)
       && ((month a <? month b)
           || ((month a =? month b) && (day a <=? day b)))))%Z.

(** [d.strftime('%Y%m')]: the year as glibc prints it (no padding), the
    month on two digits. *)
Definition strftime_Ym (d : datetime) : string :=
  PyStr.of_Z (year d)
  ++ (if (month d <? 10)%Z then "0" else "") ++ PyStr.of_Z (month d).

(** ** [get_month_index] *)

Definition months : list string :=
  ["Jan"; "Feb"; "Mar"; "Apr"; "May"; "Jun";
   "Jul"; "Aug"; "Sep"; "Oct"; "Nov"; "Dec"].

(** [l.index(x)]: the first position of [x], [None] for [ValueError]. *)
Fixpoint list_index (x : string) (l : list string) : option nat :=
  match l with
  | [] => None
  | y :: r => if String.eqb y x then Some 0%nat
              else option_map S (list_index x r)
  end.

Definition get_month_index (month_str : string) : Z :=
  match list_index (PyStr.title month_str) months with
  | Some i => Z.of_nat i + 1
  | None => -1
  end.

(** ** Tables: the part of pandas the source uses *)

(** A frame: column labels and rows of cells; [None] is the missing value
    that pads a short row. *)
Record DataFrame := Frame { columns : list string; values : list (list (option string)) }.

Definition widest (data : list (list string)) : nat :=
  fold_right (fun row w => Nat.max (length row) w) 0 data.

Definition pad_row (width : nat) (row : list string) : list (option string) :=
  map Some row ++ repeat None (width - length row).

(** [pd.DataFrame(data, columns=cols)] for a list of lists: short rows are
    padded to the widest row, and the number of labels has to be that
    width, or the constructor raises [ValueError]. *)
Definition pd_DataFrame (data : list (list string)) (cols : list string)
  : exn + DataFrame :=
  let width := widest data in
  if width =? length cols then inr (Frame cols (map (pad_row width) data))
  else inl (Exn ValueError
              (PyStr.of_nat (length cols) ++ " columns passed, passed data had "
               ++ PyStr.of_nat width ++ " columns")).

(** ** Commands, result events, effects *)

(** What the GUI puts on [command_queue]; [other_command] is any tag the
    dispatch does not know. *)
Inductive command :=
| shutdown
| open_login_page
| verify_login
| run_uan (uans : list string) (output_file : string)
| run_ecr (start_date end_date : datetime)
| run_msd (uans : list string)
| other_command (tag : string).

(** The tagged pairs put on [result_queue]. *)
Inductive result_event :=
| status_update (text : string)
| error (text : string)
| info (text : string)
| browser_opened
| login_verified (logged_in : bool).

Inductive log_level := log_error | log_warning | log_info.

(** The observable actions of the worker thread, other than Playwright
    queries: the calls made, in order.  A file operation succeeds, but for
    [to_excel] on the path the user chose and [zf.write] on a removed
    path. *)
Inductive effect :=
| QueueGet (c : command)                       (* command_queue.get() returned c *)
| QueuePut (ev : result_event)                 (* result_queue.put(ev) *)
| Logging (lvl : log_level) (text : string)
| Mkdir (dir : string)                         (* Path.mkdir(exist_ok=True) *)
| DownloadClick                                (* pdf_link.click() under expect_download *)
| SaveAs (path : string)                       (* download.save_as(path) *)
| ToExcel (path : string) (df : DataFrame)     (* df.to_excel(path, index=False) *)
| ZipOpen (zip_filename : string)              (* zipfile.ZipFile(name, 'w') *)
| ZipWrite (path arcname : string)             (* zf.write(path, arcname) *)
| Remove (path : string)                       (* os.remove(path) *)
| Rmdir (dir : string)                         (* os.rmdir(dir) *)
| PlaywrightStop                               (* leaving `with sync_playwright()` *)
| BrowserClose.                                (* browser.close() *)

Definition trace := list effect.

(** ** The worker's computations *)

(** How a call ends: it returns, it raises, or it is still waiting when the
    recorded observations end (parked on the empty command queue, or asking
    for a page the recording does not have). *)
Inductive res (A : Type) :=
| Val (a : A)
| Exc (e : exn)
| Blocked.
Arguments Val {A} a.
Arguments Exc {A} e.
Arguments Blocked {A}.

Definition M (A : Type) : Type := trace * res A.

Definition ret {A} (a : A) : M A := ([], Val a).
Definition raise {A} (e : exn) : M A := ([], Exc e).
Definition blocked {A} : M A := ([], Blocked).
Definition emit (e : effect) : M unit := ([e], Val tt).

Definition bind {A B} (m : M A) (k : A -> M B) : M B :=
  match snd m with
  | Val a => (fst m ++ fst (k a), snd (k a))
  | Exc e => (fst m, Exc e)
  | Blocked => (fst m, Blocked)
  end.

(** [try: body / except classes as e: handler e] *)
Definition try_except {A} (body : M A) (classes : list exn_class)
    (handler : exn -> M A) : M A :=
  match snd body with
  | Exc e => if isinstance e classes
             then (fst body ++ fst (handler e), snd (handler e))
             else body
  | _ => body
  end.

(** [except Exception] catches every class of [exn_class]. *)
Definition Exception : list exn_class :=
  [PlaywrightError; ValueError; OverflowError; FileNotFoundError].

Declare Scope py_scope.
Delimit Scope py_scope with py.
Notation "x <- m ;; k" := (bind m (fun x => k))
  (at level 61, m at next level, right associativity) : py_scope.
Notation "m ;; k" := (bind m (fun _ => k))
  (at level 61, right associativity) : py_scope.
Local Open Scope py_scope.

Definition of_sum {A} (r : exn + A) : M A :=
  match r with inl e => raise e | inr a => ret a end.

(** The answer of the browser to one Playwright call (or to a run of calls
    with nothing else in between): a value, or a [PlaywrightError]. *)
Inductive pw (A : Type) :=
| Ok (a : A)
| Err (text : string).
Arguments Ok {A} a.
Arguments Err {A} text.

Definition page {A} (answer : pw A) : M A :=
  match answer with
  | Ok a => ret a
  | Err text => raise (Exn PlaywrightError text)
  end.

Definition put (ev : result_event) : M unit := emit (QueuePut ev).
Definition logging (lvl : log_level) (text : string) : M unit := emit (Logging lvl text).

(** ** Paths: the part of [pathlib] the source uses (POSIX flavour) *)

(** [sep.join(parts)] for a one-character separator. *)
Fixpoint join (sep : ascii) (parts : list string) : string :=
  match parts with
  | [] => EmptyString
  | [p] => p
  | p :: rest => p ++ String sep (join sep rest)
  end.

(** A parsed path: the root (empty, one slash, or two slashes when the text
    starts with exactly two) and the parts. *)
Record pure_path := PurePath { path_root : string; path_parts : list string }.

Definition is_slash (c : ascii) : bool := Ascii.eqb c "/".

Definition path_root_of (text : string) : string :=
  let slashes := String.length text - String.length (PyStr.lstrip_by is_slash text) in
  if slashes =? 0 then "" else if slashes =? 2 then "//" else "/".

(** The parts of a text: empty parts and [.] are dropped, [..] is kept. *)
Definition path_parts_of (text : string) : list string :=
  filter (fun part => negb (String.eqb part "" || String.eqb part "."))
    (PyStr.split "/" text).

Definition parse_path (text : string) : pure_path :=
  PurePath (path_root_of text) (path_parts_of text).

(** [str(path)] *)
Definition path_str (p : pure_path) : string :=
  match path_root p, path_parts p with
  | EmptyString, [] => "."
  | root, parts => root ++ join "/" parts
  end.

(** [str(Path(dir) / name)]: a rooted [name] replaces [dir]. *)
Definition path_join (dir name : string) : string :=
  let d := parse_path dir in
  let n := parse_path name in
  if String.eqb (path_root n) "" then
    path_str (PurePath (path_root d) (path_parts d ++ path_parts n))
  else path_str n.

(** [path.name], for [path] as [str] gives it. *)
Definition path_name (path : string) : string :=
  last (path_parts_of path) "".

(** ** Task 1: [run_uan_extraction] *)

(** One dict of [all_uan_data]; the keys, in insertion order, are the
    columns of the frame built from the list. *)
Record uan_record := UanRecord {
  rec_uan : string; rec_name : string; rec_joining_date : string; rec_exit_date : string }.

Definition uan_columns : list string := ["UAN"; "Name"; "Joining Date"; "Exit Date"].

(** [pd.DataFrame(all_uan_data)] for a list of dicts with these four keys. *)
Definition DataFrame_of_records (data : list uan_record) : DataFrame :=
  Frame uan_columns
    (map (fun r => [Some (rec_uan r); Some (rec_name r);
                    Some (rec_joining_date r); Some (rec_exit_date r)]) data).

(** The three cells read from the first row of [#memberList]. *)
Record member_row := MemberRow {
  name_text : string; joining_date_text : string; exit_date_text : string }.

(** The world during one UAN task: the way to the profile list, for the
    [i]-th search the cells of the first result row, and what
    [df.to_excel(path, index=False)] does for a path: it returns, or it
    raises (a [ValueError] when pandas has no engine for the extension of
    the path). *)
Record uan_world := UanWorld {
  member_profile_nav : pw unit;
  member_search : nat -> pw member_row;
  excel_write : string -> exn + unit }.

Fixpoint uan_loop (w : uan_world) (i : nat) (uans : list string)
    (all_uan_data : list uan_record) : M (list uan_record) :=
  match uans with
  | [] => ret all_uan_data
  | uan :: rest =>
      put (status_update ("Extracting data for UAN: " ++ uan ++ "...")) ;;
      all_uan_data' <-
        try_except
          (row <- page (member_search w i) ;;
           ret (all_uan_data ++
                  [UanRecord uan (PyStr.strip (name_text row))
                     (PyStr.strip (joining_date_text row))
                     (PyStr.strip (exit_date_text row))]))
          [PlaywrightError]
          (fun e => logging log_error
                      ("Could not extract all data for UAN " ++ uan ++ ": " ++ message e) ;;
                    ret all_uan_data) ;;
      uan_loop w (S i) rest all_uan_data'
  end.

Definition run_uan_extraction (w : uan_world) (uans : list string)
    (output_file : string) : M unit :=
  put (status_update "Starting UAN extraction...") ;;
  arrived <-
    try_except (page (member_profile_nav w) ;; ret true) [PlaywrightError]
      (fun e => put (error ("Could not navigate to 'Member Profile': " ++ message e)) ;;
                ret false) ;;
  if arrived then
    all_uan_data <- uan_loop w 0 uans [] ;;
    (match all_uan_data with
     | _ :: _ =>
         emit (ToExcel output_file (DataFrame_of_records all_uan_data)) ;;
         of_sum (excel_write w output_file) ;;
         put (info ("UAN data extracted and saved to " ++ output_file))
     | [] => put (info "No UAN data was extracted.")
     end) ;;
    put (status_update "UAN extraction finished.")
  else ret tt.

(** ** Task 2: [run_ecr_extraction] *)

(** What one row of [table#tbRecentClaimList] answers. *)
Record ecr_row := EcrRow {
  wage_month_cell : pw string;    (* td:nth-child(3) inner_text *)
  status_cell : pw string;        (* td:nth-child(8) inner_text *)
  trrn_cell : pw string;          (* td:nth-child(2) inner_text *)
  pdf_link_count : pw nat;        (* td:nth-child(10) a, count() *)
  pdf_download : pw unit;         (* the click and the wait for the download *)
  pdf_save : pw unit }.           (* download.save_as *)

(** One result page: the rows found after the settle delay, whether the
    Next control is visible, and what clicking it does. *)
Record ecr_page := EcrPage {
  ecr_rows : pw (list ecr_row);
  next_visible : pw bool;
  next_click : pw unit }.

Record ecr_world := EcrWorld {
  ecr_nav : pw unit;
  ecr_pages : list ecr_page }.

Definition download_dir : string := "ecr_downloads".

(** The body of the [try] of one row. *)
Definition ecr_row_body (start_date end_date : datetime) (row : ecr_row)
    (downloaded_files : list string) : M (list string) :=
  wage_month_str <- page (wage_month_cell row) ;;
  status_text <- page (status_cell row) ;;
  if String.eqb (PyStr.strip status_text) "Payment Confirmed" then
    match PyStr.split "-" wage_month_str with
    | [month_str; year_str] =>
        y <- match PyStr.int year_str with
             | Some y => ret y
             | None => raise (Exn ValueError (PyStr.int_error year_str))
             end ;;
        wage_date <- of_sum (mk_datetime y (get_month_index month_str) 1) ;;
        if datetime_le start_date wage_date && datetime_le wage_date end_date then
          trrn_text <- page (trrn_cell row) ;;
          let trrn := PyStr.strip trrn_text in
          put (status_update ("Downloading PDF for " ++ trrn ++ "...")) ;;
          links <- page (pdf_link_count row) ;;
          if 0 <? links then
            emit DownloadClick ;;
            page (pdf_download row) ;;
            let file_path := path_join download_dir (trrn ++ "_" ++ wage_month_str ++ ".pdf") in
            page (pdf_save row) ;;
            emit (SaveAs file_path) ;;
            ret (downloaded_files ++ [file_path])
          else ret downloaded_files
        else ret downloaded_files
    | [_] => raise (Exn ValueError "not enough values to unpack (expected 2, got 1)")
    | _ => raise (Exn ValueError "too many values to unpack (expected 2)")
      (* three parts or more: [split] never returns the empty list *)
    end
  else ret downloaded_files.

(** One iteration of [for row in rows], with its [except]. *)
Definition ecr_process_row (start_date end_date : datetime) (row : ecr_row)
    (downloaded_files : list string) : M (list string) :=
  try_except (ecr_row_body start_date end_date row downloaded_files)
    [PlaywrightError; ValueError]
    (fun e => logging log_error ("Error processing a row: " ++ message e) ;;
              ret downloaded_files).

Fixpoint ecr_rows_loop (start_date end_date : datetime) (rows : list ecr_row)
    (downloaded_files : list string) : M (list string) :=
  match rows with
  | [] => ret downloaded_files
  | row :: rest =>
      downloaded_files' <- ecr_process_row start_date end_date row downloaded_files ;;
      ecr_rows_loop start_date end_date rest downloaded_files'
  end.

(** The [while True] over the result pages. *)
Fixpoint ecr_page_loop (start_date end_date : datetime) (pages : list ecr_page)
    (downloaded_files : list string) : M (list string) :=
  match pages with
  | [] => blocked
  | p :: later =>
      rows <- page (ecr_rows p) ;;
      downloaded_files' <- ecr_rows_loop start_date end_date rows downloaded_files ;;
      visible <- page (next_visible p) ;;
      if negb visible then ret downloaded_files'
      else page (next_click p) ;;
           ecr_page_loop start_date end_date later downloaded_files'
  end.

(** The [FileNotFoundError] of the file system for [path], as a POSIX
    system words it. *)
Definition no_such_file (path : string) : exn :=
  Exn FileNotFoundError ("[Errno 2] No such file or directory: " ++ PyStr.repr path).

(** [for f in files: zf.write(f, f.name); os.remove(f)], after the paths of
    [removed] have been removed: [zf.write] of a removed path raises
    [FileNotFoundError]. *)
Fixpoint zip_and_remove_from (removed files : list string) : M unit :=
  match files with
  | [] => ret tt
  | f :: rest =>
      emit (ZipWrite f (path_name f)) ;;
      (if existsb (String.eqb f) removed then raise (no_such_file f) else ret tt) ;;
      emit (Remove f) ;;
      zip_and_remove_from (f :: removed) rest
  end.

Definition zip_and_remove (files : list string) : M unit := zip_and_remove_from [] files.

(** The part after the page loop: the archive and the closing events. *)
Definition ecr_archive (start_date end_date : datetime) (downloaded_files : list string)
    : M unit :=
  (match downloaded_files with
   | _ :: _ =>
       let zip_filename := ("ECR_Statements_" ++ strftime_Ym start_date ++ "_to_"
                           ++ strftime_Ym end_date ++ ".zip")%string in
       emit (ZipOpen zip_filename) ;;
       zip_and_remove downloaded_files ;;
       put (info ("ECR PDFs zipped to " ++ zip_filename))
   | [] => put (info "No matching ECR statements found.")
   end) ;;
  put (status_update "ECR extraction finished.").

Definition run_ecr_extraction (w : ecr_world) (start_date end_date : datetime) : M unit :=
  put (status_update "Starting ECR PDF extraction...") ;;
  arrived <-
    try_except (page (ecr_nav w) ;; ret true) [PlaywrightError]
      (fun e => put (error ("Could not navigate to ECR page: " ++ message e)) ;;
                ret false) ;;
  if arrived then
    emit (Mkdir download_dir) ;;
    downloaded_files <- ecr_page_loop start_date end_date (ecr_pages w) [] ;;
    ecr_archive start_date end_date downloaded_files
  else ret tt.

(** ** Task 3: [run_msd_extraction] *)

(** A body row of the grid: its [td] handles, each with the answer of its
    [inner_text()]. *)
Definition msd_row : Type := pw (list (pw string)).

(** One page of the grid of one UAN. *)
Record msd_page := MsdPage {
  msd_rows : pw (list msd_row);          (* tr.jqgrow, all() *)
  pager_right : pw string;               (* #profileServicePager_right inner_text *)
  next_class : pw (option string);       (* #next_profileServicePager class attribute *)
  next_page_click : pw unit }.           (* the click and the wait for the grid *)

(** The portal while one UAN is searched. *)
Record msd_search := MsdSearch {
  search_submit : pw unit;               (* fill, click Search, wait for the grid *)
  header_texts : pw (list string);       (* th, all_inner_texts() *)
  msd_pages : list msd_page }.

Record msd_world := MsdWorld {
  msd_nav : pw unit;
  msd_searches : nat -> msd_search }.

Definition excel_dir : string := "msd_excel_files".

(** [[h.strip() for h in headers if h.strip()][1:]] *)
Definition msd_headers (headers : list string) : list string :=
  tl (map PyStr.strip
        (filter (fun h => negb (String.eqb (PyStr.strip h) "")) headers)).

(** [[cell.inner_text() for cell in cells]] *)
Fixpoint inner_texts (cells : list (pw string)) : M (list string) :=
  match cells with
  | [] => ret []
  | cell :: rest =>
      text <- page cell ;;
      texts <- inner_texts rest ;;
      ret (text :: texts)
  end.

(** The body of [for row in rows]: the first cell is skipped. *)
Definition msd_row_data (row : msd_row) : M (list string) :=
  cells <- page row ;;
  inner_texts (tl cells).

Fixpoint msd_rows_loop (rows : list msd_row) (all_rows_data : list (list string))
    : M (list (list string)) :=
  match rows with
  | [] => ret all_rows_data
  | row :: rest =>
      row_data <- msd_row_data row ;;
      msd_rows_loop rest (all_rows_data ++ [row_data])
  end.

Definition is_empty {A} (l : list A) : bool :=
  match l with [] => true | _ => false end.

(** The [while True] over the pages of one UAN. *)
Fixpoint msd_page_loop (uan : string) (pages : list msd_page)
    (all_rows_data : list (list string)) : M (list (list string)) :=
  match pages with
  | [] => blocked
  | p :: later =>
      rows <- page (msd_rows p) ;;
      not_found <-
        (if is_empty rows && is_empty all_rows_data then
           text <- page (pager_right p) ;;
           if PyStr.contains "Member not found" text then
             logging log_warning ("Member not found for UAN: " ++ uan) ;;
             ret true
           else ret false
         else ret false) ;;
      if (not_found : bool) then ret all_rows_data
      else
        all_rows_data' <- msd_rows_loop rows all_rows_data ;;
        class <- page (next_class p) ;;
        if PyStr.contains "ui-state-disabled"
             (match class with Some c => c | None => "" end)
        then ret all_rows_data'
        else
          put (status_update ("UAN " ++ uan ++ ": Found multiple pages, going to next page...")) ;;
          page (next_page_click p) ;;
          msd_page_loop uan later all_rows_data'
  end.

(** One iteration of [for uan in uans]. *)
Definition msd_process_uan (s : msd_search) (uan : string)
    (generated_files : list string) : M (list string) :=
  put (status_update ("Processing UAN: " ++ uan)) ;;
  page (search_submit s) ;;
  texts <- page (header_texts s) ;;
  let headers := msd_headers texts in
  all_rows_data <- msd_page_loop uan (msd_pages s) [] ;;
  match all_rows_data with
  | _ :: _ =>
      df <- of_sum (pd_DataFrame all_rows_data headers) ;;
      let excel_path := path_join excel_dir (uan ++ ".xlsx") in
      emit (ToExcel excel_path df) ;;
      logging log_info ("Saved service details for UAN " ++ uan ++ " to " ++ excel_path) ;;
      ret (generated_files ++ [excel_path])
  | [] => ret generated_files
  end.

Fixpoint msd_uan_loop (w : msd_world) (i : nat) (uans : list string)
    (generated_files : list string) : M (list string) :=
  match uans with
  | [] => ret generated_files
  | uan :: rest =>
      generated_files' <- msd_process_uan (msd_searches w i) uan generated_files ;;
      msd_uan_loop w (S i) rest generated_files'
  end.

(** The body of the one [try] of the function. *)
Definition msd_try_body (w : msd_world) (uans : list string) : M (list string) :=
  put (status_update "Navigating to Member Service Details page...") ;;
  page (msd_nav w) ;;
  msd_uan_loop w 0 uans [].

Definition msd_zip_filename : string := "Member_Service_Details.zip".

(** The part after the [try]: the archive, the clean-up and the closing
    events. *)
Definition msd_archive (generated_files : list string) : M unit :=
  (match generated_files with
   | _ :: _ =>
       put (status_update ("Zipping " ++ PyStr.of_nat (length generated_files)
                           ++ " Excel files...")) ;;
       emit (ZipOpen msd_zip_filename) ;;
       zip_and_remove generated_files ;;
       emit (Rmdir excel_dir) ;;          (* excel_dir.exists(): made at the start *)
       put (info ("Task complete. All service details saved to " ++ msd_zip_filename))
   | [] => put (info "No data was extracted or saved.")
   end) ;;
  put (status_update "Member Service Detail extraction finished.").

Definition run_msd_extraction (w : msd_world) (uans : list string) : M unit :=
  put (status_update "Starting Member Service Detail extraction...") ;;
  emit (Mkdir excel_dir) ;;
  finished <-
    try_except (generated_files <- msd_try_body w uans ;; ret (Some generated_files))
      [PlaywrightError]
      (fun e => put (error ("An error occurred during MSD extraction: " ++ message e)) ;;
                ret None) ;;
  match finished with
  | None => ret tt
  | Some generated_files => msd_archive generated_files
  end.

(** ** The worker thread: [playwright_worker] *)

(** The browser while one command is handled. *)
Record page_world := PageWorld {
  goto_login : pw unit;          (* page.goto(portal) *)
  login_marker : pw unit;        (* wait_for_selector('a:has-text("Member")', 5000) *)
  uan_task : uan_world;
  ecr_task : ecr_world;
  msd_task : msd_world }.

(** The branches of the dispatch, for a command other than [shutdown]. *)
Definition handle (c : command) (w : page_world) : M unit :=
  match c with
  | shutdown => ret tt
  | open_login_page =>
      try_except (page (goto_login w) ;; put browser_opened) [PlaywrightError]
        (fun e => put (error ("Could not navigate: " ++ message e)))
  | verify_login =>
      try_except (page (login_marker w) ;; put (login_verified true)) [PlaywrightError]
        (fun _ => put (login_verified false))
  | run_uan uans output_file => run_uan_extraction (uan_task w) uans output_file
  | run_ecr start_date end_date => run_ecr_extraction (ecr_task w) start_date end_date
  | run_msd uans => run_msd_extraction (msd_task w) uans
  | other_command _ => ret tt
  end.

Definition is_shutdown (c : command) : bool :=
  match c with shutdown => true | _ => false end.

(** The [while True] of the worker over the commands that will be queued,
    each with the browser's behaviour while it is handled.  It returns the
    commands still queued when the loop is left. *)
Fixpoint worker_loop (queue : list (command * page_world))
    : M (list (command * page_world)) :=
  match queue with
  | [] => blocked
  | (c, w) :: later =>
      emit (QueueGet c) ;;
      if is_shutdown c then
        put (status_update "Shutting down...") ;;
        ret later
      else
        try_except (handle c w) Exception
          (fun e => put (error ("An unexpected error occurred in the worker thread: "
                                ++ message e))) ;;
        worker_loop later
  end.

Definition playwright_worker (launch : pw unit) (queue : list (command * page_world))
    : M (list (command * page_world)) :=
  started <-
    try_except
      (page launch ;; put (status_update "Ready. Please log in to begin.") ;; ret true)
      [PlaywrightError]
      (fun e => put (error ("Could not launch browser: " ++ message e)) ;;
                emit PlaywrightStop ;;
                ret false) ;;
  if started then
    remaining <- worker_loop queue ;;
    emit PlaywrightStop ;;
    emit BrowserClose ;;
    ret remaining
  else ret queue.

(** ** The GUI thread: the button handlers *)

(** What the handlers and the result poll do besides changing widgets. *)
Inductive gui_effect :=
| CommandPut (c : command)                 (* command_queue.put *)
| ShowError (title text : string)          (* messagebox.showerror *)
| ShowInfo (title text : string)           (* messagebox.showinfo *)
| ShowWarning (title text : string).       (* messagebox.showwarning *)

(** [[u.strip() for u in text.split(',') if u.strip()]] *)
Definition parse_uans (text : string) : list string :=
  map PyStr.strip
    (filter (fun u => negb (String.eqb (PyStr.strip u) "")) (PyStr.split "," text)).

(** [uan_button_command], on the text of the UAN box and of the output
    file entry. *)
Definition uan_button_command (uans_text output_file : string) : list gui_effect :=
  let uans := parse_uans uans_text in
  if is_empty uans || String.eqb output_file "" then
    [ShowError "Input Error" "Please provide UANs and an output file path."]
  else [CommandPut (run_uan uans output_file)].

(** [msd_button_command], on the text of its UAN box. *)
Definition msd_button_command (uans_text : string) : list gui_effect :=
  let uans := parse_uans uans_text in
  if is_empty uans then
    [ShowError "Input Error"
       "Please provide at least one UAN for Service Detail extraction."]
  else [CommandPut (run_msd uans)].

(** [month_map = {name: i+1 for i, name in enumerate(months)}]; [None] is
    the [KeyError] of a name that is no key. *)
Definition month_map (name : string) : option Z :=
  option_map (fun i => Z.of_nat i + 1)%Z (list_index name months).

(** [datetime(int(year_text), month_map[month_name], 1)]: the date, or
    the exception that ends the evaluation. *)
Inductive date_entry :=
| DateOk (d : datetime)
| DateValueError          (* of [int] or of [datetime] *)
| DateKeyError            (* of [month_map] *)
| DateOverflowError.      (* of [datetime] *)

Definition entry_date (year_text month_name : string) : date_entry :=
  match PyStr.int year_text with
  | None => DateValueError
  | Some y =>
      match month_map month_name with
      | None => DateKeyError
      | Some m =>
          match mk_datetime y m 1 with
          | inr d => DateOk d
          | inl e => match cls e with
                     | OverflowError => DateOverflowError
                     | _ => DateValueError
                     end
          end
      end
  end.

(** How a handler ends: it returns, or an exception leaves it. *)
Inductive handler_end := Returned | Escaped (c : exn_class).

(** [ecr_button_command], on the texts of the two year entries and the two
    month boxes; its [except] names [ValueError] and [KeyError]. *)
Definition ecr_button_command (start_year start_month end_year end_month : string)
  : list gui_effect * handler_end :=
  let input_error := ([ShowError "Input Error" "Please provide a valid date range."],
                      Returned) in
  match entry_date start_year start_month with
  | DateOk start_date =>
      match entry_date end_year end_month with
      | DateOk end_date => ([CommandPut (run_ecr start_date end_date)], Returned)
      | DateOverflowError => ([], Escaped OverflowError)
      | _ => input_error
      end
  | DateOverflowError => ([], Escaped OverflowError)
  | _ => input_error
  end.

(** ** The GUI thread: widgets and the result poll *)

Inductive tk_state := DISABLED | NORMAL.

(** The widgets [update_ui_state] acts on: whether each of the three login
    buttons is packed, the state given to the children of the three task
    frames, and the text of the status bar. *)
Record ui := Ui {
  login_button : bool;
  verify_button : bool;
  logout_button : bool;
  task_state : tk_state;
  status_var : string }.

Definition update_status (text : string) (u : ui) : ui :=
  Ui (login_button u) (verify_button u) (logout_button u) (task_state u) text.

Definition update_ui_state (state_name : string) (u : ui) : ui :=
  if String.eqb state_name "initial" then
    Ui true false false DISABLED (status_var u)
  else if String.eqb state_name "waiting_for_verify" then
    Ui false true true DISABLED (status_var u)
  else if String.eqb state_name "logged_in" then
    Ui false false true NORMAL (status_var u)
  else Ui (login_button u) (verify_button u) (logout_button u) DISABLED (status_var u).

(** The window after the set-up at the end of the script. *)
Definition initial_ui : ui :=
  update_status "Starting up... Please wait for the 'Ready' signal."
    (update_ui_state "initial" (Ui false false false DISABLED "")).

(** What one event taken from [result_queue] does. *)
Definition show_result (ev : result_event) (u : ui) : list gui_effect * ui :=
  match ev with
  | status_update data => ([], update_status data u)
  | error data =>
      ([ShowError "Error" data], update_status "Error occurred. Ready for new task." u)
  | info data => ([ShowInfo "Info" data], u)
  | browser_opened =>
      ([], update_status "Browser open. Please log in manually on the website."
             (update_ui_state "waiting_for_verify" u))
  | login_verified true =>
      ([ShowInfo "Success" "Login verified! You can now use the extraction tools."],
       update_status "Logged In. Ready for tasks." (update_ui_state "logged_in" u))
  | login_verified false =>
      ([ShowWarning "Verification Failed"
          "Login not detected. Please ensure you are fully logged in on the website and then click 'Verify Login Status' again."],
       update_status "Login not verified. Please log in on the website." u)
  end.

(** One run of [process_result_queue]: the first event of the queue, if
    there is one, is taken and shown. *)
Definition process_result_queue (queue : list result_event) (u : ui)
  : list gui_effect * ui * list result_event :=
  match queue with
  | [] => ([], u, [])
  | ev :: rest => (fst (show_result ev u), snd (show_result ev u), rest)
  end.

(** The poll, run [n] times every 100 ms. *)
Fixpoint poll (n : nat) (queue : list result_event) (u : ui)
  : list gui_effect * ui * list result_event :=
  match n with
  | 0 => ([], u, queue)
  | S n' =>
      let '(shown, u', queue') := process_result_queue queue u in
      let '(shown', u'', queue'') := poll n' queue' u' in
      (shown ++ shown', u'', queue'')
  end.

(** ** Reading a trace *)

Definition is_queue_get (e : effect) : bool :=
  match e with QueueGet _ => true | _ => false end.

Definition is_put_error (e : effect) : bool :=
  match e with QueuePut (error _) => true | _ => false end.

Definition is_browser_close (e : effect) : bool :=
  match e with BrowserClose => true | _ => false end.

Definition is_download_click (e : effect) : bool :=
  match e with DownloadClick => true | _ => false end.

(** How often an effect of a kind occurs in a trace. *)
Definition occurrences (kind : effect -> bool) (t : trace) : nat :=
  length (filter kind t).

(** The effects of the task functions and of the two small handlers: all
    but those of the worker's own loop and tear-down. *)
Definition task_effect (e : effect) : Prop :=
  match e with
  | QueueGet _ | PlaywrightStop | BrowserClose => False
  | _ => True
  end.

(** ** Sample data *)

Definition jan_2024 : datetime := Datetime 2024 1 1.
Definition mar_2024 : datetime := Datetime 2024 3 1.

Definition timeout_text : string := "Timeout 30000ms exceeded.".

(** A confirmed statement of February 2024 with its PDF link. *)
Definition row_feb_2024 : ecr_row :=
  EcrRow (Ok "Feb-2024") (Ok "Payment Confirmed") (Ok "TRRN2") (Ok 1) (Ok tt) (Ok tt).

(** A confirmed statement whose month name is unknown and whose year does
    not fit a C [int]. *)
Definition row_far_year : ecr_row :=
  EcrRow (Ok "Xyz-99999999999") (Ok "Payment Confirmed") (Ok "TRRN1") (Ok 1) (Ok tt) (Ok tt).

Definition ecr_far_year_world : ecr_world :=
  EcrWorld (Ok tt) [EcrPage (Ok [row_far_year; row_feb_2024]) (Ok false) (Ok tt)].

(** A grid page whose rows and cells all read well. *)
Definition grid_row (texts : list string) : msd_row := Ok (map Ok texts).

Definition grid_page (rows : list (list string)) (class : option string) : msd_page :=
  MsdPage (Ok (map grid_row rows)) (Ok "") (Ok class) (Ok tt).

(** A grid whose first header is the blank row-number column. *)
Definition blank_first_header : msd_search :=
  MsdSearch (Ok tt) (Ok [""; "Name"; "Joining Date"])
    [grid_page [["1"; "A. Kumar"; "01/04/2019"]] (Some "ui-state-disabled")].

Definition idle_uan_world : uan_world :=
  UanWorld (Ok tt) (fun _ => Err timeout_text) (fun _ => inr tt).
Definition idle_ecr_world : ecr_world := EcrWorld (Ok tt) [].

(** A browser in which the login marker does not show and the service
    details grid is the one above. *)
Definition sample_page_world : page_world :=
  PageWorld (Ok tt) (Err timeout_text) idle_uan_world idle_ecr_world
    (MsdWorld (Ok tt) (fun _ => blank_first_header)).

(** Only exceptions of a class with the property leave the computation. *)
Definition raises_only {A} (P : exn_class -> Prop) (m : M A) : Prop :=
  match snd m with
  | Exc e => P (cls e)
  | _ => True
  end.

(** The commands a trace shows as taken from [command_queue], in order. *)
Definition dequeued (t : trace) : list command :=
  flat_map (fun e => match e with QueueGet c => [c] | _ => [] end) t.

(** The event the worker's [except Exception] puts for [e]. *)
Definition worker_error (e : exn) : effect :=
  QueuePut (error ("An unexpected error occurred in the worker thread: " ++ message e)).

Definition shutting_down : effect := QueuePut (status_update "Shutting down...").

(** The effects of [run_msd_extraction] on the grid with the blank first
    header, up to the [ValueError] of the frame. *)
Definition blank_first_header_trace (uan : string) : trace :=
  [QueuePut (status_update "Starting Member Service Detail extraction...");
   Mkdir "msd_excel_files";
   QueuePut (status_update "Navigating to Member Service Details page...");
   QueuePut (status_update ("Processing UAN: " ++ uan))].

Definition columns_mismatch : exn :=
  Exn ValueError "1 columns passed, passed data had 2 columns".

Definition is_to_excel (e : effect) : bool :=
  match e with ToExcel _ _ => true | _ => false end.

(** ** Vocabulary for the UAN lookup *)

(** The requested UANs whose search was read, the searches being numbered
    from [i], in request order. *)
Fixpoint found_uans (w : uan_world) (i : nat) (uans : list string) : list string :=
  match uans with
  | [] => []
  | uan :: rest =>
      match member_search w i with
      | Ok _ => uan :: found_uans w (S i) rest
      | Err _ => found_uans w (S i) rest
      end
  end.

(** The records the loop adds: one per search that was read, in order. *)
Fixpoint uan_records (w : uan_world) (i : nat) (uans : list string) : list uan_record :=
  match uans with
  | [] => []
  | uan :: rest =>
      match member_search w i with
      | Ok row =>
          UanRecord uan (PyStr.strip (name_text row)) (PyStr.strip (joining_date_text row))
            (PyStr.strip (exit_date_text row)) :: uan_records w (S i) rest
      | Err _ => uan_records w (S i) rest
      end
  end.

(** The first column of a frame. *)
Definition first_column (df : DataFrame) : list (option string) :=
  map (fun row => nth 0 row None) (values df).

(** A portal on which every search shows the same member. *)
Definition same_member_world : uan_world :=
  UanWorld (Ok tt) (fun _ => Ok (MemberRow "A. Kumar" "01/04/2019" "")) (fun _ => inr tt).

(** A portal on which the second search fails and the others succeed. *)
Definition second_fails_world : uan_world :=
  UanWorld (Ok tt)
    (fun i => if i =? 1 then Err timeout_text
              else Ok (MemberRow "A. Kumar" "01/04/2019" ""))
    (fun _ => inr tt).

(** The [ValueError] of [to_excel] for a path without an extension. *)
Definition no_engine : exn := Exn ValueError "No engine for filetype: ''".

(** As [same_member_world], with [to_excel] refusing the path [epfo_data],
    which has no extension. *)
Definition no_engine_world : uan_world :=
  UanWorld (Ok tt) (fun _ => Ok (MemberRow "A. Kumar" "01/04/2019" ""))
    (fun path => if String.eqb path "epfo_data" then inl no_engine else inr tt).

(** ** Vocabulary for the ECR download *)

(** The calendar month a wage-month text "Mon-YYYY" denotes, as the
    first day of that month. *)
Definition wage_month (text : string) : option datetime :=
  match PyStr.split "-" text with
  | [month_str; year_str] =>
      match PyStr.int year_str with
      | Some y =>
          match mk_datetime y (get_month_index month_str) 1 with
          | inr d => Some d
          | inl _ => None
          end
      | None => None
      end
  | _ => None
  end.

(** The text has a year part that is an integer too large for a C [int]. *)
Definition year_overflows (text : string) : bool :=
  match PyStr.split "-" text with
  | [_; year_str] =>
      match PyStr.int year_str with
      | Some y => negb (fits_c_int y)
      | None => false
      end
  | _ => false
  end.

(** The row is a confirmed payment with such a year. *)
Definition row_overflows (row : ecr_row) : bool :=
  match wage_month_cell row, status_cell row with
  | Ok wage, Ok status =>
      String.eqb (PyStr.strip status) "Payment Confirmed" && year_overflows wage
  | _, _ => false
  end.



(** The two conditions together, as a test. *)
Definition downloads (start_date end_date : datetime) (row : ecr_row) : bool :=
  match wage_month_cell row, status_cell row, trrn_cell row, pdf_link_count row with
  | Ok wage, Ok status, Ok _, Ok (S _) =>
      String.eqb (PyStr.strip status) "Payment Confirmed"
      && match wage_month wage with
         | Some d => datetime_le start_date d && datetime_le d end_date
         | None => false
         end
  | _, _, _, _ => false
  end.


(** A confirmed February statement without a PDF link. *)
Definition row_without_link : ecr_row :=
  EcrRow (Ok "Feb-2024") (Ok "Payment Confirmed") (Ok "TRRN3") (Ok 0) (Ok tt) (Ok tt).


(** A confirmed statement whose wage month has no known month name. *)
Definition row_unknown_month : ecr_row :=
  EcrRow (Ok "Xyz-2024") (Ok "Payment Confirmed") (Ok "TRRN4") (Ok 1) (Ok tt) (Ok tt).

Definition c_int_overflow (y : Z) : exn :=
  Exn OverflowError (c_int_overflow_text y).

Definition single_page (rows : list ecr_row) : ecr_world :=
  EcrWorld (Ok tt) [EcrPage (Ok rows) (Ok false) (Ok tt)].

(** ** Vocabulary for the service details scraper *)

(** The status update that opens the handling of a UAN. *)
Definition is_processing (e : effect) : bool :=
  match e with
  | QueuePut (status_update text) => String.prefix "Processing UAN: " text
  | _ => false
  end.

(** The number of UANs whose handling a trace shows as started. *)
Definition started (t : trace) : nat := occurrences is_processing t.

(** Archiving and cleaning up. *)
Definition is_cleanup (e : effect) : bool :=
  match e with
  | ZipOpen _ | ZipWrite _ _ | Remove _ | Rmdir _ => true
  | _ => false
  end.

Definition msd_finished : effect :=
  QueuePut (status_update "Member Service Detail extraction finished.").

(** What the [try] of [run_msd_extraction] can do: status updates other
    than the closing one, log lines, and tables written. *)
Definition msd_body_effect (e : effect) : Prop :=
  match e with
  | QueuePut (status_update text) =>
      text <> "Member Service Detail extraction finished."
  | Logging _ _ | ToExcel _ _ => True
  | _ => False
  end.

(** An effect of the body that does not open the handling of a UAN. *)
Definition quiet (e : effect) : Prop := msd_body_effect e /\ is_processing e = false.

(** A one-page grid with a numbered first column. *)
Definition one_member : msd_search :=
  MsdSearch (Ok tt) (Ok ["No"; "Name"; "Joining Date"])
    [grid_page [["1"; "A. Kumar"; "01/04/2019"]] (Some "ui-state-disabled")].

(** A grid whose only row loses its second cell while it is read. *)
Definition detached_cell : msd_search :=
  MsdSearch (Ok tt) (Ok ["No"; "Name"; "Joining Date"])
    [MsdPage (Ok [Ok [Ok "1"; Err "Element is not attached to the DOM"; Ok "01/04/2019"]])
       (Ok "") (Ok (Some "ui-state-disabled")) (Ok tt)].

(** The first UAN reads well, the second has the detached cell, the others
    read well again. *)
Definition second_detached_world : msd_world :=
  MsdWorld (Ok tt) (fun i => if i =? 1 then detached_cell else one_member).




(** The effects of the task on [second_detached_world], inside the [try],
    for three requested UANs. *)
Definition second_detached_trace : trace :=
  [QueuePut (status_update "Navigating to Member Service Details page...");
   QueuePut (status_update "Processing UAN: 100200300400");
   ToExcel "msd_excel_files/100200300400.xlsx"
     (Frame ["Name"; "Joining Date"] [[Some "A. Kumar"; Some "01/04/2019"]]);
   Logging log_info
     "Saved service details for UAN 100200300400 to msd_excel_files/100200300400.xlsx";
   QueuePut (status_update "Processing UAN: 100200300401")].

Definition detached_error : exn :=
  Exn PlaywrightError "Element is not attached to the DOM".

Definition three_uans : list string :=
  ["100200300400"; "100200300401"; "100200300402"].

(** ** Vocabulary for the worker's trace *)

(** The effects of one iteration of the worker loop on a queued command. *)
Definition segment (cw : command * page_world) : trace :=
  QueueGet (fst cw)
  :: (if is_shutdown (fst cw) then [shutting_down]
      else fst (handle (fst cw) (snd cw))
           ++ match snd (handle (fst cw) (snd cw)) with
              | Exc e => [worker_error e]
              | _ => []
              end).

(** How many queued commands the loop takes: up to the first [shutdown],
    or up to the first command whose handler does not come back. *)
Fixpoint taken (queue : list (command * page_world)) : nat :=
  match queue with
  | [] => 0
  | cw :: later =>
      if is_shutdown (fst cw) then 1
      else match snd (handle (fst cw) (snd cw)) with
           | Blocked => 1
           | _ => S (taken later)
           end
  end.

Definition is_playwright_stop (e : effect) : bool :=
  match e with PlaywrightStop => true | _ => false end.

Definition ready : effect := QueuePut (status_update "Ready. Please log in to begin.").

(** ** Vocabulary for the results of the tasks *)

(** The events a trace puts on [result_queue], in order. *)
Definition puts (t : trace) : list result_event :=
  flat_map (fun e => match e with QueuePut ev => [ev] | _ => [] end) t.

(** The paths a trace saves downloads to, in order. *)
Definition saved (t : trace) : list string :=
  flat_map (fun e => match e with SaveAs path => [path] | _ => [] end) t.

(** The paths a trace writes tables to, in order. *)
Definition written (t : trace) : list string :=
  flat_map (fun e => match e with ToExcel path _ => [path] | _ => [] end) t.

(** The status update that opens the search of a UAN. *)
Definition extracting (uan : string) : result_event :=
  status_update ("Extracting data for UAN: " ++ uan ++ "...").

(** The [info] event that closes the UAN lookup. *)
Definition uan_report (found : list string) (output_file : string) : result_event :=
  match found with
  | [] => info "No UAN data was extracted."
  | _ => info ("UAN data extracted and saved to " ++ output_file)
  end.

(** The text equals its own [strip]. *)
Definition stripped (s : string) : Prop := PyStr.strip s = s.

(** The archive step of a task on its list of files: every file is added
    to the archive under its base name and then removed. *)
Definition archived (files : list string) : trace :=
  flat_map (fun f => [ZipWrite f (path_name f); Remove f]) files.

Definition ecr_zip_filename (start_date end_date : datetime) : string :=
  "ECR_Statements_" ++ strftime_Ym start_date ++ "_to_" ++ strftime_Ym end_date ++ ".zip".

(** The effects of [run_ecr_extraction] after the page loop. *)
Definition ecr_closing (start_date end_date : datetime) (files : list string) : trace :=
  match files with
  | [] => [QueuePut (info "No matching ECR statements found.")]
  | _ => ZipOpen (ecr_zip_filename start_date end_date)
         :: archived files
         ++ [QueuePut (info ("ECR PDFs zipped to " ++ ecr_zip_filename start_date end_date))]
  end
  ++ [QueuePut (status_update "ECR extraction finished.")].


(** The effects of [run_msd_extraction] after its [try] when the list of
    files is [a ++ path :: b ++ path :: c], the second [path] being the
    first entry that repeats an earlier one: the files before it are added
    and removed, and the last effect is the call of [zf.write] for the
    removed [path]. *)
Definition msd_stopped (a b c : list string) (path : string) : trace :=
  QueuePut (status_update ("Zipping "
                           ++ PyStr.of_nat (length (a ++ path :: b ++ path :: c))
                           ++ " Excel files..."))
  :: ZipOpen msd_zip_filename
  :: archived (a ++ path :: b) ++ [ZipWrite path (path_name path)].

(** The text of a class attribute: [get_attribute("class") or ""]. *)
Definition class_text (class : option string) : string :=
  match class with Some c => c | None => "" end.

(** The status update put before the grid is turned to its next page. *)
Definition next_page_status (uan : string) : effect :=
  QueuePut (status_update ("UAN " ++ uan ++ ": Found multiple pages, going to next page...")).

(** The path of the table of a UAN. *)
Definition excel_path (uan : string) : string := path_join excel_dir (uan ++ ".xlsx").

(** A portal on which every UAN shows the one-row grid. *)
Definition every_member_world : msd_world := MsdWorld (Ok tt) (fun _ => one_member).

(** ** Vocabulary for texts *)

(** [s.upper()] and [s.lower()] on ASCII text. *)
Fixpoint upper (s : string) : string :=
  match s with
  | EmptyString => EmptyString
  | String c r => String (PyStr.to_upper c) (upper r)
  end.

Fixpoint lower (s : string) : string :=
  match s with
  | EmptyString => EmptyString
  | String c r => String (PyStr.to_lower c) (lower r)
  end.

(** The character occurs in the text. *)
Fixpoint has_char (c : ascii) (s : string) : bool :=
  match s with
  | EmptyString => false
  | String c' r => Ascii.eqb c' c || has_char c r
  end.

(** A UAN as the handlers queue it: not empty, no white space at either
    end, no comma. *)
Definition clean_uan (u : string) : Prop :=
  u <> "" /\ stripped u /\ has_char "," u = false.

(** The line break that ends the text of a Tk text box. *)
Definition newline : string := String (ascii_of_nat 10) EmptyString.

(** ** Vocabulary for the GUI *)

(** A date as the ECR button builds it: the first day of a month of a year
    from 1 to 9999. *)
Definition first_of_month (d : datetime) : Prop :=
  (1 <= year d <= 9999)%Z /\ (1 <= month d <= 12)%Z /\ day d = 1%Z.

(** The three screens of [update_ui_state]. *)
Definition screen (u : ui) : Prop :=
  (login_button u, verify_button u, logout_button u, task_state u)
    = (true, false, false, DISABLED)
  \/ (login_button u, verify_button u, logout_button u, task_state u)
     = (false, true, true, DISABLED)
  \/ (login_button u, verify_button u, logout_button u, task_state u)
     = (false, false, true, NORMAL).

(** Showing a list of events one after the other. *)
Fixpoint show_results (events : list result_event) (u : ui) : list gui_effect * ui :=
  match events with
  | [] => ([], u)
  | ev :: rest =>
      (fst (show_result ev u) ++ fst (show_results rest (snd (show_result ev u))),
       snd (show_results rest (snd (show_result ev u))))
  end.

(** Whether the task widgets are enabled after a list of events: the last
    of the events [browser_opened] and [login_verified True] decides. *)
Fixpoint enabled_after (events : list result_event) (enabled : bool) : bool :=
  match events with
  | [] => enabled
  | browser_opened :: rest => enabled_after rest false
  | login_verified true :: rest => enabled_after rest true
  | _ :: rest => enabled_after rest enabled
  end.

Definition is_normal (s : tk_state) : bool :=
  match s with NORMAL => true | DISABLED => false end.

(** A browser that shows the portal with the Member link. *)
Definition logged_in_world : page_world :=
  PageWorld (Ok tt) (Ok tt) idle_uan_world idle_ecr_world (MsdWorld (Ok tt) (fun _ => one_member)).

(** A challan list whose second page cannot be read. *)
Definition second_page_lost : ecr_world :=
  EcrWorld (Ok tt)
    [EcrPage (Ok [row_feb_2024]) (Ok true) (Ok tt);
     EcrPage (Err timeout_text) (Ok false) (Ok tt)].

(** * Properties *)

(** ** The computations *)

(** The operations of [M] stay folded under [simpl]; the equations below
    and the effect lemmas open them where needed. *)
Arguments bind : simpl never.
Arguments try_except : simpl never.
Arguments ret : simpl never.
Arguments raise : simpl never.
Arguments blocked : simpl never.
Arguments emit : simpl never.
Arguments put : simpl never.
Arguments logging : simpl never.
Arguments page : simpl never.
Arguments of_sum : simpl never.

Lemma bind_val {A B} (t : trace) (a : A) (k : A -> M B) :
  bind (t, Val a) k = (t ++ fst (k a), snd (k a)).
Proof. reflexivity. Qed.

Lemma bind_exc {A B} (t : trace) (e : exn) (k : A -> M B) :
  bind (t, Exc e) k = (t, Exc e).
Proof. reflexivity. Qed.

Lemma bind_blocked {A B} (t : trace) (k : A -> M B) :
  bind (t, Blocked) k = (t, Blocked).
Proof. reflexivity. Qed.

Lemma bind_ret {A B} (a : A) (k : A -> M B) : bind (ret a) k = k a.
Proof. unfold bind, ret; simpl. now destruct (k a). Qed.

Lemma bind_emit {B} (e : effect) (k : unit -> M B) :
  bind (emit e) k = (e :: fst (k tt), snd (k tt)).
Proof. reflexivity. Qed.

Lemma bind_page_ok {A B} (a : A) (k : A -> M B) : bind (page (Ok a)) k = k a.
Proof. apply bind_ret. Qed.


Lemma bind_assoc {A B C} (m : M A) (k : A -> M B) (h : B -> M C) :
  bind (bind m k) h = bind m (fun a => bind (k a) h).
Proof.
  destruct m as [t [a | e | ]]; unfold bind; simpl; try reflexivity.
  destruct (k a) as [t' [b | e | ]]; simpl; try reflexivity.
  now rewrite app_assoc.
Qed.

Lemma isinstance_Exception (e : exn) : isinstance e Exception = true.
Proof. destruct e as [[ | | | ] text]; reflexivity. Qed.

(** A property of every effect of a computation follows from the property
    for its parts. *)
Section EffectsOf.

Variable P : effect -> Prop.

Lemma effects_ret {A} (a : A) : Forall P (fst (ret a)).
Proof. constructor. Qed.

Lemma effects_raise {A} (e : exn) : Forall P (fst (@raise A e)).
Proof. constructor. Qed.

Lemma effects_blocked {A} : Forall P (fst (@blocked A)).
Proof. constructor. Qed.

Lemma effects_page {A} (answer : pw A) : Forall P (fst (page answer)).
Proof. destruct answer; constructor. Qed.

Lemma effects_of_sum {A} (r : exn + A) : Forall P (fst (of_sum r)).
Proof. destruct r; constructor. Qed.

Lemma effects_emit (e : effect) : P e -> Forall P (fst (emit e)).
Proof. intros H; repeat constructor; exact H. Qed.

Lemma effects_put (ev : result_event) : P (QueuePut ev) -> Forall P (fst (put ev)).
Proof. apply effects_emit. Qed.

Lemma effects_logging lvl text : P (Logging lvl text) -> Forall P (fst (logging lvl text)).
Proof. apply effects_emit. Qed.

Lemma effects_bind {A B} (m : M A) (k : A -> M B) :
  Forall P (fst m) -> (forall a, Forall P (fst (k a))) -> Forall P (fst (bind m k)).
Proof.
  intros Hm Hk. destruct m as [t [a | e | ]]; unfold bind; simpl in *; auto.
  apply Forall_app; split; auto.
Qed.

Lemma effects_try_except {A} (body : M A) classes (handler : exn -> M A) :
  Forall P (fst body) -> (forall e, Forall P (fst (handler e))) ->
  Forall P (fst (try_except body classes handler)).
Proof.
  intros Hb Hh. destruct body as [t [a | e | ]]; unfold try_except; simpl in *; auto.
  destruct (isinstance e classes); simpl; auto.
  apply Forall_app; split; auto.
Qed.

End EffectsOf.

(** Splits a goal about the effects of a computation along its structure. *)
Ltac effects_step :=
  first
    [ assumption
    | simple apply effects_ret | simple apply effects_raise | simple apply effects_blocked
    | simple apply effects_page | simple apply effects_of_sum
    | simple apply effects_put | simple apply effects_logging | simple apply effects_emit
    | simple apply effects_bind; [ | intros ]
    | simple apply effects_try_except; [ | intros ]
    | match goal with
      | |- Forall _ (fst (if ?b then _ else _)) => destruct b
      | |- Forall _ (fst (match ?x with _ => _ end)) => destruct x
      end ].

Ltac effects := cbv zeta; repeat effects_step.

(** The classes of the exceptions that leave a computation follow from
    those of its parts. *)
Section RaisesOnly.

Variable P : exn_class -> Prop.

Lemma raises_ret {A} (a : A) : raises_only P (ret a).
Proof. exact I. Qed.

Lemma raises_blocked {A} : raises_only P (@blocked A).
Proof. exact I. Qed.

Lemma raises_emit (e : effect) : raises_only P (emit e).
Proof. exact I. Qed.

Lemma raises_put (ev : result_event) : raises_only P (put ev).
Proof. exact I. Qed.

Lemma raises_logging lvl text : raises_only P (logging lvl text).
Proof. exact I. Qed.

Lemma raises_raise {A} (e : exn) : P (cls e) -> raises_only P (@raise A e).
Proof. intros H. exact H. Qed.

Lemma raises_page {A} (answer : pw A) : P PlaywrightError -> raises_only P (page answer).
Proof. intros H. destruct answer; [exact I | exact H]. Qed.

Lemma raises_bind {A B} (m : M A) (k : A -> M B) :
  raises_only P m -> (forall a, raises_only P (k a)) -> raises_only P (bind m k).
Proof.
  unfold raises_only, bind. intros Hm Hk.
  destruct m as [t [a | e | ]]; cbn [fst snd] in *; auto. apply Hk.
Qed.

Lemma raises_try_except {A} (body : M A) classes (handler : exn -> M A) :
  (forall e, snd body = Exc e -> isinstance e classes = false -> P (cls e)) ->
  (forall e, raises_only P (handler e)) ->
  raises_only P (try_except body classes handler).
Proof.
  unfold raises_only, try_except. intros Hb Hh.
  destruct body as [t [a | e | ]]; cbn [fst snd] in *; auto.
  destruct (isinstance e classes) eqn:E; cbn [snd]; [apply Hh | now apply Hb].
Qed.

End RaisesOnly.

Lemma mk_datetime_raises (y m d : Z) :
  match mk_datetime y m d with
  | inl e => cls e = OverflowError \/ cls e = ValueError
  | inr _ => True
  end.
Proof.
  unfold mk_datetime. destruct (first_overflow [y; m; d]); [now left | ].
  repeat match goal with
         | |- context [if ?b then _ else _] => destruct b; [now right | ]
         end.
  exact I.
Qed.

Lemma filter_none (kind : effect -> bool) (t : trace) :
  Forall (fun e => kind e = false) t -> filter kind t = [].
Proof.
  induction 1 as [ | e t He _ IH]; [reflexivity | ].
  cbn [filter]. now rewrite He.
Qed.

(** ** [get_month_index] *)

Lemma list_index_nth (x : string) (l : list string) (i : nat) :
  list_index x l = Some i -> nth_error l i = Some x.
Proof.
  revert i; induction l as [ | y l IH]; intros i; simpl; [discriminate | ].
  destruct (String.eqb_spec y x) as [-> | _].
  - intros [= <-]; reflexivity.
  - destruct (list_index x l) as [j | ]; simpl; [ | discriminate].
    intros [= <-]; simpl; auto.
Qed.

(** The index is that of the title-cased name in the list of months, from
    1 to 12, and -1 for every name that does not title-case to a month. *)
Lemma get_month_index_spec (month_str : string) :
  (forall i, nth_error months i = Some (PyStr.title month_str) ->
             get_month_index month_str = Z.of_nat i + 1
             /\ 1 <= get_month_index month_str <= 12)%Z
  /\ ((forall i, nth_error months i <> Some (PyStr.title month_str)) ->
      get_month_index month_str = (-1)%Z).
Proof.
  split.
  - intros i H. unfold get_month_index.
    do 12 (destruct i as [ | i];
           [ simpl in H; injection H as H; rewrite <- H; simpl; lia | ]).
    destruct i; discriminate.
  - intros H. unfold get_month_index.
    destruct (list_index (PyStr.title month_str) months) as [i | ] eqn:E; [ | reflexivity].
    apply list_index_nth in E. now apply H in E.
Qed.

Example get_month_index_cases :
  get_month_index "jan" = 1%Z /\ get_month_index "SEP" = 9%Z
  /\ get_month_index "dEC" = 12%Z /\ get_month_index "Sept" = (-1)%Z
  /\ get_month_index " Jan" = (-1)%Z /\ get_month_index "" = (-1)%Z.
Proof. repeat split; reflexivity. Qed.

Example python_string_cases :
  PyStr.title "ja n" = "Ja N" /\ PyStr.title "j1n" = "J1N"
  /\ PyStr.strip "  Payment Confirmed " = "Payment Confirmed"
  /\ PyStr.split "-" "Feb--2024" = ["Feb"; ""; "2024"]
  /\ PyStr.split "-" "" = [""]
  /\ PyStr.int " +2_024 " = Some 2024%Z /\ PyStr.int "2__024" = None
  /\ PyStr.int "20 24" = None /\ PyStr.int "" = None
  /\ PyStr.contains "Member not found" "No records. Member not found." = true.
Proof. repeat split; reflexivity. Qed.

(** The result only depends on the title-cased name. *)
Lemma get_month_index_title (a b : string) :
  PyStr.title a = PyStr.title b -> get_month_index a = get_month_index b.
Proof. unfold get_month_index; now intros ->. Qed.

Lemma get_month_index_range (month_str : string) :
  (get_month_index month_str = -1 \/ 1 <= get_month_index month_str <= 12)%Z.
Proof.
  unfold get_month_index.
  destruct (list_index (PyStr.title month_str) months) as [i | ] eqn:E; [ | now left].
  right. apply list_index_nth in E.
  assert (i < length months) by (apply nth_error_Some; congruence).
  simpl in H. lia.
Qed.

(** C7.  At a confirmed row whose month name is unknown and whose year is
    99999999999, [get_month_index] returns the sentinel -1, and
    [datetime] then raises [OverflowError], which the row's [except] does
    not name: the row is not skipped, the page loop is left, and the
    confirmed February row after it is never looked at. *)
Theorem get_month_index_sentinel_far_year :
  get_month_index "Xyz" = (-1)%Z
  /\ ecr_process_row jan_2024 mar_2024 row_far_year []
     = ([], Exc (Exn OverflowError "signed integer is greater than maximum"))
  /\ run_ecr_extraction ecr_far_year_world jan_2024 mar_2024
     = ([QueuePut (status_update "Starting ECR PDF extraction..."); Mkdir "ecr_downloads"],
        Exc (Exn OverflowError "signed integer is greater than maximum")).
Proof. repeat split; vm_compute; reflexivity. Qed.

(** ** The effects of the task functions *)

(** One step of a loop of the source, or of the dispatch. *)
Ltac unroll :=
  cbn [uan_loop ecr_rows_loop ecr_page_loop zip_and_remove_from inner_texts
       msd_rows_loop msd_page_loop msd_uan_loop handle worker_loop].

Section TaskEffects.

(** A property of the effects that the task functions can have. *)
Variable P : effect -> Prop.
Hypothesis P_status : forall text, P (QueuePut (status_update text)).
Hypothesis P_error : forall text, P (QueuePut (error text)).
Hypothesis P_info : forall text, P (QueuePut (info text)).
Hypothesis P_opened : P (QueuePut browser_opened).
Hypothesis P_verified : forall b, P (QueuePut (login_verified b)).
Hypothesis P_logging : forall lvl text, P (Logging lvl text).
Hypothesis P_mkdir : forall dir, P (Mkdir dir).
Hypothesis P_click : P DownloadClick.
Hypothesis P_save : forall path, P (SaveAs path).
Hypothesis P_excel : forall path df, P (ToExcel path df).
Hypothesis P_zip_open : forall name, P (ZipOpen name).
Hypothesis P_zip_write : forall path arcname, P (ZipWrite path arcname).
Hypothesis P_remove : forall path, P (Remove path).
Hypothesis P_rmdir : forall dir, P (Rmdir dir).

Local Hint Resolve P_status P_error P_info P_opened P_verified P_logging P_mkdir P_click P_save P_excel
  P_zip_open P_zip_write P_remove P_rmdir : core.

Ltac task_effects := effects; auto.

Lemma uan_loop_effects w uans : forall i all_uan_data,
  Forall P (fst (uan_loop w i uans all_uan_data)).
Proof.
  induction uans as [ | uan rest IH]; intros i acc; unroll; task_effects.
Qed.

Lemma run_uan_extraction_effects w uans output_file :
  Forall P (fst (run_uan_extraction w uans output_file)).
Proof.
  unfold run_uan_extraction; task_effects.
  all: try apply uan_loop_effects.
Qed.

Lemma ecr_process_row_effects s e row files :
  Forall P (fst (ecr_process_row s e row files)).
Proof. unfold ecr_process_row, ecr_row_body; task_effects. Qed.

Lemma ecr_rows_loop_effects s e rows : forall files,
  Forall P (fst (ecr_rows_loop s e rows files)).
Proof.
  induction rows as [ | row rest IH]; intros files; unroll; task_effects.
  all: try apply ecr_process_row_effects.
Qed.

Lemma ecr_page_loop_effects s e pages : forall files,
  Forall P (fst (ecr_page_loop s e pages files)).
Proof.
  induction pages as [ | p later IH]; intros files; unroll; task_effects.
  all: try apply ecr_rows_loop_effects.
Qed.

Lemma zip_and_remove_from_effects files : forall removed,
  Forall P (fst (zip_and_remove_from removed files)).
Proof. induction files as [ | f rest IH]; intros removed; unroll; task_effects. Qed.

Lemma zip_and_remove_effects files : Forall P (fst (zip_and_remove files)).
Proof. apply zip_and_remove_from_effects. Qed.

Lemma ecr_archive_effects s e files : Forall P (fst (ecr_archive s e files)).
Proof. unfold ecr_archive; task_effects; try apply zip_and_remove_effects. Qed.

Lemma run_ecr_extraction_effects w s e :
  Forall P (fst (run_ecr_extraction w s e)).
Proof.
  unfold run_ecr_extraction; task_effects;
    try solve [apply ecr_page_loop_effects | apply ecr_archive_effects].
Qed.

Lemma inner_texts_effects cells : Forall P (fst (inner_texts cells)).
Proof. induction cells as [ | cell rest IH]; unroll; task_effects. Qed.

Lemma msd_rows_loop_effects rows : forall data,
  Forall P (fst (msd_rows_loop rows data)).
Proof.
  induction rows as [ | row rest IH]; intros data; unroll; task_effects.
  all: try (unfold msd_row_data; task_effects; apply inner_texts_effects).
Qed.

Lemma msd_page_loop_effects uan pages : forall data,
  Forall P (fst (msd_page_loop uan pages data)).
Proof.
  induction pages as [ | p later IH]; intros data; unroll; task_effects;
    try apply msd_rows_loop_effects.
Qed.

Lemma msd_process_uan_effects s uan files :
  Forall P (fst (msd_process_uan s uan files)).
Proof.
  unfold msd_process_uan; task_effects.
  all: try apply msd_page_loop_effects.
Qed.

Lemma msd_uan_loop_effects w uans : forall i files,
  Forall P (fst (msd_uan_loop w i uans files)).
Proof.
  induction uans as [ | uan rest IH]; intros i files; unroll; task_effects.
  all: try apply msd_process_uan_effects.
Qed.

Lemma msd_archive_effects files : Forall P (fst (msd_archive files)).
Proof.
  unfold msd_archive; task_effects; try apply zip_and_remove_effects.
Qed.

Lemma run_msd_extraction_effects w uans :
  Forall P (fst (run_msd_extraction w uans)).
Proof.
  unfold run_msd_extraction, msd_try_body; task_effects;
    try solve [apply msd_uan_loop_effects | apply msd_archive_effects].
Qed.

Lemma handle_effects c w : Forall P (fst (handle c w)).
Proof.
  destruct c; unroll;
    auto using run_uan_extraction_effects, run_ecr_extraction_effects,
      run_msd_extraction_effects;
    task_effects.
Qed.

End TaskEffects.

Lemma handle_task_effects c w : Forall task_effect (fst (handle c w)).
Proof. apply handle_effects; intros; exact I. Qed.

(** The loops of the three tasks put no [error] event. *)
Lemma no_error_filter (t : trace) :
  Forall (fun e => is_put_error e = false) t -> filter is_put_error t = [].
Proof. apply filter_none. Qed.

Lemma uan_loop_no_error w uans i acc :
  filter is_put_error (fst (uan_loop w i uans acc)) = [].
Proof. apply no_error_filter, uan_loop_effects; intros; reflexivity. Qed.

Lemma ecr_page_loop_no_error s e pages files :
  filter is_put_error (fst (ecr_page_loop s e pages files)) = [].
Proof. apply no_error_filter, ecr_page_loop_effects; intros; reflexivity. Qed.

Lemma msd_uan_loop_no_error w uans i files :
  filter is_put_error (fst (msd_uan_loop w i uans files)) = [].
Proof. apply no_error_filter, msd_uan_loop_effects; intros; reflexivity. Qed.

(** ** The worker loop *)

Lemma dequeued_app (t u : trace) : dequeued (t ++ u) = dequeued t ++ dequeued u.
Proof. unfold dequeued; now rewrite flat_map_app. Qed.

Lemma dequeued_task (t : trace) : Forall task_effect t -> dequeued t = [].
Proof.
  induction 1 as [ | e t He _ IH]; [reflexivity | ].
  destruct e; simpl in *; auto; contradiction.
Qed.

Lemma task_effect_not_teardown (t : trace) :
  Forall task_effect t -> Forall (fun e => e <> BrowserClose /\ e <> PlaywrightStop) t.
Proof.
  apply Forall_impl. intros e He; split; intros ->; exact He.
Qed.

(** One iteration on a command other than [shutdown]: the command is taken,
    the handler runs inside the [try], an exception becomes one [error]
    event, and the loop goes round. *)
Lemma worker_loop_step c w later :
  is_shutdown c = false ->
  worker_loop ((c, w) :: later) =
  match handle c w with
  | (t, Val _) => (QueueGet c :: t ++ fst (worker_loop later), snd (worker_loop later))
  | (t, Exc e) => (QueueGet c :: t ++ worker_error e :: fst (worker_loop later),
                   snd (worker_loop later))
  | (t, Blocked) => (QueueGet c :: t, Blocked)
  end.
Proof.
  intros Hc. cbn [worker_loop]. rewrite Hc.
  destruct (handle c w) as [t [[] | e | ]]; unfold bind, try_except; cbn [fst snd].
  - destruct (worker_loop later) as [t' r']; reflexivity.
  - rewrite isinstance_Exception. cbn [fst snd put emit].
    destruct (worker_loop later) as [t' r']; cbn [fst snd].
    unfold worker_error. now rewrite <- app_assoc.
  - reflexivity.
Qed.

Lemma worker_loop_shutdown w later :
  worker_loop ((shutdown, w) :: later) = ([QueueGet shutdown; shutting_down], Val later).
Proof. reflexivity. Qed.

(** What a run of the loop looks like: it never raises; it returns only
    after taking a [shutdown], which is then the last command taken; and
    otherwise it waits, with no [shutdown] taken. *)
Lemma worker_loop_run queue : forall t r,
  worker_loop queue = (t, r) ->
  Forall (fun e => e <> BrowserClose /\ e <> PlaywrightStop) t
  /\ match r with
     | Val remaining =>
         exists before earlier w,
           t = before ++ [QueueGet shutdown; shutting_down]
           /\ queue = earlier ++ (shutdown, w) :: remaining
           /\ Forall (fun cw => is_shutdown (fst cw) = false) earlier
           /\ dequeued before = map fst earlier
     | Exc _ => False
     | Blocked => ~ In shutdown (dequeued t)
     end.
Proof.
  induction queue as [ | [c w] later IH]; intros t r H.
  - injection H as <- <-. split; [constructor | intros []].
  - destruct (is_shutdown c) eqn:Hc.
    + destruct c; try discriminate. rewrite worker_loop_shutdown in H.
      injection H as <- <-. split.
      * repeat constructor; discriminate.
      * exists [], [], w. repeat split; constructor.
    + rewrite (worker_loop_step _ _ _ Hc) in H.
      pose proof (handle_task_effects c w) as Ht.
      destruct (worker_loop later) as [t' r'].
      specialize (IH t' r' eq_refl) as [Hclose Hr].
      assert (Hget : forall u, dequeued (QueueGet c :: fst (handle c w) ++ u) = c :: dequeued u).
      { intros u. change (QueueGet c :: fst (handle c w) ++ u)
          with ([QueueGet c] ++ fst (handle c w) ++ u).
        rewrite !dequeued_app, (dequeued_task _ Ht). reflexivity. }
      assert (Hnot : c <> shutdown) by (intros ->; discriminate).
      destruct (handle c w) as [th [[] | e | ]]; cbn [fst snd] in *;
        injection H as <- <-.
      * split.
        { constructor; [split; discriminate | ].
          apply Forall_app; split; auto using task_effect_not_teardown. }
        destruct r' as [remaining | e' | ]; auto.
        -- destruct Hr as (before & earlier & w' & -> & -> & Hearlier & Hdeq).
           exists (QueueGet c :: th ++ before), ((c, w) :: earlier), w'.
           repeat split.
           ++ cbn [app]. now rewrite app_assoc.
           ++ constructor; auto.
           ++ rewrite Hget, Hdeq. reflexivity.
        -- rewrite Hget. intros [Heq | Hin]; [congruence | auto].
      * assert (Hw : Forall (fun e => e <> BrowserClose /\ e <> PlaywrightStop)
                       [worker_error e])
          by (repeat constructor; discriminate).
        split.
        { constructor; [split; discriminate | ].
          apply Forall_app; split; auto using task_effect_not_teardown.
          change (worker_error e :: t') with ([worker_error e] ++ t').
          apply Forall_app; split; auto. }
        destruct r' as [remaining | e' | ]; auto.
        -- destruct Hr as (before & earlier & w' & -> & -> & Hearlier & Hdeq).
           exists (QueueGet c :: th ++ worker_error e :: before), ((c, w) :: earlier), w'.
           repeat split.
           ++ cbn [app]. rewrite <- app_assoc. reflexivity.
           ++ constructor; auto.
           ++ rewrite Hget. cbn [dequeued flat_map worker_error app].
              fold (dequeued before). rewrite Hdeq. reflexivity.
        -- rewrite Hget. cbn [dequeued flat_map worker_error app].
           fold (dequeued t'). intros [Heq | Hin]; [congruence | auto].
      * split.
        { constructor; [split; discriminate | ].
          auto using task_effect_not_teardown. }
        specialize (Hget []). rewrite app_nil_r in Hget. rewrite Hget.
        intros [Heq | []]; congruence.
Qed.

(** C5.  The [verify_login] branch puts exactly one [login_verified]
    event and nothing else, [true] when the wait for the marker returned and
    [false] when it raised; it never raises and puts no [error] event, and
    the loop then takes the next command. *)
Theorem verify_login_one_boolean (w : page_world) (later : list (command * page_world)) :
  let seen := match login_marker w with Ok _ => true | Err _ => false end in
  handle verify_login w = ([QueuePut (login_verified seen)], Val tt)
  /\ worker_loop ((verify_login, w) :: later)
     = (QueueGet verify_login :: QueuePut (login_verified seen) :: fst (worker_loop later),
        snd (worker_loop later)).
Proof.
  intros seen; subst seen.
  assert (H : handle verify_login w
              = ([QueuePut (login_verified
                              match login_marker w with Ok _ => true | Err _ => false end)],
                 Val tt))
    by (cbn [handle]; destruct (login_marker w) as [[] | text]; reflexivity).
  split; [exact H | ].
  rewrite worker_loop_step by reflexivity. rewrite H. reflexivity.
Qed.

(** C3.  When the handler of a command other than [shutdown] raises, the
    loop catches the exception, puts one [error] event after the handler's
    own effects, and goes on with the next command; no run of the loop or
    of the worker ends by raising. *)
Theorem handler_failure_is_reported
    (c : command) (w : page_world) (later : list (command * page_world))
    (t : trace) (e : exn) :
  is_shutdown c = false ->
  handle c w = (t, Exc e) ->
  worker_loop ((c, w) :: later)
  = (QueueGet c :: t ++ worker_error e :: fst (worker_loop later), snd (worker_loop later))
  /\ occurrences is_put_error [worker_error e] = 1
  /\ (forall queue e', snd (worker_loop queue) <> Exc e')
  /\ (forall launch queue e', snd (playwright_worker launch queue) <> Exc e').
Proof.
  intros Hc Hh.
  assert (Hloop : forall queue e', snd (worker_loop queue) <> Exc e').
  { intros queue e' H.
    destruct (worker_loop queue) as [t' r'] eqn:E.
    apply worker_loop_run in E as [_ Hr]. cbn in H; subst r'. exact Hr. }
  repeat split; auto.
  - rewrite worker_loop_step by exact Hc. now rewrite Hh.
  - intros launch queue e'. unfold playwright_worker.
    destruct launch as [[] | text].
    + specialize (Hloop queue). destruct (worker_loop queue) as [t' [left' | e'' | ]];
        cbn; try discriminate. intros _. now apply (Hloop e'').
    + discriminate.
Qed.

Lemma handler_failure_is_reported_witness :
  is_shutdown (run_msd ["100200300400"]) = false
  /\ handle (run_msd ["100200300400"]) sample_page_world
     = (blank_first_header_trace "100200300400", Exc columns_mismatch)
  /\ worker_loop [(run_msd ["100200300400"], sample_page_world);
                  (verify_login, sample_page_world)]
     = (QueueGet (run_msd ["100200300400"])
          :: blank_first_header_trace "100200300400"
          ++ worker_error columns_mismatch
          :: fst (worker_loop [(verify_login, sample_page_world)]),
        snd (worker_loop [(verify_login, sample_page_world)])).
Proof.
  split; [reflexivity | split; [reflexivity | ]].
  apply (handler_failure_is_reported (run_msd ["100200300400"]) sample_page_world
           [(verify_login, sample_page_world)]
           (blank_first_header_trace "100200300400") columns_mismatch);
    reflexivity.
Defined.

(** C9.  In every run of the worker, [browser.close()] happens at most
    once.  When a [shutdown] has been taken from the queue, the run ends
    with that command, the final status update and the tear-down, in this
    order; it returns, leaving the commands queued behind the [shutdown]
    untaken; and the commands taken are those queued before it. *)
Theorem shutdown_ends_worker
    (launch : pw unit) (queue : list (command * page_world)) (t : trace)
    (r : res (list (command * page_world))) :
  playwright_worker launch queue = (t, r) ->
  occurrences is_browser_close t <= 1
  /\ (In (QueueGet shutdown) t ->
      exists before earlier w remaining,
        t = before ++ [QueueGet shutdown; shutting_down; PlaywrightStop; BrowserClose]
        /\ ~ In BrowserClose before
        /\ queue = earlier ++ (shutdown, w) :: remaining
        /\ Forall (fun cw => is_shutdown (fst cw) = false) earlier
        /\ dequeued t = map fst earlier ++ [shutdown]
        /\ r = Val remaining).
Proof.
  unfold playwright_worker. destruct launch as [[] | text].
  - destruct (worker_loop queue) as [tl rl] eqn:E.
    apply worker_loop_run in E as [Hclose Hr].
    assert (Hnone : forall u, Forall (fun e => e <> BrowserClose /\ e <> PlaywrightStop) u ->
                              filter is_browser_close u = [] /\ ~ In BrowserClose u).
    { intros u Hu. split.
      - induction Hu as [ | e u [He _] _ IH]; [reflexivity | ].
        destruct e; cbn; auto; congruence.
      - intros Hin. rewrite Forall_forall in Hu. now destruct (Hu _ Hin). }
    destruct rl as [remaining | e | ]; [ | contradiction | ]; cbn; intros [= <- <-].
    + destruct Hr as (before & earlier & w & -> & -> & Hearlier & Hdeq).
      assert (Hb : Forall (fun e => e <> BrowserClose /\ e <> PlaywrightStop) before)
        by (apply Forall_app in Hclose; tauto).
      destruct (Hnone _ Hb) as [Hf Hin].
      split.
      * unfold occurrences. cbn. rewrite !filter_app, Hf. cbn. lia.
      * intros _.
        exists (QueuePut (status_update "Ready. Please log in to begin.") :: before),
          earlier, w, remaining.
        repeat split; auto.
        -- cbn. rewrite <- !app_assoc. reflexivity.
        -- intros [Heq | Hin']; [discriminate | auto].
        -- cbn. rewrite !dequeued_app, Hdeq. cbn. now rewrite app_nil_r.
    + destruct (Hnone _ Hclose) as [Hf _]. split.
      * unfold occurrences. cbn. rewrite ?app_nil_r, Hf. cbn. lia.
      * intros [Heq | Hin]; [discriminate | ].
        rewrite ?app_nil_r in Hin. exfalso; apply Hr.
        clear - Hin. induction tl as [ | e u IH]; [contradiction | ].
        destruct Hin as [-> | Hin]; cbn; [now left | ].
        apply in_or_app; right. now apply IH.
  - cbn. intros [= <- <-]. split; [cbn; lia | ].
    intros [Heq | [Heq | []]]; discriminate.
Qed.

Lemma shutdown_ends_worker_witness :
  playwright_worker (Ok tt)
    [(verify_login, sample_page_world); (shutdown, sample_page_world);
     (run_msd ["100200300400"], sample_page_world)]
  = ([QueuePut (status_update "Ready. Please log in to begin.");
      QueueGet verify_login; QueuePut (login_verified false);
      QueueGet shutdown; shutting_down; PlaywrightStop; BrowserClose],
     Val [(run_msd ["100200300400"], sample_page_world)])
  /\ occurrences is_browser_close
       [QueuePut (status_update "Ready. Please log in to begin.");
        QueueGet verify_login; QueuePut (login_verified false);
        QueueGet shutdown; shutting_down; PlaywrightStop; BrowserClose] <= 1.
Proof.
  split; [reflexivity | ].
  apply (shutdown_ends_worker (Ok tt)
           [(verify_login, sample_page_world); (shutdown, sample_page_world);
            (run_msd ["100200300400"], sample_page_world)]
           _ (Val [(run_msd ["100200300400"], sample_page_world)])).
  reflexivity.
Defined.

(** ** The UAN lookup *)

Lemma uan_records_found w uans : forall i,
  map rec_uan (uan_records w i uans) = found_uans w i uans.
Proof.
  induction uans as [ | uan rest IH]; intros i; cbn; [reflexivity | ].
  destruct (member_search w i); cbn; now rewrite IH.
Qed.

(** One iteration of the loop over the UANs. *)
Lemma uan_loop_step w i uan rest acc :
  uan_loop w i (uan :: rest) acc =
  match member_search w i with
  | Ok row =>
      let acc' := acc ++ [UanRecord uan (PyStr.strip (name_text row))
                            (PyStr.strip (joining_date_text row))
                            (PyStr.strip (exit_date_text row))] in
      (QueuePut (status_update ("Extracting data for UAN: " ++ uan ++ "..."))
         :: fst (uan_loop w (S i) rest acc'),
       snd (uan_loop w (S i) rest acc'))
  | Err text =>
      (QueuePut (status_update ("Extracting data for UAN: " ++ uan ++ "..."))
         :: Logging log_error ("Could not extract all data for UAN " ++ uan ++ ": " ++ text)
         :: fst (uan_loop w (S i) rest acc),
       snd (uan_loop w (S i) rest acc))
  end.
Proof.
  cbn [uan_loop]. destruct (member_search w i) as [row | text]; reflexivity.
Qed.

(** The loop always returns, with the records of the searches that were
    read added; it puts no [error] event and writes no file. *)
Lemma uan_loop_returns w uans : forall i acc,
  snd (uan_loop w i uans acc) = Val (acc ++ uan_records w i uans)
  /\ filter is_put_error (fst (uan_loop w i uans acc)) = []
  /\ filter is_to_excel (fst (uan_loop w i uans acc)) = [].
Proof.
  induction uans as [ | uan rest IH]; intros i acc.
  - cbn. now rewrite app_nil_r.
  - rewrite uan_loop_step. cbn [uan_records].
    destruct (member_search w i) as [row | text]; cbn [fst snd filter is_put_error is_to_excel].
    + destruct (IH (S i) (acc ++ [UanRecord uan (PyStr.strip (name_text row))
                                     (PyStr.strip (joining_date_text row))
                                     (PyStr.strip (exit_date_text row))]))
        as (-> & -> & ->).
      now rewrite <- app_assoc.
    + destruct (IH (S i) acc) as (-> & -> & ->). auto.
Qed.

Lemma found_uans_occurrences w uans : forall i u,
  count_occ string_dec (found_uans w i uans) u <= count_occ string_dec uans u.
Proof.
  induction uans as [ | uan rest IH]; intros i u; cbn [found_uans]; [lia | ].
  specialize (IH (S i) u).
  destruct (member_search w i); cbn [count_occ]; destruct (string_dec uan u); lia.
Qed.

Lemma found_uans_NoDup w uans i : NoDup uans -> NoDup (found_uans w i uans).
Proof.
  intros H. apply (NoDup_count_occ string_dec). intros u.
  rewrite (NoDup_count_occ string_dec) in H.
  specialize (H u). pose proof (found_uans_occurrences w uans i u). lia.
Qed.

(** The whole task once the profile list is reached. *)
Lemma run_uan_extraction_arrived w uans output_file :
  member_profile_nav w = Ok tt ->
  run_uan_extraction w uans output_file =
  (QueuePut (status_update "Starting UAN extraction...")
     :: fst (uan_loop w 0 uans [])
     ++ match uan_records w 0 uans with
        | [] => [QueuePut (info "No UAN data was extracted.");
                 QueuePut (status_update "UAN extraction finished.")]
        | data =>
            ToExcel output_file (DataFrame_of_records data)
            :: match excel_write w output_file with
               | inr _ =>
                   [QueuePut (info ("UAN data extracted and saved to " ++ output_file));
                    QueuePut (status_update "UAN extraction finished.")]
               | inl _ => []
               end
        end,
   match uan_records w 0 uans, excel_write w output_file with
   | _ :: _, inl e => Exc e
   | _, _ => Val tt
   end).
Proof.
  intros Hnav. unfold run_uan_extraction. rewrite Hnav.
  destruct (uan_loop_returns w uans 0 []) as (Hr & _ & _). cbn [app] in Hr.
  destruct (uan_loop w 0 uans []) as [t r]. cbn [snd] in Hr. subst r.
  destruct (uan_records w 0 uans) as [ | rec data]; [reflexivity | ].
  destruct (excel_write w output_file) as [e | []]; reflexivity.
Qed.

(** C6, as the code has it.  Once the profile list is reached: if some
    requested UAN was read, exactly one table is handed to [to_excel], for
    the output file, with the columns UAN, Name, Joining Date, Exit Date
    and one four-cell row per UAN that was read, in request order: a UAN
    is listed as often as it was requested and read, hence at most once
    when the requested UANs are distinct.  If none was read, [to_excel] is
    not called, the "no data" [info] event is put and the task returns.
    The task returns whenever [to_excel] does. *)
Theorem uan_table_rows (w : uan_world) (uans : list string) (output_file : string) :
  member_profile_nav w = Ok tt ->
  let found := found_uans w 0 uans in
  let t := fst (run_uan_extraction w uans output_file) in
  (excel_write w output_file = inr tt ->
   snd (run_uan_extraction w uans output_file) = Val tt)
  /\ (found <> [] ->
      exists df,
        filter is_to_excel t = [ToExcel output_file df]
        /\ columns df = ["UAN"; "Name"; "Joining Date"; "Exit Date"]
        /\ length (values df) = length found
        /\ Forall (fun row => length row = 4) (values df)
        /\ first_column df = map Some found)
  /\ (found = [] ->
      filter is_to_excel t = []
      /\ In (QueuePut (info "No UAN data was extracted.")) t
      /\ snd (run_uan_extraction w uans output_file) = Val tt)
  /\ (forall u, count_occ string_dec found u <= count_occ string_dec uans u)
  /\ (NoDup uans -> NoDup found).
Proof.
  intros Hnav found t. subst found t.
  rewrite (run_uan_extraction_arrived _ _ _ Hnav). cbn [fst snd].
  destruct (uan_loop_returns w uans 0 []) as (_ & _ & Hx).
  rewrite <- (uan_records_found w uans 0).
  split; [ | split; [ | split; [ | split]]].
  - intros ->. now destruct (uan_records w 0 uans).
  - intros Hfound.
    destruct (uan_records w 0 uans) as [ | rec data] eqn:E; [now elim Hfound | ].
    exists (DataFrame_of_records (rec :: data)). repeat split.
    + cbn [filter is_to_excel]. rewrite filter_app, Hx.
      destruct (excel_write w output_file); reflexivity.
    + unfold DataFrame_of_records; cbn [values]. now rewrite !length_map.
    + unfold DataFrame_of_records; cbn [values].
      apply Forall_map, Forall_forall. reflexivity.
    + unfold first_column, DataFrame_of_records; cbn [values].
      rewrite !map_map. reflexivity.
  - intros Hnone. destruct (uan_records w 0 uans); [ | discriminate]. repeat split.
    + cbn [filter is_to_excel]. rewrite filter_app, Hx. reflexivity.
    + right. apply in_or_app; right. now left.
  - intros u. rewrite uan_records_found. apply found_uans_occurrences.
  - rewrite uan_records_found. apply found_uans_NoDup.
Qed.

Lemma uan_table_rows_witness :
  member_profile_nav second_fails_world = Ok tt
  /\ excel_write second_fails_world "epfo_data.xlsx" = inr tt
  /\ snd (run_uan_extraction second_fails_world ["100200300400"; "100200300401"; "100200300402"]
            "epfo_data.xlsx") = Val tt
  /\ found_uans second_fails_world 0 ["100200300400"; "100200300401"; "100200300402"]
     = ["100200300400"; "100200300402"].
Proof.
  split; [reflexivity | ]. split; [reflexivity | ]. split; [ | reflexivity].
  exact (proj1 (uan_table_rows second_fails_world
                  ["100200300400"; "100200300401"; "100200300402"] "epfo_data.xlsx"
                  eq_refl) eq_refl).
Defined.

(** C6, as stated, fails when a UAN is requested twice: both searches are
    read and the written table lists that UAN in two rows. *)
Lemma uan_requested_twice_listed_twice :
  exists df,
    In (ToExcel "epfo_data.xlsx" df)
       (fst (run_uan_extraction same_member_world ["100200300400"; "100200300400"]
               "epfo_data.xlsx"))
    /\ first_column df = [Some "100200300400"; Some "100200300400"]
    /\ ~ NoDup (first_column df).
Proof.
  eexists. split; [ | split].
  - cbn. do 3 right. left. reflexivity.
  - reflexivity.
  - cbn. intros H. inversion H as [ | x l Hin _]; subst. apply Hin. now left.
Qed.

(** ** The ECR download *)

(** [datetime(y, m, 1)] for a month index of [get_month_index]. *)
Lemma mk_datetime_first (y m : Z) :
  (-1 <= m <= 12)%Z ->
  mk_datetime y m 1 =
  if fits_c_int y then
    if ((1 <=? y) && (y <=? 9999))%Z then
      if (1 <=? m)%Z then inr (Datetime y m 1)
      else inl (Exn ValueError "month must be in 1..12")
    else inl (Exn ValueError ("year " ++ PyStr.of_Z y ++ " is out of range"))
  else inl (c_int_overflow y).
Proof.
  intros Hm. unfold mk_datetime, first_overflow. cbn [find].
  assert (Hfm : fits_c_int m = true) by (unfold fits_c_int; lia).
  rewrite Hfm. change (fits_c_int 1) with true.
  destruct (fits_c_int y); [ | reflexivity]. cbn [negb].
  destruct ((1 <=? y) && (y <=? 9999))%Z; [ | reflexivity]. cbn [negb].
  destruct (1 <=? m)%Z eqn:H1.
  - assert (H12 : (m <=? 12)%Z = true) by lia. rewrite H12. cbn [andb negb].
    assert (Hd : ((1 <=? 1) && (1 <=? days_in_month y m))%Z = true).
    { unfold days_in_month.
      destruct (m =? 2)%Z; [destruct (is_leap y) | ]; try reflexivity.
      destruct ((m =? 4) || (m =? 6) || (m =? 9) || (m =? 11))%Z; reflexivity. }
    rewrite Hd. reflexivity.
  - reflexivity.
Qed.

Lemma get_month_index_bounds (month_str : string) :
  (-1 <= get_month_index month_str <= 12)%Z.
Proof. destruct (get_month_index_range month_str); lia. Qed.

(** Closes the cases of a row once its texts have been analysed. *)
Ltac close_row :=
  repeat match goal with
    | x : pw nat |- _ => destruct x as [[ | ?] | ?]
    | x : pw _ |- _ => destruct x
    | x : unit |- _ => destruct x
    | x : exn |- _ => destruct x as [[ | | | ] ?]
    end;
  try reflexivity.

Ltac open_row row side :=
  destruct row as [wage status trrn links down save];
  unfold ecr_process_row, ecr_row_body, downloads, row_overflows, wage_month, year_overflows;
  cbn [wage_month_cell status_cell trrn_cell pdf_link_count pdf_download pdf_save];
  (destruct wage as [wage | ?]; [ | solve [side] ]);
  (destruct status as [status | ?]; [ | solve [side] ]);
  rewrite !bind_page_ok;
  (destruct (String.eqb (PyStr.strip status) "Payment Confirmed"); [ | solve [side] ]);
  (destruct (PyStr.split "-" wage) as [ | month_str [ | year_str [ | ? ? ] ] ];
   [ solve [side] | solve [side] | | solve [side] ]);
  (destruct (PyStr.int year_str) as [y | ]; [ | solve [side] ]);
  rewrite bind_ret.

(** A row is clicked for a download exactly when [downloads] holds. *)
Lemma ecr_process_row_clicks s e row files :
  filter is_download_click (fst (ecr_process_row s e row files))
  = if downloads s e row then [DownloadClick] else [].
Proof.
  open_row row close_row.
  destruct (mk_datetime y (get_month_index month_str) 1) as [ex | d]; [close_row | ].
  unfold of_sum. rewrite bind_ret. cbn [andb].
  destruct (datetime_le s d && datetime_le d e); close_row.
Qed.

(** How the handling of a row ends: by the uncaught [OverflowError] when
    the row is a confirmed payment with an overflowing year, before any
    effect; and by returning otherwise. *)
Lemma ecr_process_row_outcome s e row files :
  if row_overflows row
  then exists y, ecr_process_row s e row files = ([], Exc (c_int_overflow y))
  else exists files', snd (ecr_process_row s e row files) = Val files'
                      /\ (downloads s e row = false -> files' = files)
                      /\ filter is_put_error (fst (ecr_process_row s e row files)) = [].
Proof.
  open_row row ltac:(close_row; eexists; repeat split; reflexivity).
  rewrite (mk_datetime_first _ _ (get_month_index_bounds month_str)).
  cbn [andb].
  destruct (fits_c_int y); cbn [negb]; [ | exists y; reflexivity].
  destruct ((1 <=? y) && (y <=? 9999))%Z; [ | eexists; repeat split; reflexivity].
  destruct (1 <=? get_month_index month_str)%Z; [ | eexists; repeat split; reflexivity].
  unfold of_sum. rewrite bind_ret.
  destruct (datetime_le s _ && datetime_le _ e);
    [ | eexists; repeat split; reflexivity].
  destruct trrn as [trrn | ?]; [ | eexists; repeat split; reflexivity].
  destruct links as [[ | n] | ?]; try (eexists; repeat split; reflexivity).
  destruct down as [[] | ?]; [ | eexists; repeat split; reflexivity].
  destruct save as [[] | ?]; eexists; repeat split; try reflexivity; discriminate.
Qed.


(** The wage month of a text: the text is a month name, one dash and a
    year; the name title-cases to the [i]-th month; the year is an integer
    from 1 to 9999. *)
Lemma wage_month_spec (text : string) (d : datetime) :
  wage_month text = Some d <->
  exists month_str year_str y i,
    PyStr.split "-" text = [month_str; year_str]
    /\ PyStr.int year_str = Some y
    /\ (1 <= y <= 9999)%Z
    /\ nth_error months i = Some (PyStr.title month_str)
    /\ d = Datetime y (Z.of_nat i + 1) 1.
Proof.
  unfold wage_month. split.
  - destruct (PyStr.split "-" text) as [ | month_str [ | year_str [ | ? ? ] ] ];
      try discriminate.
    destruct (PyStr.int year_str) as [y | ] eqn:Hint; [ | discriminate].
    rewrite (mk_datetime_first _ _ (get_month_index_bounds month_str)).
    destruct (fits_c_int y); [ | discriminate].
    destruct ((1 <=? y) && (y <=? 9999))%Z eqn:Hy; [ | discriminate].
    destruct (1 <=? get_month_index month_str)%Z eqn:Hm; [ | discriminate].
    intros [= <-]. revert Hm. unfold get_month_index.
    destruct (list_index (PyStr.title month_str) months) as [i | ] eqn:E; [ | discriminate].
    intros _. apply list_index_nth in E.
    apply andb_prop in Hy as [Hy1 Hy2].
    exists month_str, year_str, y, i. repeat split; auto; lia.
  - intros (month_str & year_str & y & i & -> & -> & Hy & Hi & ->).
    destruct (get_month_index_spec month_str) as [Hidx _].
    destruct (Hidx i Hi) as [Heq Hrange].
    rewrite (mk_datetime_first _ _ (get_month_index_bounds month_str)).
    assert (Hf : fits_c_int y = true) by (unfold fits_c_int; lia).
    assert (Hr : ((1 <=? y) && (y <=? 9999))%Z = true) by lia.
    assert (Hm : (1 <=? get_month_index month_str)%Z = true) by lia.
    rewrite Hf, Hr, Hm, Heq. reflexivity.
Qed.

(** The order on first-of-month dates is the order of the months. *)
Lemma datetime_le_months (y1 m1 y2 m2 : Z) :
  (1 <= m1 <= 12)%Z -> (1 <= m2 <= 12)%Z ->
  datetime_le (Datetime y1 m1 1) (Datetime y2 m2 1) = true
  <-> (12 * y1 + m1 <= 12 * y2 + m2)%Z.
Proof. intros H1 H2. unfold datetime_le; cbn [year month day]. lia. Qed.


Lemma occurrences_app kind (t u : trace) :
  occurrences kind (t ++ u) = occurrences kind t + occurrences kind u.
Proof. unfold occurrences. now rewrite filter_app, length_app. Qed.



(** The body of a row does no file operation of the archive: it raises a
    [PlaywrightError], a [ValueError] or an [OverflowError] only. *)
Lemma ecr_row_body_raises s e row files :
  raises_only (fun c => c <> FileNotFoundError) (ecr_row_body s e row files).
Proof.
  unfold ecr_row_body.
  repeat first
    [ exact I
    | simple apply raises_page; discriminate
    | simple apply raises_raise; discriminate
    | simple apply raises_bind; [ | intros ]
    | match goal with
      | |- raises_only _ (of_sum (mk_datetime ?y ?m ?d)) =>
          pose proof (mk_datetime_raises y m d);
          destruct (mk_datetime y m d) as [[c text] | ?]; [ | exact I];
          cbn [cls] in *; unfold raises_only, of_sum, raise; cbn [snd cls];
          intuition congruence
      | |- raises_only _ (if ?b then _ else _) => destruct b
      | |- raises_only _ (match ?x with _ => _ end) => destruct x
      end ].
Qed.

(** A row whose [try] body raises a [PlaywrightError] or a [ValueError]
    is logged and skipped, and the loop goes on with the next row and the
    same list of files. *)
Lemma ecr_rows_loop_skip s e row rest files t ex :
  ecr_row_body s e row files = (t, Exc ex) ->
  cls ex <> OverflowError ->
  ecr_rows_loop s e (row :: rest) files
  = (t ++ Logging log_error ("Error processing a row: " ++ message ex)
       :: fst (ecr_rows_loop s e rest files),
     snd (ecr_rows_loop s e rest files)).
Proof.
  intros Hbody Hcls. cbn [ecr_rows_loop]. unfold ecr_process_row. rewrite Hbody.
  unfold try_except. cbn [fst snd].
  pose proof (ecr_row_body_raises s e row files) as Hraises.
  unfold raises_only in Hraises. rewrite Hbody in Hraises. cbn [snd] in Hraises.
  assert (Hi : isinstance ex [PlaywrightError; ValueError] = true)
    by (destruct ex as [[ | | | ] text]; try reflexivity;
        [now elim Hcls | now elim Hraises]).
  rewrite Hi. unfold bind, logging, emit, ret. cbn [fst snd app].
  rewrite <- app_assoc. reflexivity.
Qed.





(** ** The service details scraper *)



(** *** Headers and cells *)

(** When every cell reads well, the texts are those of the cells, in order. *)
Lemma inner_texts_ok (texts : list string) :
  inner_texts (map Ok texts) = ([], Val texts).
Proof.
  induction texts as [ | text rest IH]; [reflexivity | ].
  cbn [map inner_texts]. rewrite bind_page_ok, IH. reflexivity.
Qed.

(** From a row exactly the first cell is left out, whatever it answers. *)
Lemma msd_row_data_drops_first (first : pw string) (texts : list string) :
  msd_row_data (Ok (first :: map Ok texts)) = ([], Val texts).
Proof.
  unfold msd_row_data. rewrite bind_page_ok. cbn [tl]. apply inner_texts_ok.
Qed.

(** When no header is blank, exactly the first is left out, and the
    others are stripped. *)
Lemma msd_headers_no_blank (headers : list string) :
  Forall (fun h => PyStr.strip h <> "") headers ->
  msd_headers headers = tl (map PyStr.strip headers).
Proof.
  intros H. unfold msd_headers. f_equal. f_equal.
  induction H as [ | h rest Hh _ IH]; [reflexivity | ].
  cbn [filter]. destruct (String.eqb_spec (PyStr.strip h) ""); [contradiction | ].
  cbn [negb]. now rewrite IH.
Qed.

(** C8.  On the header row with a blank row-number column followed by
    Name and Joining Date, the header list keeps Joining Date only: the
    blank header goes with the filter and Name with the slice, two columns
    for the one cell dropped from each row; the frame of the grid then
    cannot be built and the task ends with the [ValueError]. *)
Theorem msd_headers_blank_first :
  msd_headers [""; "Name"; "Joining Date"] = ["Joining Date"]
  /\ msd_row_data (grid_row ["1"; "A. Kumar"; "01/04/2019"])
     = ([], Val ["A. Kumar"; "01/04/2019"])
  /\ run_msd_extraction (MsdWorld (Ok tt) (fun _ => blank_first_header)) ["100200300400"]
     = (blank_first_header_trace "100200300400", Exc columns_mismatch).
Proof. repeat split; reflexivity. Qed.

(** *** The table of a UAN *)




Lemma not_in_of_filter kind (x : effect) (t : trace) :
  kind x = true -> filter kind t = [] -> ~ In x t.
Proof.
  intros Hx Hf Hin.
  assert (H : In x (filter kind t)) by (apply filter_In; auto).
  rewrite Hf in H. exact H.
Qed.







(** *** A [PlaywrightError] inside the [try] *)

Lemma quiet_started (t : trace) : Forall quiet t -> started t = 0.
Proof.
  intros H. unfold started, occurrences. rewrite filter_none; [reflexivity | ].
  eapply Forall_impl; [ | exact H]. now intros e [_ He].
Qed.

Lemma quiet_body (t : trace) : Forall quiet t -> Forall msd_body_effect t.
Proof. apply Forall_impl. now intros e [He _]. Qed.

Lemma msd_page_loop_quiet uan pages : forall data,
  Forall quiet (fst (msd_page_loop uan pages data)).
Proof.
  induction pages as [ | p later IH]; intros data; unroll; effects;
    try apply IH;
    try apply msd_rows_loop_effects;
    try (split; [exact I | reflexivity]);
    try (split; [cbn; discriminate | reflexivity]).
Qed.

(** The handling of a UAN opens with its status update and is quiet
    after it. *)
Lemma msd_process_uan_trace s uan files :
  exists t, fst (msd_process_uan s uan files)
            = QueuePut (status_update ("Processing UAN: " ++ uan)) :: t
            /\ Forall quiet t.
Proof.
  unfold msd_process_uan, put. rewrite bind_emit. cbn [fst].
  eexists. split; [reflexivity | ].
  effects; try apply msd_page_loop_quiet; split; solve [exact I | reflexivity].
Qed.

Lemma started_cons_processing uan t :
  started (QueuePut (status_update ("Processing UAN: " ++ uan)) :: t) = S (started t).
Proof.
  unfold started, occurrences. cbn [filter is_processing].
  assert (H : String.prefix "Processing UAN: " ("Processing UAN: " ++ uan) = true).
  { cbn. now destruct uan. }
  now rewrite H.
Qed.

Lemma started_app (t u : trace) : started (t ++ u) = started t + started u.
Proof. apply occurrences_app. Qed.

(** When the loop over the UANs ends by an exception, the UANs it started
    are the first ones of the list, and the UANs after them play no part
    in the run. *)
Lemma msd_uan_loop_stops w uans : forall i files t e,
  msd_uan_loop w i uans files = (t, Exc e) ->
  Forall msd_body_effect t
  /\ 1 <= started t <= length uans
  /\ forall others,
       msd_uan_loop w i (firstn (started t) uans ++ others) files = (t, Exc e).
Proof.
  induction uans as [ | uan rest IH]; intros i files t e H; [discriminate | ].
  cbn [msd_uan_loop] in H.
  destruct (msd_process_uan_trace (msd_searches w i) uan files) as (t1 & Ht1 & Hq).
  pose proof (started_cons_processing uan) as Hsp.
  assert (Hbp : msd_body_effect (QueuePut (status_update ("Processing UAN: " ++ uan))))
    by (cbn; discriminate).
  set (p := QueuePut (status_update ("Processing UAN: " ++ uan))) in *. clearbody p.
  destruct (msd_process_uan (msd_searches w i) uan files) as [t0 r1] eqn:E.
  cbn [fst] in Ht1. subst t0.
  destruct r1 as [files' | e1 | ].
  - rewrite bind_val in H.
    destruct (msd_uan_loop w (S i) rest files') as [t2 r2] eqn:E2.
    cbn [fst snd] in H. injection H as <- ->.
    destruct (IH _ _ _ _ E2) as (Hb & Hs & Hothers).
    rewrite app_comm_cons, started_app, Hsp, (quiet_started _ Hq).
    cbn [Nat.add length]. repeat split; try lia.
    + constructor; [exact Hbp | ].
      apply Forall_app; split; [now apply quiet_body | exact Hb].
    + intros others. cbn [firstn app msd_uan_loop]. rewrite E, bind_val.
      rewrite Hothers. reflexivity.
  - rewrite bind_exc in H. injection H as <- <-.
    rewrite Hsp, (quiet_started _ Hq).
    cbn [length]. repeat split; try lia.
    + constructor; [exact Hbp | now apply quiet_body].
    + intros others. cbn [firstn app msd_uan_loop]. rewrite E. reflexivity.
  - rewrite bind_blocked in H. discriminate.
Qed.

Lemma msd_body_effect_plain (e : effect) :
  msd_body_effect e ->
  is_put_error e = false /\ is_cleanup e = false /\ e <> msd_finished.
Proof.
  destruct e as [ | [ | | | | ] | | | | | | | | | | | ]; cbn;
    try contradiction; intros H; repeat split; try discriminate.
  intros [= E]. now apply H.
Qed.

Lemma msd_try_body_nav w uans :
  msd_try_body w uans =
  match msd_nav w with
  | Ok _ =>
      (QueuePut (status_update "Navigating to Member Service Details page...")
         :: fst (msd_uan_loop w 0 uans []),
       snd (msd_uan_loop w 0 uans []))
  | Err text =>
      ([QueuePut (status_update "Navigating to Member Service Details page...")],
       Exc (Exn PlaywrightError text))
  end.
Proof.
  unfold msd_try_body, put. rewrite bind_emit.
  destruct (msd_nav w) as [[] | text]; [rewrite bind_page_ok | ]; reflexivity.
Qed.

(** C10.  When the [try] of the task ends by a [PlaywrightError], the
    task puts its one [error] event after the effects of the [try] and
    returns.  Those effects are status updates other than the closing one,
    log lines and tables written; so the trace of the task holds exactly
    one [error] event, no archive, no removal of a file or of the
    directory, and not the closing status update.  The UANs started are the
    first ones requested, and the others play no part in the run. *)
Theorem msd_playwright_error_ends_task
    (w : msd_world) (uans : list string) (t : trace) (e : exn) :
  msd_try_body w uans = (t, Exc e) ->
  cls e = PlaywrightError ->
  run_msd_extraction w uans
  = (QueuePut (status_update "Starting Member Service Detail extraction...")
       :: Mkdir excel_dir
       :: t ++ [QueuePut (error ("An error occurred during MSD extraction: " ++ message e))],
     Val tt)
  /\ Forall msd_body_effect t
  /\ occurrences is_put_error (fst (run_msd_extraction w uans)) = 1
  /\ occurrences is_cleanup (fst (run_msd_extraction w uans)) = 0
  /\ ~ In msd_finished (fst (run_msd_extraction w uans))
  /\ started t <= length uans
  /\ forall others, msd_try_body w (firstn (started t) uans ++ others) = (t, Exc e).
Proof.
  intros Hbody Hcls.
  assert (Hrun : run_msd_extraction w uans
                 = (QueuePut (status_update "Starting Member Service Detail extraction...")
                      :: Mkdir excel_dir
                      :: t ++ [QueuePut (error ("An error occurred during MSD extraction: "
                                                ++ message e))],
                    Val tt)).
  { unfold run_msd_extraction. rewrite Hbody, bind_exc.
    unfold try_except, isinstance. cbn [fst snd existsb]. rewrite Hcls.
    cbn [exn_class_eqb orb]. unfold bind, put, emit, ret. cbn [fst snd app].
    now rewrite app_nil_r. }
  assert (Hshape : Forall msd_body_effect t
                   /\ started t <= length uans
                   /\ forall others,
                        msd_try_body w (firstn (started t) uans ++ others) = (t, Exc e)).
  { rewrite msd_try_body_nav in Hbody.
    destruct (msd_nav w) as [[] | text] eqn:Hnav.
    - destruct (msd_uan_loop w 0 uans []) as [t' r'] eqn:Hloop.
      cbn [fst snd] in Hbody. injection Hbody as <- ->.
      destruct (msd_uan_loop_stops _ _ _ _ _ _ Hloop) as (Hb & Hs & Hothers).
      repeat split.
      + constructor; [cbn; discriminate | exact Hb].
      + change (started (QueuePut (status_update
                  "Navigating to Member Service Details page...") :: t'))
          with (started t'). lia.
      + intros others.
        change (started (QueuePut (status_update
                  "Navigating to Member Service Details page...") :: t'))
          with (started t').
        rewrite msd_try_body_nav, Hnav, Hothers. reflexivity.
    - injection Hbody as <- <-. repeat split.
      + repeat constructor. cbn; discriminate.
      + cbn; lia.
      + intros others. rewrite msd_try_body_nav, Hnav. reflexivity. }
  destruct Hshape as (Hb & Hs & Hothers).
  assert (Hplain : filter is_put_error t = [] /\ filter is_cleanup t = []
                   /\ ~ In msd_finished t).
  { repeat split.
    - apply filter_none. eapply Forall_impl; [ | exact Hb].
      intros x Hx. now apply msd_body_effect_plain in Hx.
    - apply filter_none. eapply Forall_impl; [ | exact Hb].
      intros x Hx. now apply msd_body_effect_plain in Hx.
    - intros Hin. rewrite Forall_forall in Hb. apply Hb in Hin.
      apply msd_body_effect_plain in Hin. now destruct Hin as (_ & _ & Hne). }
  destruct Hplain as (He & Hc & Hf).
  rewrite Hrun. cbn [fst]. repeat split; auto.
  - unfold occurrences. cbn [filter is_put_error]. rewrite filter_app, He. reflexivity.
  - unfold occurrences. cbn [filter is_cleanup]. rewrite filter_app, Hc. reflexivity.
  - intros [H | [H | H]]; try discriminate.
    apply in_app_or in H as [H | [H | []]]; [now apply Hf | discriminate].
Qed.

Lemma msd_playwright_error_ends_task_witness :
  msd_try_body second_detached_world three_uans = (second_detached_trace, Exc detached_error)
  /\ cls detached_error = PlaywrightError
  /\ run_msd_extraction second_detached_world three_uans
     = (QueuePut (status_update "Starting Member Service Detail extraction...")
          :: Mkdir excel_dir
          :: second_detached_trace
          ++ [QueuePut (error ("An error occurred during MSD extraction: "
                               ++ message detached_error))],
        Val tt)
  /\ started second_detached_trace = 2.
Proof.
  split; [reflexivity | ]. split; [reflexivity | ]. split; [ | reflexivity].
  apply (msd_playwright_error_ends_task second_detached_world three_uans
           second_detached_trace detached_error); reflexivity.
Defined.

(** ** Failures on a single record *)

(** C4, as the code has it.  In the UAN lookup a search that cannot be
    read is logged and skipped, and the loop goes on with the next UAN and
    the records gathered so far; the loop puts no [error] event and always
    returns.  The task does not wait, it returns whenever [to_excel]
    returns, and the only exception that can leave it is the one [to_excel]
    raises.  In the ECR download a row whose [try]
    raises a [PlaywrightError] or a [ValueError] is logged and skipped, and
    the loop goes on with the next row; the page loop puts no [error]
    event. *)
Theorem record_failures_are_skipped :
  (forall w i uan rest acc text,
      member_search w i = Err text ->
      uan_loop w i (uan :: rest) acc
      = (QueuePut (status_update ("Extracting data for UAN: " ++ uan ++ "..."))
           :: Logging log_error ("Could not extract all data for UAN " ++ uan ++ ": " ++ text)
           :: fst (uan_loop w (S i) rest acc),
         snd (uan_loop w (S i) rest acc)))
  /\ (forall w i uans acc,
        filter is_put_error (fst (uan_loop w i uans acc)) = []
        /\ exists data, snd (uan_loop w i uans acc) = Val data)
  /\ (forall w uans output_file,
        (excel_write w output_file = inr tt ->
         snd (run_uan_extraction w uans output_file) = Val tt)
        /\ (forall e, snd (run_uan_extraction w uans output_file) = Exc e ->
            excel_write w output_file = inl e)
        /\ snd (run_uan_extraction w uans output_file) <> Blocked)
  /\ (forall s e row rest files t ex,
        ecr_row_body s e row files = (t, Exc ex) ->
        cls ex <> OverflowError ->
        ecr_rows_loop s e (row :: rest) files
        = (t ++ Logging log_error ("Error processing a row: " ++ message ex)
             :: fst (ecr_rows_loop s e rest files),
           snd (ecr_rows_loop s e rest files)))
  /\ (forall s e pages files,
        filter is_put_error (fst (ecr_page_loop s e pages files)) = []).
Proof.
  split; [ | split; [ | split; [ | split]]].
  - intros w i uan rest acc text H. rewrite uan_loop_step, H. reflexivity.
  - intros w i uans acc. split; [apply uan_loop_no_error | ].
    destruct (uan_loop_returns w uans i acc) as (H & _). eauto.
  - intros w uans output_file.
    destruct (member_profile_nav w) as [[] | text] eqn:Hnav.
    + rewrite (run_uan_extraction_arrived _ _ _ Hnav). cbn [snd].
      destruct (uan_records w 0 uans) as [ | rec data];
        [repeat split; congruence | ].
      destruct (excel_write w output_file) as [e | []]; repeat split; congruence.
    + assert (E : snd (run_uan_extraction w uans output_file) = Val tt)
        by (unfold run_uan_extraction; rewrite Hnav; reflexivity).
      rewrite E. repeat split; congruence.
  - intros s e row rest files t ex. apply ecr_rows_loop_skip.
  - intros s e pages files. apply ecr_page_loop_no_error.
Qed.

Lemma record_failures_are_skipped_witness :
  excel_write second_fails_world "epfo_data.xlsx" = inr tt
  /\ snd (run_uan_extraction second_fails_world ["100200300401"; "100200300402"]
            "epfo_data.xlsx") = Val tt
  /\ member_search second_fails_world 1 = Err timeout_text
  /\ uan_loop second_fails_world 1 ["100200300401"; "100200300402"] []
     = (QueuePut (status_update "Extracting data for UAN: 100200300401...")
          :: Logging log_error
               ("Could not extract all data for UAN 100200300401: " ++ timeout_text)
          :: fst (uan_loop second_fails_world 2 ["100200300402"] []),
        snd (uan_loop second_fails_world 2 ["100200300402"] []))
  /\ ecr_row_body jan_2024 mar_2024 row_unknown_month []
     = ([], Exc (Exn ValueError "month must be in 1..12"))
  /\ ecr_rows_loop jan_2024 mar_2024 [row_unknown_month; row_feb_2024] []
     = ([] ++ Logging log_error "Error processing a row: month must be in 1..12"
           :: fst (ecr_rows_loop jan_2024 mar_2024 [row_feb_2024] []),
        snd (ecr_rows_loop jan_2024 mar_2024 [row_feb_2024] [])).
Proof.
  destruct record_failures_are_skipped as (Huan & _ & Htask & Hecr & _).
  split; [reflexivity | ].
  split; [apply (Htask second_fails_world ["100200300401"; "100200300402"]
                   "epfo_data.xlsx"); reflexivity | ].
  split; [reflexivity | ]. split; [ | split; [reflexivity | ]].
  - apply (Huan second_fails_world 1 "100200300401" ["100200300402"] [] timeout_text).
    reflexivity.
  - apply (Hecr jan_2024 mar_2024 row_unknown_month [row_feb_2024] [] []
             (Exn ValueError "month must be in 1..12")).
    + reflexivity.
    + discriminate.
Defined.

(** C4, as stated, fails in the service details scraper: a cell of the
    one row of the second UAN cannot be read; the task puts an [error]
    event and returns, the second UAN is given up and the third, whose grid
    reads well, is never started. *)
Lemma msd_row_failure_ends_task :
  run_msd_extraction second_detached_world three_uans
  = (QueuePut (status_update "Starting Member Service Detail extraction...")
       :: Mkdir excel_dir
       :: second_detached_trace
       ++ [QueuePut (error "An error occurred during MSD extraction: Element is not attached to the DOM")],
     Val tt)
  /\ ~ In (QueuePut (status_update "Processing UAN: 100200300402"))
         (fst (run_msd_extraction second_detached_world three_uans))
  /\ snd (msd_process_uan (msd_searches second_detached_world 2) "100200300402" [])
     = Val ["msd_excel_files/100200300402.xlsx"].
Proof.
  split; [reflexivity | split; [ | reflexivity]].
  cbn. intros H.
  repeat (destruct H as [H | H]; [discriminate H | ]). exact H.
Qed.

(** * Further properties *)

(** ** The worker: order of the commands, tear-down *)

(** X1.  The trace of the worker loop is made of the segments of the
    commands it takes, in queue order: each command is taken, handled to
    its end, with at most one [error] event added for an exception, before
    the next one is taken; the loop stops taking commands after a
    [shutdown] or at a handler that does not come back. *)
Theorem worker_loop_segments (queue : list (command * page_world)) :
  fst (worker_loop queue) = flat_map segment (firstn (taken queue) queue)
  /\ dequeued (fst (worker_loop queue)) = map fst (firstn (taken queue) queue)
  /\ taken queue <= length queue.
Proof.
  induction queue as [ | [c w] later (IHt & IHd & IHn)].
  - repeat split; reflexivity.
  - cbn [taken fst snd length]. destruct (is_shutdown c) eqn:Hc.
    + destruct c; try discriminate. rewrite worker_loop_shutdown.
      cbn. repeat split. lia.
    + rewrite (worker_loop_step _ _ _ Hc).
      pose proof (handle_task_effects c w) as Ht.
      destruct (handle c w) as [t [[] | e | ]] eqn:Hh; cbn [fst] in Ht;
        cbn [fst snd firstn flat_map map].
      * unfold segment at 1. cbn [fst snd]. rewrite Hc, Hh. cbn [fst snd].
        rewrite app_nil_r, <- IHt. repeat split; [ | lia].
        change (QueueGet c :: t ++ fst (worker_loop later))
          with ([QueueGet c] ++ t ++ fst (worker_loop later)).
        rewrite !dequeued_app, (dequeued_task _ Ht), IHd. reflexivity.
      * unfold segment at 1. cbn [fst snd]. rewrite Hc, Hh. cbn [fst snd].
        rewrite <- IHt. repeat split; [ | | lia].
        -- cbn [app]. now rewrite <- app_assoc.
        -- change (QueueGet c :: t ++ worker_error e :: fst (worker_loop later))
             with ([QueueGet c] ++ t ++ [worker_error e] ++ fst (worker_loop later)).
           rewrite !dequeued_app, (dequeued_task _ Ht), IHd. reflexivity.
      * unfold segment. cbn [fst snd]. rewrite Hc, Hh. cbn [fst snd].
        rewrite !app_nil_r. repeat split; [ | lia].
        change (QueueGet c :: t) with ([QueueGet c] ++ t).
        rewrite dequeued_app, (dequeued_task _ Ht). reflexivity.
Qed.

(** The worker once the browser is launched. *)
Lemma playwright_worker_launched (queue : list (command * page_world)) :
  playwright_worker (Ok tt) queue =
  match worker_loop queue with
  | (t, Val remaining) => (ready :: t ++ [PlaywrightStop; BrowserClose], Val remaining)
  | (t, Exc e) => (ready :: t, Exc e)
  | (t, Blocked) => (ready :: t, Blocked)
  end.
Proof.
  unfold playwright_worker. destruct (worker_loop queue) as [t [remaining | e | ]];
    reflexivity.
Qed.

(** X2.  A worker whose queue never holds a [shutdown] does not return:
    it ends parked on the queue or inside a handler, and neither leaves
    Playwright nor closes the browser. *)
Theorem worker_without_shutdown_waits (queue : list (command * page_world)) :
  Forall (fun cw => is_shutdown (fst cw) = false) queue ->
  snd (playwright_worker (Ok tt) queue) = Blocked
  /\ occurrences is_browser_close (fst (playwright_worker (Ok tt) queue)) = 0
  /\ occurrences is_playwright_stop (fst (playwright_worker (Ok tt) queue)) = 0.
Proof.
  intros Hq. rewrite playwright_worker_launched.
  destruct (worker_loop queue) as [t r] eqn:E.
  apply worker_loop_run in E as [Hclose Hr].
  assert (Hb : r = Blocked).
  { destruct r as [remaining | e | ]; [ | contradiction | reflexivity].
    destruct Hr as (before & earlier & w & _ & -> & _ & _).
    apply Forall_app in Hq as [_ Hq]. inversion Hq as [ | ? ? H _]. discriminate. }
  subst r. cbn [fst snd]. repeat split; unfold occurrences, ready;
    cbn [filter is_browser_close is_playwright_stop]; rewrite filter_none;
    try reflexivity;
    (eapply Forall_impl; [ | exact Hclose]); intros e [H1 H2]; destruct e; cbn; solve [reflexivity | congruence].
Qed.

Lemma worker_without_shutdown_waits_witness :
  Forall (fun cw => is_shutdown (fst cw) = false)
    [(verify_login, sample_page_world); (open_login_page, sample_page_world)]
  /\ snd (playwright_worker (Ok tt)
            [(verify_login, sample_page_world); (open_login_page, sample_page_world)])
     = Blocked.
Proof.
  assert (H : Forall (fun cw => is_shutdown (fst cw) = false)
                [(verify_login, sample_page_world); (open_login_page, sample_page_world)])
    by (repeat constructor).
  split; [exact H | ].
  apply (worker_without_shutdown_waits _ H).
Defined.

(** X3.  [browser.close()] happens in a run exactly when a [shutdown]
    has been taken from the queue; when the browser cannot be launched,
    the worker puts the one [error] event, takes no command and returns. *)
Theorem browser_closed_iff_shutdown_taken
    (launch : pw unit) (queue : list (command * page_world)) :
  let t := fst (playwright_worker launch queue) in
  (In BrowserClose t <-> In (QueueGet shutdown) t)
  /\ (forall text, launch = Err text ->
        playwright_worker launch queue
        = ([QueuePut (error ("Could not launch browser: " ++ text)); PlaywrightStop],
           Val queue)).
Proof.
  cbv zeta. split; [ | intros text ->; reflexivity].
  destruct launch as [[] | text].
  - rewrite playwright_worker_launched.
    destruct (worker_loop queue) as [tl rl] eqn:E.
    apply worker_loop_run in E as [Hclose Hr].
    assert (Hno : ~ In BrowserClose tl).
    { intros Hin. rewrite Forall_forall in Hclose. now destruct (Hclose _ Hin). }
    destruct rl as [remaining | e | ]; [ | contradiction | ]; cbn [fst].
    + destruct Hr as (before & earlier & w & -> & _).
      split; intros _; right; apply in_or_app.
      * left. apply in_or_app. right. now left.
      * right. right. now left.
    + split.
      * intros [H | H]; [discriminate | contradiction].
      * intros [H | H]; [discriminate | ]. exfalso. apply Hr.
        clear - H. induction tl as [ | e u IH]; [contradiction | ].
        destruct H as [-> | H]; cbn; [now left | ].
        apply in_or_app; right. now apply IH.
  - cbn. split; intros [H | [H | []]]; discriminate.
Qed.

(** X4.  The [open_login_page] branch puts exactly one event,
    [browser_opened] when the navigation returned and an [error] with the
    browser's message when it raised [PlaywrightError]; it never raises, so
    the loop's own handler is not used, and the next command is taken. *)
Theorem open_login_page_one_event (w : page_world) (later : list (command * page_world)) :
  let ev := match goto_login w with
            | Ok _ => browser_opened
            | Err text => error ("Could not navigate: " ++ text)
            end in
  handle open_login_page w = ([QueuePut ev], Val tt)
  /\ worker_loop ((open_login_page, w) :: later)
     = (QueueGet open_login_page :: QueuePut ev :: fst (worker_loop later),
        snd (worker_loop later)).
Proof.
  cbv zeta.
  assert (H : handle open_login_page w
              = ([QueuePut match goto_login w with
                           | Ok _ => browser_opened
                           | Err text => error ("Could not navigate: " ++ text)
                           end], Val tt))
    by (cbn [handle]; destruct (goto_login w) as [[] | text]; reflexivity).
  split; [exact H | ].
  rewrite worker_loop_step by reflexivity. rewrite H. reflexivity.
Qed.

(** ** The UAN lookup: what the caller sees *)

Lemma puts_app (t u : trace) : puts (t ++ u) = puts t ++ puts u.
Proof. unfold puts. now rewrite flat_map_app. Qed.

Lemma uan_loop_puts w uans : forall i acc,
  puts (fst (uan_loop w i uans acc)) = map extracting uans.
Proof.
  induction uans as [ | uan rest IH]; intros i acc; [reflexivity | ].
  rewrite uan_loop_step.
  destruct (member_search w i) as [row | text]; cbv zeta; cbn [fst map].
  - change (puts (?e :: ?t)) with (puts [e] ++ puts t). now rewrite IH.
  - change (puts (?e :: ?l :: ?t)) with (puts [e; l] ++ puts t). now rewrite IH.
Qed.

(** X5.  The events of a UAN lookup.  When the profile list cannot be
    reached, the task puts its opening status and one [error] event and
    returns: no UAN is searched and [to_excel] is not called.  Otherwise it
    puts the opening status and one status per requested UAN in request
    order, and never an [error] event, whatever searches fail.  It then
    closes with one [info] event (saved, or no data) and the closing status
    and returns, unless [to_excel] raises: the exception then leaves the
    task, and neither the [info] event nor the closing status is put. *)
Theorem uan_task_events (w : uan_world) (uans : list string) (output_file : string) :
  match member_profile_nav w with
  | Err text =>
      run_uan_extraction w uans output_file
      = ([QueuePut (status_update "Starting UAN extraction...");
          QueuePut (error ("Could not navigate to 'Member Profile': " ++ text))],
         Val tt)
  | Ok _ =>
      match found_uans w 0 uans, excel_write w output_file with
      | _ :: _, inl e =>
          puts (fst (run_uan_extraction w uans output_file))
          = status_update "Starting UAN extraction..." :: map extracting uans
          /\ snd (run_uan_extraction w uans output_file) = Exc e
      | found, _ =>
          puts (fst (run_uan_extraction w uans output_file))
          = status_update "Starting UAN extraction..."
            :: map extracting uans
            ++ [uan_report found output_file;
                status_update "UAN extraction finished."]
          /\ snd (run_uan_extraction w uans output_file) = Val tt
      end
  end.
Proof.
  destruct (member_profile_nav w) as [[] | text] eqn:Hnav.
  - rewrite (run_uan_extraction_arrived _ _ _ Hnav). cbn [fst snd].
    change (QueuePut (status_update "Starting UAN extraction...")
              :: fst (uan_loop w 0 uans []) ++ ?x)
      with ([QueuePut (status_update "Starting UAN extraction...")]
              ++ fst (uan_loop w 0 uans []) ++ x).
    rewrite !puts_app, uan_loop_puts, <- (uan_records_found w uans 0).
    destruct (uan_records w 0 uans) as [ | rec data]; cbn [map].
    + destruct (excel_write w output_file); split; reflexivity.
    + destruct (excel_write w output_file) as [e | []]; split;
        try reflexivity.
      cbn [puts flat_map app]. now rewrite app_nil_r.
  - unfold run_uan_extraction. rewrite Hnav. reflexivity.
Qed.

Lemma uan_task_events_witness :
  excel_write no_engine_world "epfo_data" = inl no_engine
  /\ run_uan_extraction no_engine_world ["100200300400"] "epfo_data"
     = ([QueuePut (status_update "Starting UAN extraction...");
         QueuePut (status_update "Extracting data for UAN: 100200300400...");
         ToExcel "epfo_data"
           (DataFrame_of_records [UanRecord "100200300400" "A. Kumar" "01/04/2019" ""])],
        Exc no_engine)
  /\ puts (fst (run_uan_extraction no_engine_world ["100200300400"] "epfo_data.xlsx"))
     = [status_update "Starting UAN extraction...";
        status_update "Extracting data for UAN: 100200300400...";
        info "UAN data extracted and saved to epfo_data.xlsx";
        status_update "UAN extraction finished."].
Proof.
  split; [reflexivity | ]. split; [reflexivity | ].
  exact (proj1 (uan_task_events no_engine_world ["100200300400"] "epfo_data.xlsx")).
Defined.

(** *** Stripped texts *)

Lemma lstrip_by_first sp s :
  match PyStr.lstrip_by sp s with
  | EmptyString => True
  | String c _ => sp c = false
  end.
Proof.
  induction s as [ | c r IH]; cbn; [exact I | ].
  destruct (sp c) eqn:E; [exact IH | exact E].
Qed.

Lemma lstrip_by_fixed sp c r : sp c = false -> PyStr.lstrip_by sp (String c r) = String c r.
Proof. intros H. cbn. now rewrite H. Qed.

Lemma rstrip_by_idempotent sp s :
  PyStr.rstrip_by sp (PyStr.rstrip_by sp s) = PyStr.rstrip_by sp s.
Proof.
  induction s as [ | c r IH]; [reflexivity | ].
  cbn [PyStr.rstrip_by]. destruct (PyStr.rstrip_by sp r) as [ | c' r'] eqn:E.
  - destruct (sp c) eqn:Ec; cbn; [reflexivity | now rewrite Ec].
  - cbn [PyStr.rstrip_by]. cbn [PyStr.rstrip_by] in IH.
    destruct (PyStr.rstrip_by sp r') as [ | c'' r''].
    + destruct (sp c'); [discriminate | ]. now rewrite IH.
    + now rewrite IH.
Qed.

Lemma rstrip_by_first sp c r :
  sp c = false -> exists r', PyStr.rstrip_by sp (String c r) = String c r'.
Proof.
  intros H. cbn. destruct (PyStr.rstrip_by sp r); [rewrite H | ]; eauto.
Qed.

Lemma strip_stripped (s : string) : stripped (PyStr.strip s).
Proof.
  unfold stripped, PyStr.strip.
  pose proof (lstrip_by_first PyStr.is_space s) as H.
  destruct (PyStr.lstrip_by PyStr.is_space s) as [ | c r]; [reflexivity | ].
  destruct (rstrip_by_first _ c r H) as [r' E]. rewrite E.
  rewrite (lstrip_by_fixed _ _ _ H), <- E. apply rstrip_by_idempotent.
Qed.

Lemma uan_records_stripped w uans : forall i,
  Forall (fun r => stripped (rec_name r) /\ stripped (rec_joining_date r)
                   /\ stripped (rec_exit_date r))
    (uan_records w i uans).
Proof.
  induction uans as [ | uan rest IH]; intros i; cbn [uan_records]; [constructor | ].
  destruct (member_search w i); [constructor | ]; auto.
  cbn [rec_name rec_joining_date rec_exit_date]. auto using strip_stripped.
Qed.

(** X6.  In every table the UAN lookup writes, the Name, Joining Date and
    Exit Date cells carry no white space at either end (they equal their
    own [strip]), and the UAN cells are requested UANs as they were given. *)
Theorem uan_table_cells_stripped
    (w : uan_world) (uans : list string) (output_file path : string) (df : DataFrame) :
  In (ToExcel path df) (fst (run_uan_extraction w uans output_file)) ->
  path = output_file
  /\ Forall (fun row =>
       exists uan name joined left_on,
         row = [Some uan; Some name; Some joined; Some left_on]
         /\ In uan uans /\ stripped name /\ stripped joined /\ stripped left_on)
       (values df).
Proof.
  intros H. destruct (member_profile_nav w) as [[] | text] eqn:Hnav.
  - rewrite (run_uan_extraction_arrived _ _ _ Hnav) in H. cbn [fst] in H.
    destruct H as [H | H]; [discriminate | ].
    apply in_app_or in H as [H | H].
    + exfalso. revert H. apply (not_in_of_filter is_to_excel); [reflexivity | ].
      apply uan_loop_returns.
    + assert (Hfound : forall r, In r (uan_records w 0 uans) -> In (rec_uan r) uans).
      { intros r Hr. apply (in_map rec_uan) in Hr. rewrite uan_records_found in Hr.
        clear - Hr. revert Hr. generalize 0. induction uans as [ | u rest IH]; intros i Hr;
          [elim Hr | ]. cbn [found_uans] in Hr.
        destruct (member_search w i); [destruct Hr as [-> | Hr] | ];
          [now left | right; eauto | right; eauto]. }
      pose proof (uan_records_stripped w uans 0) as Hs.
      destruct (uan_records w 0 uans) as [ | rec data]; cbn [app] in H.
      * destruct H as [H | [H | []]]; discriminate.
      * destruct H as [H | H];
          [ | destruct (excel_write w output_file);
              [elim H | destruct H as [H | [H | []]]; discriminate] ].
        injection H as <- <-. split; [reflexivity | ].
        unfold DataFrame_of_records; cbn [values]. apply Forall_map.
        rewrite Forall_forall in *. intros r Hr.
        destruct (Hs r Hr) as (H1 & H2 & H3).
        exists (rec_uan r), (rec_name r), (rec_joining_date r), (rec_exit_date r).
        auto 10.
  - unfold run_uan_extraction in H. rewrite Hnav in H.
    cbn in H. destruct H as [H | [H | []]]; discriminate.
Qed.

Lemma uan_table_cells_stripped_witness :
  In (ToExcel "epfo_data.xlsx"
        (DataFrame_of_records [UanRecord "100200300400" "A. Kumar" "01/04/2019" ""]))
     (fst (run_uan_extraction same_member_world ["100200300400"] "epfo_data.xlsx"))
  /\ "epfo_data.xlsx" = "epfo_data.xlsx".
Proof.
  assert (H : In (ToExcel "epfo_data.xlsx"
                    (DataFrame_of_records
                       [UanRecord "100200300400" "A. Kumar" "01/04/2019" ""]))
                (fst (run_uan_extraction same_member_world ["100200300400"]
                        "epfo_data.xlsx")))
    by (cbn; do 2 right; left; reflexivity).
  split; [exact H | ].
  apply (uan_table_cells_stripped same_member_world ["100200300400"] "epfo_data.xlsx"
           "epfo_data.xlsx" _ H).
Defined.

(** ** The ECR download: files, archive, pages *)

Lemma fst_bind {A B} (m : M A) (k : A -> M B) :
  fst (bind m k) = fst m ++ match snd m with Val a => fst (k a) | _ => [] end.
Proof. destruct m as [t [a | e | ]]; unfold bind; cbn [fst snd]; now rewrite ?app_nil_r. Qed.

Lemma snd_bind {A B} (m : M A) (k : A -> M B) :
  snd (bind m k) = match snd m with
                   | Val a => snd (k a)
                   | Exc e => Exc e
                   | Blocked => Blocked
                   end.
Proof. destruct m as [t [a | e | ]]; reflexivity. Qed.

Lemma saved_app (t u : trace) : saved (t ++ u) = saved t ++ saved u.
Proof. unfold saved. now rewrite flat_map_app. Qed.

Lemma existsb_eqb_false (f : string) (removed : list string) :
  ~ In f removed -> existsb (String.eqb f) removed = false.
Proof.
  intros Hf. apply not_true_is_false. intros H.
  apply existsb_exists in H as (x & Hx & Heq). apply String.eqb_eq in Heq.
  subst x. exact (Hf Hx).
Qed.

Lemma existsb_eqb_true (f : string) (removed : list string) :
  In f removed -> existsb (String.eqb f) removed = true.
Proof. intros Hf. apply existsb_exists. exists f. split; [exact Hf | apply String.eqb_refl]. Qed.

(** Files that are pairwise distinct and not yet removed are all added and
    removed. *)
Lemma zip_and_remove_from_archived (files : list string) : forall removed,
  NoDup files -> (forall f, In f files -> ~ In f removed) ->
  zip_and_remove_from removed files = (archived files, Val tt).
Proof.
  induction files as [ | f rest IH]; intros removed Hnd Hfresh; [reflexivity | ].
  inversion Hnd as [ | ? ? Hf Hrest]; subst.
  cbn [zip_and_remove_from].
  rewrite (existsb_eqb_false f removed) by (apply Hfresh; now left).
  rewrite bind_emit, bind_ret, bind_emit, IH; [reflexivity | exact Hrest | ].
  intros x Hx [<- | Hin]; [exact (Hf Hx) | ].
  apply (Hfresh x); [now right | exact Hin].
Qed.

(** The loop stops at the first path that has been removed: [zf.write] is
    called for it and raises. *)
Lemma zip_and_remove_from_stops (a : list string) : forall removed f c,
  NoDup a -> (forall x, In x a -> ~ In x removed) ->
  In f removed \/ In f a ->
  zip_and_remove_from removed (a ++ f :: c)
  = (archived a ++ [ZipWrite f (path_name f)], Exc (no_such_file f)).
Proof.
  induction a as [ | x rest IH]; intros removed f c Hnd Hfresh Hf.
  - destruct Hf as [Hf | []]. cbn [app zip_and_remove_from archived flat_map].
    rewrite (existsb_eqb_true f removed Hf), bind_emit. reflexivity.
  - inversion Hnd as [ | ? ? Hx Hrest]; subst.
    cbn [app zip_and_remove_from].
    rewrite (existsb_eqb_false x removed) by (apply Hfresh; now left).
    rewrite bind_emit, bind_ret, bind_emit, (IH (x :: removed) f c); [reflexivity | exact Hrest | | ].
    + intros y Hy [<- | Hin]; [exact (Hx Hy) | ].
      apply (Hfresh y); [now right | exact Hin].
    + destruct Hf as [Hf | [-> | Hf]]; [left; now right | left; now left | now right].
Qed.

Lemma zip_and_remove_archived (files : list string) :
  NoDup files -> zip_and_remove files = (archived files, Val tt).
Proof. intros H. apply zip_and_remove_from_archived; [exact H | intros f _ []]. Qed.

Lemma zip_and_remove_repeated (a b c : list string) (path : string) :
  NoDup (a ++ path :: b) ->
  zip_and_remove (a ++ path :: b ++ path :: c)
  = (archived (a ++ path :: b) ++ [ZipWrite path (path_name path)],
     Exc (no_such_file path)).
Proof.
  intros H. unfold zip_and_remove.
  change (a ++ path :: b ++ path :: c) with (a ++ (path :: b) ++ path :: c).
  rewrite app_assoc. apply zip_and_remove_from_stops.
  - exact H.
  - intros x _ [].
  - right. apply in_or_app. right. now left.
Qed.

(** Runs the handling of a row whose cells have been analysed. *)
Ltac run_row :=
  vm_compute; split; [first [reflexivity | symmetry; apply app_nil_r] | repeat constructor].

(** A row adds to the list of files exactly the path it saves, and it
    saves at most once, after a click. *)
Lemma ecr_process_row_files s e row files :
  match snd (ecr_process_row s e row files) with
  | Val files' => files' = files ++ saved (fst (ecr_process_row s e row files))
  | _ => saved (fst (ecr_process_row s e row files)) = []
  end
  /\ length (saved (fst (ecr_process_row s e row files)))
     <= length (filter is_download_click (fst (ecr_process_row s e row files))).
Proof.
  open_row row ltac:(close_row; run_row).
  destruct (mk_datetime y (get_month_index month_str) 1) as [ex | d];
    [close_row; run_row | ].
  unfold of_sum. rewrite bind_ret.
  destruct (datetime_le s d && datetime_le d e); close_row; run_row.
Qed.

Lemma ecr_rows_loop_files s e rows : forall files,
  match snd (ecr_rows_loop s e rows files) with
  | Val files' => files' = files ++ saved (fst (ecr_rows_loop s e rows files))
  | _ => True
  end.
Proof.
  induction rows as [ | row rest IH]; intros files.
  - cbn. now rewrite app_nil_r.
  - cbn [ecr_rows_loop]. rewrite fst_bind, snd_bind.
    destruct (ecr_process_row_files s e row files) as [Hrow _].
    destruct (snd (ecr_process_row s e row files)) as [files' | ex | ]; auto.
    specialize (IH files').
    destruct (snd (ecr_rows_loop s e rest files')); auto.
    rewrite saved_app, app_assoc, <- Hrow. exact IH.
Qed.

Lemma ecr_page_loop_files s e pages : forall files,
  match snd (ecr_page_loop s e pages files) with
  | Val files' => files' = files ++ saved (fst (ecr_page_loop s e pages files))
  | _ => True
  end.
Proof.
  induction pages as [ | p later IH]; intros files; [exact I | ].
  cbn [ecr_page_loop]. destruct (ecr_rows p) as [rows | text]; [ | exact I].
  rewrite bind_page_ok, fst_bind, snd_bind.
  pose proof (ecr_rows_loop_files s e rows files) as Hrows.
  destruct (snd (ecr_rows_loop s e rows files)) as [files' | ex | ]; auto.
  destruct (next_visible p) as [[ | ] | text]; [ | | exact I].
  - rewrite bind_page_ok. cbn [negb].
    destruct (next_click p) as [[] | text]; [ | exact I].
    rewrite bind_page_ok. specialize (IH files').
    destruct (snd (ecr_page_loop s e later files')); auto.
    rewrite saved_app, app_assoc, <- Hrows. exact IH.
  - rewrite bind_page_ok. cbn [negb ret fst snd]. now rewrite app_nil_r.
Qed.

(** The task around the page loop. *)
Lemma run_ecr_extraction_shape w s e :
  run_ecr_extraction w s e =
  match ecr_nav w with
  | Err text =>
      ([QueuePut (status_update "Starting ECR PDF extraction...");
        QueuePut (error ("Could not navigate to ECR page: " ++ text))], Val tt)
  | Ok _ =>
      let head := [QueuePut (status_update "Starting ECR PDF extraction...");
                   Mkdir download_dir] in
      match ecr_page_loop s e (ecr_pages w) [] with
      | (t, Val files) =>
          (head ++ t ++ fst (ecr_archive s e files), snd (ecr_archive s e files))
      | (t, Exc ex) => (head ++ t, Exc ex)
      | (t, Blocked) => (head ++ t, Blocked)
      end
  end.
Proof.
  unfold run_ecr_extraction. destruct (ecr_nav w) as [[] | text]; [ | reflexivity].
  cbv zeta. destruct (ecr_page_loop s e (ecr_pages w) []) as [t [files | ex | ]] eqn:E;
    unfold put; rewrite bind_emit;
    change (try_except (page (Ok tt);; ret true) [PlaywrightError]
              (fun e0 => emit (QueuePut (error ("Could not navigate to ECR page: "
                                                ++ message e0)));; ret false))
      with (@ret bool true);
    rewrite bind_ret, bind_emit; reflexivity.
Qed.

(** The archive step of the task on a list of distinct paths. *)
Lemma ecr_archive_closing s e files :
  NoDup files -> ecr_archive s e files = (ecr_closing s e files, Val tt).
Proof.
  intros Hnd. unfold ecr_archive, ecr_closing, ecr_zip_filename.
  destruct files as [ | f files]; [reflexivity | ].
  cbv zeta. rewrite bind_emit, (zip_and_remove_archived _ Hnd).
  unfold bind, put, emit. cbn [fst snd app]. rewrite <- !app_assoc. reflexivity.
Qed.

(** The archive step of the task on a list in which a path comes twice. *)
Lemma ecr_archive_repeated s e a b c path :
  NoDup (a ++ path :: b) ->
  ecr_archive s e (a ++ path :: b ++ path :: c)
  = (ZipOpen (ecr_zip_filename s e)
       :: archived (a ++ path :: b) ++ [ZipWrite path (path_name path)],
     Exc (no_such_file path)).
Proof.
  intros Hnd. unfold ecr_archive, ecr_zip_filename.
  destruct (a ++ path :: b ++ path :: c) as [ | f files] eqn:E;
    [destruct a; discriminate | ].
  cbv zeta. rewrite <- E, bind_emit, (zip_and_remove_repeated _ _ _ _ Hnd).
  reflexivity.
Qed.

(** X7.  Bookkeeping of an ECR task whose page loop returns: its list
    of files is exactly the downloads saved, in order, and the loop itself
    archives and removes nothing.  When the paths of the list are pairwise
    distinct the task returns: with no file it reports that nothing matched
    and opens no archive; otherwise it opens the one archive named by the
    two dates, adds every saved file under its base name, removes each
    after adding it, and reports the archive; the closing status comes
    last.  When a path is listed twice (two rows with the same reference
    and wage month), the files before its second entry are added and
    removed, [zf.write] is called for the removed file and raises
    [FileNotFoundError], which leaves the task: no [info] event and no
    closing status are put. *)
Theorem ecr_archive_bookkeeping
    (w : ecr_world) (start_date end_date : datetime) (t : trace) (files : list string) :
  ecr_nav w = Ok tt ->
  ecr_page_loop start_date end_date (ecr_pages w) [] = (t, Val files) ->
  let head := [QueuePut (status_update "Starting ECR PDF extraction..."); Mkdir download_dir] in
  files = saved t
  /\ filter is_cleanup t = []
  /\ (NoDup files ->
      run_ecr_extraction w start_date end_date
      = (head ++ t ++ ecr_closing start_date end_date files, Val tt))
  /\ (forall a b c path,
        files = a ++ path :: b ++ path :: c ->
        NoDup (a ++ path :: b) ->
        run_ecr_extraction w start_date end_date
        = (head ++ t
             ++ ZipOpen (ecr_zip_filename start_date end_date)
             :: archived (a ++ path :: b) ++ [ZipWrite path (path_name path)],
           Exc (no_such_file path))).
Proof.
  intros Hnav Hloop head. subst head. split; [ | split; [ | split]].
  - pose proof (ecr_page_loop_files start_date end_date (ecr_pages w) []) as H.
    rewrite Hloop in H. exact H.
  - change t with (fst (t, Val files)). rewrite <- Hloop.
    apply filter_none, ecr_page_loop_effects; intros; reflexivity.
  - intros Hnd. rewrite run_ecr_extraction_shape, Hnav, Hloop.
    cbv zeta. now rewrite (ecr_archive_closing _ _ _ Hnd).
  - intros a b c path -> Hnd. rewrite run_ecr_extraction_shape, Hnav, Hloop.
    cbv zeta. now rewrite (ecr_archive_repeated _ _ _ _ _ _ Hnd).
Qed.

Lemma ecr_archive_bookkeeping_witness :
  ecr_nav (single_page [row_feb_2024]) = Ok tt
  /\ ecr_page_loop jan_2024 mar_2024 (ecr_pages (single_page [row_feb_2024])) []
     = ([QueuePut (status_update "Downloading PDF for TRRN2...");
         DownloadClick; SaveAs "ecr_downloads/TRRN2_Feb-2024.pdf"],
        Val ["ecr_downloads/TRRN2_Feb-2024.pdf"])
  /\ NoDup ["ecr_downloads/TRRN2_Feb-2024.pdf"]
  /\ run_ecr_extraction (single_page [row_feb_2024]) jan_2024 mar_2024
     = ([QueuePut (status_update "Starting ECR PDF extraction..."); Mkdir download_dir]
          ++ [QueuePut (status_update "Downloading PDF for TRRN2...");
              DownloadClick; SaveAs "ecr_downloads/TRRN2_Feb-2024.pdf"]
          ++ ecr_closing jan_2024 mar_2024 ["ecr_downloads/TRRN2_Feb-2024.pdf"],
        Val tt)
  /\ snd (ecr_page_loop jan_2024 mar_2024
            (ecr_pages (single_page [row_feb_2024; row_feb_2024])) [])
     = Val ["ecr_downloads/TRRN2_Feb-2024.pdf"; "ecr_downloads/TRRN2_Feb-2024.pdf"]
  /\ snd (run_ecr_extraction (single_page [row_feb_2024; row_feb_2024]) jan_2024 mar_2024)
     = Exc (Exn FileNotFoundError
              "[Errno 2] No such file or directory: 'ecr_downloads/TRRN2_Feb-2024.pdf'").
Proof.
  assert (Hnd : NoDup ["ecr_downloads/TRRN2_Feb-2024.pdf"])
    by (constructor; [intros [] | constructor]).
  split; [reflexivity | ]. split; [reflexivity | ]. split; [exact Hnd | ].
  split.
  - exact (proj1 (proj2 (proj2
             (ecr_archive_bookkeeping (single_page [row_feb_2024]) jan_2024 mar_2024
                _ _ eq_refl eq_refl))) Hnd).
  - split; [reflexivity | ].
    destruct (ecr_archive_bookkeeping (single_page [row_feb_2024; row_feb_2024])
                jan_2024 mar_2024 _ _ eq_refl eq_refl) as (_ & _ & _ & Hrepeated).
    rewrite (Hrepeated [] [] [] "ecr_downloads/TRRN2_Feb-2024.pdf" eq_refl Hnd).
    reflexivity.
Defined.

(** X8.  When an exception leaves the page loop (a [PlaywrightError] of
    a page-level call, or the [OverflowError] of a row), it leaves the task
    too, whose effects end with those of the page loop: the downloads saved
    so far are neither archived nor removed, and the loop puts status
    updates only, no [info] and no [error] event. *)
Theorem ecr_page_failure_leaves_downloads
    (w : ecr_world) (start_date end_date : datetime) (t : trace) (ex : exn) :
  ecr_nav w = Ok tt ->
  ecr_page_loop start_date end_date (ecr_pages w) [] = (t, Exc ex) ->
  run_ecr_extraction w start_date end_date
  = ([QueuePut (status_update "Starting ECR PDF extraction..."); Mkdir download_dir] ++ t,
     Exc ex)
  /\ filter is_cleanup t = []
  /\ Forall (fun ev => match ev with status_update _ => True | _ => False end) (puts t).
Proof.
  intros Hnav Hloop. repeat split.
  - rewrite run_ecr_extraction_shape, Hnav, Hloop. reflexivity.
  - change t with (fst (t, @Exc (list string) ex)). rewrite <- Hloop.
    apply filter_none, ecr_page_loop_effects; intros; reflexivity.
  - change t with (fst (t, @Exc (list string) ex)). rewrite <- Hloop.
    assert (H : Forall (fun e0 => match e0 with
                                  | QueuePut (status_update _) => True
                                  | QueuePut _ => False
                                  | _ => True
                                  end)
                  (fst (ecr_page_loop start_date end_date (ecr_pages w) [])))
      by (apply ecr_page_loop_effects; intros; exact I).
    induction H as [ | e0 u He _ IH]; [constructor | ].
    destruct e0 as [ | [ | | | | ] | | | | | | | | | | | ]; cbn; auto; contradiction.
Qed.

Lemma ecr_page_failure_leaves_downloads_witness :
  ecr_nav second_page_lost = Ok tt
  /\ snd (run_ecr_extraction second_page_lost jan_2024 mar_2024)
     = Exc (Exn PlaywrightError timeout_text)
  /\ saved (fst (run_ecr_extraction second_page_lost jan_2024 mar_2024))
     = ["ecr_downloads/TRRN2_Feb-2024.pdf"].
Proof.
  split; [reflexivity | ].
  destruct (ecr_page_failure_leaves_downloads second_page_lost jan_2024 mar_2024
              [QueuePut (status_update "Downloading PDF for TRRN2...");
               DownloadClick; SaveAs "ecr_downloads/TRRN2_Feb-2024.pdf"]
              (Exn PlaywrightError timeout_text) eq_refl eq_refl) as (Hrun & _ & _).
  rewrite Hrun. split; reflexivity.
Defined.

(** *** A reversed range *)

Lemma datetime_le_trans (a b c : datetime) :
  datetime_le a b = true -> datetime_le b c = true -> datetime_le a c = true.
Proof. unfold datetime_le. lia. Qed.

Lemma reversed_range_selects_nothing s e row :
  datetime_le s e = false -> downloads s e row = false.
Proof.
  intros Hrange. unfold downloads.
  destruct (wage_month_cell row), (status_cell row), (trrn_cell row),
    (pdf_link_count row) as [[ | ] | ]; try reflexivity.
  destruct (wage_month a) as [d | ]; [ | apply andb_false_r].
  destruct (datetime_le s d) eqn:H1; [ | apply andb_false_r].
  destruct (datetime_le d e) eqn:H2; [ | apply andb_false_r].
  rewrite (datetime_le_trans _ _ _ H1 H2) in Hrange. discriminate.
Qed.

Lemma ecr_rows_loop_idle s e rows : forall files,
  (forall row, downloads s e row = false) ->
  filter is_download_click (fst (ecr_rows_loop s e rows files)) = []
  /\ saved (fst (ecr_rows_loop s e rows files)) = [].
Proof.
  induction rows as [ | row rest IH]; intros files Hnone; [split; reflexivity | ].
  cbn [ecr_rows_loop]. rewrite fst_bind, filter_app, saved_app.
  pose proof (ecr_process_row_clicks s e row files) as Hc. rewrite Hnone in Hc.
  destruct (ecr_process_row_files s e row files) as [_ Hs]. rewrite Hc in Hs.
  assert (Hs' : saved (fst (ecr_process_row s e row files)) = [])
    by (destruct (saved (fst (ecr_process_row s e row files))); [reflexivity | cbn in Hs; lia]).
  rewrite Hc, Hs'. cbn [app].
  destruct (snd (ecr_process_row s e row files)); auto.
Qed.

Lemma ecr_page_loop_idle s e pages : forall files,
  (forall row, downloads s e row = false) ->
  filter is_download_click (fst (ecr_page_loop s e pages files)) = []
  /\ saved (fst (ecr_page_loop s e pages files)) = [].
Proof.
  induction pages as [ | p later IH]; intros files Hnone; [split; reflexivity | ].
  cbn [ecr_page_loop]. destruct (ecr_rows p) as [rows | text]; [ | split; reflexivity].
  rewrite bind_page_ok, fst_bind, filter_app, saved_app.
  destruct (ecr_rows_loop_idle s e rows files Hnone) as [-> ->]. cbn [app].
  destruct (snd (ecr_rows_loop s e rows files)) as [files' | ex | ]; auto.
  destruct (next_visible p) as [[ | ] | text]; [ | split; reflexivity | split; reflexivity].
  rewrite bind_page_ok. cbn [negb].
  destruct (next_click p) as [[] | text]; [ | split; reflexivity].
  rewrite bind_page_ok. auto.
Qed.

Lemma run_ecr_extraction_idle w s e :
  datetime_le s e = false ->
  occurrences is_download_click (fst (run_ecr_extraction w s e)) = 0
  /\ saved (fst (run_ecr_extraction w s e)) = []
  /\ occurrences is_cleanup (fst (run_ecr_extraction w s e)) = 0.
Proof.
  intros Hrange.
  assert (Hnone : forall row, downloads s e row = false)
    by (intros row; now apply reversed_range_selects_nothing).
  rewrite run_ecr_extraction_shape.
  destruct (ecr_nav w) as [[] | text]; [ | repeat split; reflexivity].
  cbv zeta.
  destruct (ecr_page_loop_idle s e (ecr_pages w) [] Hnone) as [Hc Hs].
  pose proof (ecr_page_loop_files s e (ecr_pages w) []) as Hf.
  assert (Hk : filter is_cleanup (fst (ecr_page_loop s e (ecr_pages w) [])) = [])
    by (apply filter_none, ecr_page_loop_effects; intros; reflexivity).
  destruct (ecr_page_loop s e (ecr_pages w) []) as [t [files | ex | ]];
    cbn [fst snd] in *; unfold occurrences;
    cbn [app filter is_download_click is_cleanup saved flat_map];
    fold (saved t); rewrite ?filter_app, ?saved_app, ?Hc, ?Hs, ?Hk; auto.
  rewrite Hs in Hf. subst files. repeat split; reflexivity.
Qed.

(** X9.  A range whose start date lies after its end date selects no
    row: whatever the portal shows, the task clicks no download link, saves
    no file, and neither opens an archive nor removes anything. *)
Theorem reversed_range_downloads_nothing
    (w : ecr_world) (start_date end_date : datetime) :
  datetime_le start_date end_date = false ->
  occurrences is_download_click (fst (run_ecr_extraction w start_date end_date)) = 0
  /\ saved (fst (run_ecr_extraction w start_date end_date)) = []
  /\ occurrences is_cleanup (fst (run_ecr_extraction w start_date end_date)) = 0.
Proof. apply run_ecr_extraction_idle. Qed.

Lemma reversed_range_downloads_nothing_witness :
  datetime_le mar_2024 jan_2024 = false
  /\ saved (fst (run_ecr_extraction (single_page [row_feb_2024]) mar_2024 jan_2024)) = [].
Proof.
  split; [reflexivity | ].
  apply (reversed_range_downloads_nothing (single_page [row_feb_2024]) mar_2024 jan_2024).
  reflexivity.
Defined.

(** *** The end of the pagination *)

Lemma ecr_rows_loop_comes_back s e rows : forall files,
  snd (ecr_rows_loop s e rows files) <> Blocked.
Proof.
  induction rows as [ | row rest IH]; intros files; [discriminate | ].
  cbn [ecr_rows_loop]. rewrite snd_bind.
  pose proof (ecr_process_row_outcome s e row files) as H.
  destruct (row_overflows row).
  - destruct H as [y ->]. discriminate.
  - destruct H as (files' & -> & _). apply IH.
Qed.

(** X10.  The page loop ends at the first page on which no Next control
    is visible: it comes back (it returns, or an exception leaves it), and
    the pages after that one are never asked for. *)
Theorem ecr_pagination_stops
    (s e : datetime) (before : list ecr_page) (last : ecr_page) (more : list ecr_page)
    (files : list string) :
  Forall (fun p => next_visible p = Ok true) before ->
  next_visible last = Ok false ->
  ecr_page_loop s e (before ++ last :: more) files
  = ecr_page_loop s e (before ++ [last]) files
  /\ snd (ecr_page_loop s e (before ++ last :: more) files) <> Blocked.
Proof.
  intros Hbefore Hlast. revert files.
  induction Hbefore as [ | p before Hp _ IH]; intros files; cbn [app ecr_page_loop].
  - destruct (ecr_rows last) as [rows | text]; [ | split; [reflexivity | discriminate]].
    rewrite !bind_page_ok, !snd_bind.
    pose proof (ecr_rows_loop_comes_back s e rows files) as Hrows.
    destruct (ecr_rows_loop s e rows files) as [t [files' | ex | ]]; cbn [snd] in *;
      try (split; [reflexivity | congruence]).
    rewrite Hlast. split; [reflexivity | ]. rewrite bind_page_ok. discriminate.
  - destruct (ecr_rows p) as [rows | text]; [ | split; [reflexivity | discriminate]].
    rewrite !bind_page_ok, !snd_bind.
    pose proof (ecr_rows_loop_comes_back s e rows files) as Hrows.
    destruct (ecr_rows_loop s e rows files) as [t [files' | ex | ]]; cbn [snd] in *;
      try (split; [reflexivity | congruence]).
    rewrite Hp, !bind_val, !bind_page_ok. cbn [negb].
    destruct (next_click p) as [[] | text].
    + rewrite !bind_page_ok. destruct (IH files') as [-> Hb].
      split; [reflexivity | exact Hb].
    + split; [reflexivity | discriminate].
Qed.

Lemma ecr_pagination_stops_witness :
  Forall (fun p => next_visible p = Ok true) [EcrPage (Ok [row_feb_2024]) (Ok true) (Ok tt)]
  /\ ecr_page_loop jan_2024 mar_2024
       ([EcrPage (Ok [row_feb_2024]) (Ok true) (Ok tt)]
          ++ EcrPage (Ok [row_without_link]) (Ok false) (Ok tt)
          :: [EcrPage (Ok [row_far_year]) (Ok false) (Ok tt)]) []
     = ecr_page_loop jan_2024 mar_2024
         ([EcrPage (Ok [row_feb_2024]) (Ok true) (Ok tt)]
            ++ [EcrPage (Ok [row_without_link]) (Ok false) (Ok tt)]) [].
Proof.
  assert (H : Forall (fun p => next_visible p = Ok true)
                [EcrPage (Ok [row_feb_2024]) (Ok true) (Ok tt)])
    by (repeat constructor).
  split; [exact H | ].
  apply (ecr_pagination_stops jan_2024 mar_2024 _
           (EcrPage (Ok [row_without_link]) (Ok false) (Ok tt))
           [EcrPage (Ok [row_far_year]) (Ok false) (Ok tt)] [] H eq_refl).
Defined.

(** ** The service details scraper: files, archive, pages *)

Lemma written_app (t u : trace) : written (t ++ u) = written t ++ written u.
Proof. unfold written. now rewrite flat_map_app. Qed.

Lemma written_none (t : trace) :
  Forall (fun e => is_to_excel e = false) t -> written t = [].
Proof.
  induction 1 as [ | e t He _ IH]; [reflexivity | ].
  destruct e; try discriminate; exact IH.
Qed.

Lemma msd_page_loop_written uan pages data :
  written (fst (msd_page_loop uan pages data)) = [].
Proof. apply written_none, msd_page_loop_effects; intros; reflexivity. Qed.

(** The handling of one UAN, by the end of its page loop. *)
Lemma msd_process_uan_shape s uan files :
  msd_process_uan s uan files =
  let opening := QueuePut (status_update ("Processing UAN: " ++ uan)) in
  match search_submit s, header_texts s with
  | Err text, _ => ([opening], Exc (Exn PlaywrightError text))
  | Ok _, Err text => ([opening], Exc (Exn PlaywrightError text))
  | Ok _, Ok texts =>
      match msd_page_loop uan (msd_pages s) [] with
      | (t, Val []) => (opening :: t, Val files)
      | (t, Val data) =>
          match pd_DataFrame data (msd_headers texts) with
          | inr df =>
              (opening :: t
                 ++ [ToExcel (excel_path uan) df;
                     Logging log_info ("Saved service details for UAN " ++ uan ++ " to "
                                       ++ excel_path uan)],
               Val (files ++ [excel_path uan]))
          | inl ex => (opening :: t, Exc ex)
          end
      | (t, Exc ex) => (opening :: t, Exc ex)
      | (t, Blocked) => (opening :: t, Blocked)
      end
  end.
Proof.
  unfold msd_process_uan, put. rewrite bind_emit. cbv zeta.
  destruct (search_submit s) as [[] | text]; [rewrite bind_page_ok | reflexivity].
  destruct (header_texts s) as [texts | text]; [rewrite bind_page_ok | reflexivity].
  destruct (msd_page_loop uan (msd_pages s) []) as [t [[ | row data] | ex | ]];
    try reflexivity.
  - rewrite bind_val. cbn [fst snd ret]. now rewrite app_nil_r.
  - rewrite bind_val. unfold excel_path.
    destruct (pd_DataFrame (row :: data) (msd_headers texts)) as [ex | df].
    + unfold of_sum, raise. rewrite bind_exc. cbn [fst snd]. now rewrite app_nil_r.
    + unfold of_sum. rewrite bind_ret. reflexivity.
Qed.

Lemma msd_process_uan_files s uan files :
  match snd (msd_process_uan s uan files) with
  | Val files' => files' = files ++ written (fst (msd_process_uan s uan files))
  | _ => True
  end.
Proof.
  rewrite msd_process_uan_shape. cbv zeta.
  destruct (search_submit s) as [[] | ?]; [ | exact I].
  destruct (header_texts s) as [texts | ?]; [ | exact I].
  pose proof (msd_page_loop_written uan (msd_pages s) []) as Hw.
  destruct (msd_page_loop uan (msd_pages s) []) as [t [[ | row data] | ex | ]];
    cbn [fst snd] in *; auto.
  - change (written (?e :: t)) with (written t). rewrite Hw. now rewrite app_nil_r.
  - destruct (pd_DataFrame (row :: data) (msd_headers texts)); cbn [fst snd]; auto.
    change (written (?e :: ?u)) with (written u). rewrite written_app, Hw. reflexivity.
Qed.

Lemma msd_uan_loop_files w uans : forall i files,
  match snd (msd_uan_loop w i uans files) with
  | Val files' => files' = files ++ written (fst (msd_uan_loop w i uans files))
  | _ => True
  end.
Proof.
  induction uans as [ | uan rest IH]; intros i files.
  - cbn. now rewrite app_nil_r.
  - cbn [msd_uan_loop]. rewrite fst_bind, snd_bind.
    pose proof (msd_process_uan_files (msd_searches w i) uan files) as H.
    destruct (snd (msd_process_uan (msd_searches w i) uan files)) as [files' | ex | ]; auto.
    specialize (IH (S i) files').
    destruct (snd (msd_uan_loop w (S i) rest files')); auto.
    rewrite written_app, app_assoc, <- H. exact IH.
Qed.


(** The archive step of the task on a list in which a path comes twice. *)
Lemma msd_archive_repeated (a b c : list string) (path : string) :
  NoDup (a ++ path :: b) ->
  msd_archive (a ++ path :: b ++ path :: c)
  = (msd_stopped a b c path, Exc (no_such_file path)).
Proof.
  intros Hnd. unfold msd_archive, msd_stopped, put.
  destruct (a ++ path :: b ++ path :: c) as [ | f files] eqn:E;
    [destruct a; discriminate | ].
  rewrite <- E.
  rewrite bind_assoc, bind_emit, bind_assoc, bind_emit, bind_assoc.
  rewrite (zip_and_remove_repeated _ _ _ _ Hnd). reflexivity.
Qed.

(** The task around its [try]. *)
Lemma run_msd_extraction_shape w uans :
  run_msd_extraction w uans =
  let head := [QueuePut (status_update "Starting Member Service Detail extraction...");
               Mkdir excel_dir] in
  match msd_try_body w uans with
  | (t, Val files) => (head ++ t ++ fst (msd_archive files), snd (msd_archive files))
  | (t, Exc e) =>
      if exn_class_eqb (cls e) PlaywrightError
      then (head ++ t ++ [QueuePut (error ("An error occurred during MSD extraction: "
                                           ++ message e))], Val tt)
      else (head ++ t, Exc e)
  | (t, Blocked) => (head ++ t, Blocked)
  end.
Proof.
  unfold run_msd_extraction, put. rewrite !bind_emit. cbv zeta.
  destruct (msd_try_body w uans) as [t [files | e | ]].
  - unfold try_except, bind, ret. cbn [fst snd app]. now rewrite app_nil_r.
  - rewrite bind_exc. unfold try_except, isinstance. cbn [fst snd existsb].
    rewrite orb_false_r. destruct (exn_class_eqb (cls e) PlaywrightError).
    + unfold bind, emit, ret. cbn [fst snd app]. now rewrite app_nil_r.
    + reflexivity.
  - reflexivity.
Qed.

(** X11.  An exception of the [try] that is no [PlaywrightError] (the
    [ValueError] of the frame) is not handled by the task: it leaves
    [run_msd_extraction] after the effects of the [try], with no [error]
    event put by the task, no archive and no clean-up; in the worker it
    becomes the loop's one [error] event and the next command is taken. *)
Theorem msd_other_exception_leaves_task
    (w : page_world) (uans : list string) (later : list (command * page_world))
    (t : trace) (e : exn) :
  msd_try_body (msd_task w) uans = (t, Exc e) ->
  cls e <> PlaywrightError ->
  let head := [QueuePut (status_update "Starting Member Service Detail extraction...");
               Mkdir excel_dir] in
  run_msd_extraction (msd_task w) uans = (head ++ t, Exc e)
  /\ Forall msd_body_effect t
  /\ worker_loop ((run_msd uans, w) :: later)
     = (QueueGet (run_msd uans) :: (head ++ t) ++ worker_error e :: fst (worker_loop later),
        snd (worker_loop later)).
Proof.
  intros Hbody Hcls head.
  assert (Hrun : run_msd_extraction (msd_task w) uans = (head ++ t, Exc e)).
  { rewrite run_msd_extraction_shape, Hbody. cbv zeta.
    destruct e as [[ | | | ] text]; cbn; try reflexivity. now elim Hcls. }
  repeat split; [exact Hrun | | ].
  - rewrite msd_try_body_nav in Hbody.
    destruct (msd_nav (msd_task w)) as [[] | text].
    + destruct (msd_uan_loop (msd_task w) 0 uans []) as [t' r'] eqn:Hloop.
      cbn [fst snd] in Hbody. injection Hbody as <- ->.
      destruct (msd_uan_loop_stops _ _ _ _ _ _ Hloop) as (Hb & _).
      constructor; [cbn; discriminate | exact Hb].
    + injection Hbody as <- <-. now elim Hcls.
  - rewrite worker_loop_step by reflexivity. cbn [handle]. rewrite Hrun. reflexivity.
Qed.

Lemma msd_other_exception_leaves_task_witness :
  msd_try_body (msd_task sample_page_world) ["100200300400"]
  = ([QueuePut (status_update "Navigating to Member Service Details page...");
      QueuePut (status_update "Processing UAN: 100200300400")],
     Exc columns_mismatch)
  /\ cls columns_mismatch <> PlaywrightError
  /\ run_msd_extraction (msd_task sample_page_world) ["100200300400"]
     = (blank_first_header_trace "100200300400", Exc columns_mismatch).
Proof.
  split; [reflexivity | ]. split; [discriminate | ].
  apply (msd_other_exception_leaves_task sample_page_world ["100200300400"] []
           _ columns_mismatch eq_refl).
  discriminate.
Defined.



(** X13.  A UAN whose page loop returns no row gets no file: its
    handling returns the list of files unchanged and writes no table.  In
    particular, when the first page shows no row and the pager text contains
    "Member not found", the UAN is closed with one warning in the log, with
    no [error] event, and the loop goes on with the next UAN. *)
Theorem msd_no_rows_no_file
    (w : msd_world) (i : nat) (uan : string) (rest : list string) (files : list string)
    (texts : list string) :
  search_submit (msd_searches w i) = Ok tt ->
  header_texts (msd_searches w i) = Ok texts ->
  (forall t,
      msd_page_loop uan (msd_pages (msd_searches w i)) [] = (t, Val []) ->
      msd_uan_loop w i (uan :: rest) files
      = (QueuePut (status_update ("Processing UAN: " ++ uan))
           :: t ++ fst (msd_uan_loop w (S i) rest files),
         snd (msd_uan_loop w (S i) rest files))
      /\ written (QueuePut (status_update ("Processing UAN: " ++ uan)) :: t) = [])
  /\ (forall p later text,
        msd_pages (msd_searches w i) = p :: later ->
        msd_rows p = Ok [] ->
        pager_right p = Ok text ->
        PyStr.contains "Member not found" text = true ->
        msd_page_loop uan (msd_pages (msd_searches w i)) []
        = ([Logging log_warning ("Member not found for UAN: " ++ uan)], Val [])).
Proof.
  intros Hsubmit Hheaders. split.
  - intros t Hloop. split.
    + cbn [msd_uan_loop]. rewrite msd_process_uan_shape, Hsubmit, Hheaders, Hloop.
      cbv zeta. rewrite bind_val. reflexivity.
    + change (written (?e :: t)) with (written t).
      change t with (fst (t, @Val (list (list string)) [])). rewrite <- Hloop.
      apply msd_page_loop_written.
  - intros p later text -> Hrows Hpager Hfound.
    cbn [msd_page_loop]. rewrite Hrows, bind_page_ok. cbn [is_empty andb].
    rewrite Hpager, bind_page_ok, Hfound. reflexivity.
Qed.

Lemma msd_no_rows_no_file_witness :
  search_submit (MsdSearch (Ok tt) (Ok ["No"; "Name"])
                   [MsdPage (Ok []) (Ok "Member not found") (Ok None) (Ok tt)]) = Ok tt
  /\ msd_page_loop "100200300400"
       [MsdPage (Ok []) (Ok "Member not found") (Ok None) (Ok tt)] []
     = ([Logging log_warning "Member not found for UAN: 100200300400"], Val []).
Proof.
  split; [reflexivity | ].
  destruct (msd_no_rows_no_file
              (MsdWorld (Ok tt)
                 (fun _ => MsdSearch (Ok tt) (Ok ["No"; "Name"])
                             [MsdPage (Ok []) (Ok "Member not found") (Ok None) (Ok tt)]))
              0 "100200300400" [] [] ["No"; "Name"] eq_refl eq_refl) as [_ H].
  apply (H (MsdPage (Ok []) (Ok "Member not found") (Ok None) (Ok tt)) []
           "Member not found"); reflexivity.
Defined.

(** *** Pagination *)

Lemma inner_texts_tl (texts : list string) :
  inner_texts (tl (map Ok texts)) = ret (tl texts).
Proof. destruct texts as [ | first rest]; [reflexivity | apply inner_texts_ok]. Qed.

Lemma msd_rows_loop_grid (rows : list (list string)) : forall acc,
  msd_rows_loop (map grid_row rows) acc = ret (acc ++ map (@tl string) rows).
Proof.
  induction rows as [ | row rest IH]; intros acc.
  - cbn [map msd_rows_loop]. now rewrite app_nil_r.
  - cbn [map msd_rows_loop]. unfold msd_row_data, grid_row at 1.
    rewrite bind_page_ok, inner_texts_tl, bind_ret, IH, <- app_assoc. reflexivity.
Qed.

(** X14.  Over a grid whose pages read well, the page loop gathers the
    rows of all pages in page order, each without its first cell, after the
    rows it already has; it puts one status update for each page it turns
    and returns at the first page whose Next control carries
    "ui-state-disabled", leaving the pages after it unread. *)
Theorem msd_pagination_collects
    (uan : string) (before : list (list (list string) * option string))
    (last : list (list string)) (last_class : option string) (more : list msd_page)
    (acc : list (list string)) :
  Forall (fun page => PyStr.contains "ui-state-disabled" (class_text (snd page)) = false)
    before ->
  PyStr.contains "ui-state-disabled" (class_text last_class) = true ->
  msd_page_loop uan
    (map (fun page => grid_page (fst page) (snd page)) before
       ++ grid_page last last_class :: more) acc
  = (map (fun _ => next_page_status uan) before,
     Val (acc ++ map (@tl string) (concat (map fst before) ++ last))).
Proof.
  intros Hbefore Hlast. revert acc.
  assert (Hpager : forall b : bool,
             (if b
              then (if PyStr.contains "Member not found" ""
                    then logging log_warning ("Member not found for UAN: " ++ uan);; ret true
                    else ret false)
              else ret false) = ret false)
    by (intros []; reflexivity).
  induction Hbefore as [ | [rows class] before Hclass _ IH]; intros acc;
    cbn [map app msd_page_loop fst snd].
  - change (grid_page last last_class)
      with (MsdPage (Ok (map grid_row last)) (Ok "") (Ok last_class) (Ok tt)).
    cbn [msd_rows pager_right next_class next_page_click].
    rewrite !bind_page_ok, Hpager, bind_ret, msd_rows_loop_grid, bind_ret, bind_page_ok.
    unfold class_text in Hlast. rewrite Hlast, app_nil_l. reflexivity.
  - change (grid_page rows class)
      with (MsdPage (Ok (map grid_row rows)) (Ok "") (Ok class) (Ok tt)).
    cbn [msd_rows pager_right next_class next_page_click].
    rewrite !bind_page_ok, Hpager, bind_ret, msd_rows_loop_grid, bind_ret, bind_page_ok.
    cbn [snd class_text] in Hclass. unfold class_text in Hclass. rewrite Hclass.
    unfold put. rewrite bind_emit, bind_page_ok, IH. cbn [fst snd concat].
    rewrite !map_app, <- !app_assoc. reflexivity.
Qed.

Lemma msd_pagination_collects_witness :
  Forall (fun page => PyStr.contains "ui-state-disabled" (class_text (snd page)) = false)
    [([["1"; "A. Kumar"; "01/04/2019"]], Some "ui-corner-all")]
  /\ msd_page_loop "100200300400"
       (map (fun page => grid_page (fst page) (snd page))
          [([["1"; "A. Kumar"; "01/04/2019"]], Some "ui-corner-all")]
          ++ grid_page [["2"; "A. Kumar"; "01/07/2021"]] (Some "ui-state-disabled") :: []) []
     = (map (fun _ => next_page_status "100200300400")
          [([["1"; "A. Kumar"; "01/04/2019"]], Some "ui-corner-all")],
        Val ([] ++ map (@tl string)
                     (concat (map fst [([["1"; "A. Kumar"; "01/04/2019"]],
                                        Some "ui-corner-all")])
                        ++ [["2"; "A. Kumar"; "01/07/2021"]]))).
Proof.
  assert (H : Forall (fun page =>
                        PyStr.contains "ui-state-disabled" (class_text (snd page)) = false)
                [([["1"; "A. Kumar"; "01/04/2019"]], Some "ui-corner-all")])
    by (repeat constructor).
  split; [exact H | ].
  apply (msd_pagination_collects "100200300400" _ _ (Some "ui-state-disabled") [] [] H
           eq_refl).
Defined.

(** *** A path listed twice *)

Lemma archived_app (a b : list string) : archived (a ++ b) = archived a ++ archived b.
Proof. unfold archived. now rewrite flat_map_app. Qed.

Lemma msd_try_body_files w uans t files :
  msd_try_body w uans = (t, Val files) -> files = written t.
Proof.
  intros Hbody. rewrite msd_try_body_nav in Hbody.
  destruct (msd_nav w) as [[] | text]; [ | discriminate].
  pose proof (msd_uan_loop_files w uans 0 []) as H.
  destruct (msd_uan_loop w 0 uans []) as [t' r']. cbn [fst snd] in *.
  injection Hbody as <- ->. exact H.
Qed.

(** X15.  Nothing keeps a path from being listed twice among the files
    of a task (the table of a UAN requested twice is written twice to the
    same path).  The archive step then adds and removes the files before
    the second entry of the first such path, calls [zf.write] for the
    removed file, and that call raises [FileNotFoundError]: the exception
    leaves the task with the files after it neither archived nor removed,
    the directory in place, and neither the [info] event nor the closing
    status put; in the worker it becomes the loop's one [error] event and
    the next command is taken. *)
Theorem msd_path_listed_twice
    (w : page_world) (uans : list string) (later : list (command * page_world))
    (t : trace) (a b c : list string) (path : string) :
  msd_try_body (msd_task w) uans = (t, Val (a ++ path :: b ++ path :: c)) ->
  NoDup (a ++ path :: b) ->
  let head := [QueuePut (status_update "Starting Member Service Detail extraction...");
               Mkdir excel_dir] in
  written t = a ++ path :: b ++ path :: c
  /\ run_msd_extraction (msd_task w) uans
     = (head ++ t ++ msd_stopped a b c path, Exc (no_such_file path))
  /\ worker_loop ((run_msd uans, w) :: later)
     = (QueueGet (run_msd uans)
          :: (head ++ t ++ msd_stopped a b c path)
          ++ worker_error (no_such_file path) :: fst (worker_loop later),
        snd (worker_loop later)).
Proof.
  intros Hbody Hnd head.
  assert (Hrun : run_msd_extraction (msd_task w) uans
                 = (head ++ t ++ msd_stopped a b c path, Exc (no_such_file path))).
  { rewrite run_msd_extraction_shape, Hbody. cbv zeta.
    now rewrite (msd_archive_repeated _ _ _ _ Hnd). }
  split; [symmetry; exact (msd_try_body_files _ _ _ _ Hbody) | ].
  split; [exact Hrun | ].
  rewrite worker_loop_step by reflexivity. cbn [handle]. rewrite Hrun. reflexivity.
Qed.

Lemma msd_path_listed_twice_witness :
  msd_try_body every_member_world ["100200300400"; "100200300400"]
  = ([QueuePut (status_update "Navigating to Member Service Details page...");
      QueuePut (status_update "Processing UAN: 100200300400");
      ToExcel "msd_excel_files/100200300400.xlsx"
        (Frame ["Name"; "Joining Date"] [[Some "A. Kumar"; Some "01/04/2019"]]);
      Logging log_info
        "Saved service details for UAN 100200300400 to msd_excel_files/100200300400.xlsx";
      QueuePut (status_update "Processing UAN: 100200300400");
      ToExcel "msd_excel_files/100200300400.xlsx"
        (Frame ["Name"; "Joining Date"] [[Some "A. Kumar"; Some "01/04/2019"]]);
      Logging log_info
        "Saved service details for UAN 100200300400 to msd_excel_files/100200300400.xlsx"],
     Val ["msd_excel_files/100200300400.xlsx"; "msd_excel_files/100200300400.xlsx"])
  /\ NoDup ["msd_excel_files/100200300400.xlsx"]
  /\ run_msd_extraction every_member_world ["100200300400"; "100200300400"]
     = ([QueuePut (status_update "Starting Member Service Detail extraction...");
         Mkdir "msd_excel_files";
         QueuePut (status_update "Navigating to Member Service Details page...");
         QueuePut (status_update "Processing UAN: 100200300400");
         ToExcel "msd_excel_files/100200300400.xlsx"
           (Frame ["Name"; "Joining Date"] [[Some "A. Kumar"; Some "01/04/2019"]]);
         Logging log_info
           "Saved service details for UAN 100200300400 to msd_excel_files/100200300400.xlsx";
         QueuePut (status_update "Processing UAN: 100200300400");
         ToExcel "msd_excel_files/100200300400.xlsx"
           (Frame ["Name"; "Joining Date"] [[Some "A. Kumar"; Some "01/04/2019"]]);
         Logging log_info
           "Saved service details for UAN 100200300400 to msd_excel_files/100200300400.xlsx";
         QueuePut (status_update "Zipping 2 Excel files...");
         ZipOpen "Member_Service_Details.zip";
         ZipWrite "msd_excel_files/100200300400.xlsx" "100200300400.xlsx";
         Remove "msd_excel_files/100200300400.xlsx";
         ZipWrite "msd_excel_files/100200300400.xlsx" "100200300400.xlsx"],
        Exc (Exn FileNotFoundError
               "[Errno 2] No such file or directory: 'msd_excel_files/100200300400.xlsx'")).
Proof.
  assert (Hnd : NoDup ([] ++ "msd_excel_files/100200300400.xlsx" :: []))
    by (constructor; [intros [] | constructor]).
  split; [reflexivity | ]. split; [exact Hnd | ].
  destruct (msd_path_listed_twice
              (PageWorld (Ok tt) (Ok tt) idle_uan_world idle_ecr_world every_member_world)
              ["100200300400"; "100200300400"] [] _ [] [] []
              "msd_excel_files/100200300400.xlsx" eq_refl Hnd) as (_ & Hrun & _).
  cbn [msd_task] in Hrun. rewrite Hrun. reflexivity.
Defined.

(** ** Month names *)

Lemma to_lower_cases (c : ascii) :
  PyStr.is_cased (PyStr.to_lower c) = PyStr.is_cased c
  /\ PyStr.to_lower (PyStr.to_lower c) = PyStr.to_lower c
  /\ PyStr.to_upper (PyStr.to_lower c) = PyStr.to_upper c.
Proof. destruct c as [[] [] [] [] [] [] [] []]; repeat split; reflexivity. Qed.

Lemma title_from_lower (s : string) : forall previous,
  PyStr.title_from previous (lower s) = PyStr.title_from previous s.
Proof.
  induction s as [ | c r IH]; intros previous; [reflexivity | ].
  cbn [lower PyStr.title_from].
  destruct (to_lower_cases c) as (-> & -> & ->). now rewrite IH.
Qed.

(** X16.  [get_month_index] does not look at the case of the letters:
    two names that are equal once lower-cased get the same index. *)
Theorem get_month_index_ignores_case (a b : string) :
  lower a = lower b -> get_month_index a = get_month_index b.
Proof.
  intros H. apply get_month_index_title. unfold PyStr.title.
  rewrite <- (title_from_lower a), <- (title_from_lower b), H. reflexivity.
Qed.

Lemma get_month_index_ignores_case_witness :
  lower "sEP" = lower "Sep" /\ get_month_index "sEP" = get_month_index "Sep".
Proof.
  split; [reflexivity | ].
  apply (get_month_index_ignores_case "sEP" "Sep"). reflexivity.
Defined.

Lemma month_names_title (name : string) : In name months -> PyStr.title name = name.
Proof.
  intros H. repeat (destruct H as [<- | H]; [reflexivity | ]). elim H.
Qed.

Lemma list_index_of_nth (x : string) (l : list string) :
  In x l -> exists i, list_index x l = Some i.
Proof.
  induction l as [ | y l IH]; intros H; [elim H | ]. cbn [list_index].
  destruct (String.eqb_spec y x) as [ | Hne]; [eauto | ].
  destruct H as [H | H]; [contradiction | ].
  destruct (IH H) as [i ->]. cbn. eauto.
Qed.

(** X17.  The month table of the GUI and the parser of the wage months
    agree: a name is a key of [month_map] exactly when it is one of the
    twelve abbreviations as listed, and the value of the key is the index
    [get_month_index] gives for that name, from 1 to 12. *)
Theorem month_map_agrees (name : string) (m : Z) :
  month_map name = Some m
  <-> In name months /\ get_month_index name = m /\ (1 <= m <= 12)%Z.
Proof.
  unfold month_map. split.
  - destruct (list_index name months) as [i | ] eqn:E; [ | discriminate].
    cbn [option_map]. intros [= <-].
    assert (Hin : In name months)
      by (apply list_index_nth in E; eapply nth_error_In; eauto).
    unfold get_month_index. rewrite (month_names_title _ Hin), E.
    apply list_index_nth in E.
    assert (i < length months) by (apply nth_error_Some; congruence).
    cbn [length months] in *. cbv beta. repeat split; auto; lia.
  - intros (Hin & <- & _). unfold get_month_index.
    rewrite (month_names_title _ Hin).
    destruct (list_index_of_nth _ _ Hin) as [i ->]. reflexivity.
Qed.

(** ** The button handlers *)

Lemma split_not_nil sep s : PyStr.split sep s <> [].
Proof.
  destruct s as [ | c r]; cbn; [discriminate | ].
  destruct (Ascii.eqb c sep); [discriminate | ].
  destruct (PyStr.split sep r); discriminate.
Qed.

Lemma split_no_sep sep s :
  Forall (fun p => has_char sep p = false) (PyStr.split sep s).
Proof.
  induction s as [ | c r IH]; cbn [PyStr.split]; [repeat constructor | ].
  destruct (Ascii.eqb c sep) eqn:E; [constructor; [reflexivity | exact IH] | ].
  destruct (PyStr.split sep r) as [ | h t].
  - repeat constructor. cbn. now rewrite E.
  - inversion IH as [ | ? ? Hh Ht]; subst. constructor; [ | exact Ht].
    cbn. now rewrite E, Hh.
Qed.

Lemma has_char_lstrip c sp s :
  has_char c s = false -> has_char c (PyStr.lstrip_by sp s) = false.
Proof.
  induction s as [ | c' r IH]; cbn [PyStr.lstrip_by has_char]; [reflexivity | ].
  intros H. apply orb_false_elim in H as [H1 H2].
  destruct (sp c'); [auto | ]. cbn. now rewrite H1, H2.
Qed.

Lemma has_char_rstrip c sp s :
  has_char c s = false -> has_char c (PyStr.rstrip_by sp s) = false.
Proof.
  induction s as [ | c' r IH]; cbn [PyStr.rstrip_by has_char]; [reflexivity | ].
  intros H. apply orb_false_elim in H as [H1 H2]. specialize (IH H2).
  destruct (PyStr.rstrip_by sp r) as [ | c'' r''].
  - destruct (sp c'); [reflexivity | ]. cbn. now rewrite H1.
  - cbn [has_char] in *. now rewrite H1, IH.
Qed.

Lemma has_char_strip c s : has_char c s = false -> has_char c (PyStr.strip s) = false.
Proof. intros H. unfold PyStr.strip. now apply has_char_rstrip, has_char_lstrip. Qed.

Lemma parse_uans_clean (text : string) : Forall clean_uan (parse_uans text).
Proof.
  unfold parse_uans. apply Forall_map, Forall_forall. intros u Hu.
  apply filter_In in Hu as [Hin Hne].
  pose proof (split_no_sep "," text) as Hsep. rewrite Forall_forall in Hsep.
  repeat split.
  - intros E. rewrite E in Hne. discriminate.
  - apply strip_stripped.
  - apply has_char_strip, Hsep, Hin.
Qed.

(** X18.  The UAN and the service details buttons queue a command only
    for a list of UANs that is not empty, and every UAN of it is clean: not
    empty, without white space at either end, without a comma; the UAN
    button also wants a non-empty output path.  Otherwise they show the
    input error and queue nothing.  Either way they do exactly one thing. *)
Theorem uan_buttons_queue_clean_uans (uans_text output_file : string) :
  (if is_empty (parse_uans uans_text) || String.eqb output_file ""
   then uan_button_command uans_text output_file
        = [ShowError "Input Error" "Please provide UANs and an output file path."]
   else uan_button_command uans_text output_file
        = [CommandPut (run_uan (parse_uans uans_text) output_file)]
        /\ parse_uans uans_text <> [] /\ output_file <> "")
  /\ (if is_empty (parse_uans uans_text)
      then msd_button_command uans_text
           = [ShowError "Input Error"
                "Please provide at least one UAN for Service Detail extraction."]
      else msd_button_command uans_text = [CommandPut (run_msd (parse_uans uans_text))]
           /\ parse_uans uans_text <> [])
  /\ Forall clean_uan (parse_uans uans_text).
Proof.
  unfold uan_button_command, msd_button_command. cbv zeta.
  repeat split; try apply parse_uans_clean.
  - destruct (parse_uans uans_text) as [ | u l]; cbn [is_empty orb]; [reflexivity | ].
    destruct (String.eqb_spec output_file ""); repeat split; congruence.
  - destruct (parse_uans uans_text) as [ | u l]; cbn [is_empty];
      repeat split; congruence.
Qed.

(** *** Reading back a list of UANs *)

Lemma split_no_sep_id sep p : has_char sep p = false -> PyStr.split sep p = [p].
Proof.
  induction p as [ | c r IH]; cbn [has_char PyStr.split]; [reflexivity | ].
  intros H. apply orb_false_elim in H as [H1 H2]. rewrite H1, (IH H2). reflexivity.
Qed.

Lemma split_app_sep sep p r :
  has_char sep p = false ->
  PyStr.split sep (p ++ String sep r) = p :: PyStr.split sep r.
Proof.
  induction p as [ | c p IH]; cbn [has_char PyStr.split String.append].
  - intros _. now rewrite Ascii.eqb_refl.
  - intros H. apply orb_false_elim in H as [H1 H2]. rewrite H1, (IH H2). reflexivity.
Qed.

Lemma split_join sep (parts : list string) :
  parts <> [] ->
  Forall (fun p => has_char sep p = false) parts ->
  PyStr.split sep (join sep parts) = parts.
Proof.
  induction parts as [ | p rest IH]; intros Hne H; [now elim Hne | ].
  inversion H as [ | ? ? Hp Hrest]; subst.
  destruct rest as [ | q rest].
  - now apply split_no_sep_id.
  - change (join sep (p :: q :: rest)) with (p ++ String sep (join sep (q :: rest)))%string.
    rewrite (split_app_sep _ _ _ Hp), IH; [reflexivity | discriminate | exact Hrest].
Qed.

Lemma has_char_app c s t : has_char c (s ++ t) = has_char c s || has_char c t.
Proof.
  induction s as [ | c' r IH]; cbn [has_char String.append]; [reflexivity | ].
  now rewrite IH, orb_assoc.
Qed.

(** A clean text starts with a character that is no white space. *)
Lemma clean_first (u : string) :
  clean_uan u -> exists c r, u = String c r /\ PyStr.is_space c = false.
Proof.
  intros (Hne & Hs & _). unfold stripped, PyStr.strip in Hs.
  pose proof (lstrip_by_first PyStr.is_space u) as Hf.
  destruct u as [ | c r]; [now elim Hne | ]. exists c, r. split; [reflexivity | ].
  destruct (PyStr.is_space c) eqn:E; [ | reflexivity]. exfalso.
  cbn [PyStr.lstrip_by] in Hs, Hf. rewrite E in Hs, Hf.
  destruct (PyStr.lstrip_by PyStr.is_space r) as [ | c' r'] eqn:El.
  - discriminate.
  - destruct (rstrip_by_first PyStr.is_space c' r' Hf) as [r'' Er].
    rewrite Er in Hs. injection Hs as -> _. congruence.
Qed.

Lemma rstrip_by_app_space sp s c :
  sp c = true ->
  PyStr.rstrip_by sp (s ++ String c EmptyString) = PyStr.rstrip_by sp s.
Proof.
  intros Hc. induction s as [ | c' r IH]; cbn [String.append PyStr.rstrip_by].
  - now rewrite Hc.
  - now rewrite IH.
Qed.

Lemma strip_clean_newline (u : string) : clean_uan u -> PyStr.strip (u ++ newline) = u.
Proof.
  intros Hu. destruct (clean_first u Hu) as (c & r & -> & Hc).
  destruct Hu as (_ & Hs & _). unfold stripped, PyStr.strip in *.
  unfold newline. cbn [String.append].
  rewrite (lstrip_by_fixed _ c r Hc) in Hs. rewrite (lstrip_by_fixed _ c _ Hc).
  change (String c (r ++ String (ascii_of_nat 10) ""))
    with (String c r ++ String (ascii_of_nat 10) "")%string.
  rewrite rstrip_by_app_space; [exact Hs | reflexivity].
Qed.

Lemma parse_clean_parts (parts : list string) :
  Forall clean_uan parts ->
  map PyStr.strip (filter (fun u => negb (String.eqb (PyStr.strip u) "")) parts) = parts.
Proof.
  induction 1 as [ | u rest (Hne & Hs & _) _ IH]; [reflexivity | ].
  cbn [filter]. unfold stripped in Hs. rewrite Hs.
  destruct (String.eqb_spec u ""); [contradiction | ].
  cbn [negb map]. now rewrite Hs, IH.
Qed.

Lemma join_cons sep p (l : list string) :
  l <> [] -> join sep (p :: l) = (p ++ String sep (join sep l))%string.
Proof. destruct l; [intros H; now elim H | reflexivity]. Qed.

Lemma string_app_assoc (a b c : string) : ((a ++ b) ++ c = a ++ (b ++ c))%string.
Proof. induction a as [ | x a IH]; cbn [String.append]; [reflexivity | now rewrite IH]. Qed.

Lemma join_newline (parts : list string) (u : string) :
  Forall (fun p => has_char "," p = false) parts ->
  has_char "," u = false ->
  PyStr.split "," (join "," (parts ++ [u]) ++ newline) = parts ++ [(u ++ newline)%string].
Proof.
  induction 1 as [ | p rest Hp _ IH]; intros Hu; cbn [app].
  - cbn [join]. apply split_no_sep_id. rewrite has_char_app, Hu. reflexivity.
  - rewrite join_cons by (now destruct rest).
    rewrite string_app_assoc. cbn [String.append].
    rewrite (split_app_sep _ _ _ Hp), (IH Hu). reflexivity.
Qed.

(** X19.  Typing clean UANs separated by commas and reading the box back
    gives the same UANs in the same order, with or without the line break
    Tk puts at the end of the text; an empty box gives no UAN. *)
Theorem parse_uans_round_trip (uans : list string) :
  Forall clean_uan uans ->
  parse_uans (join "," uans) = uans
  /\ parse_uans (join "," uans ++ newline) = uans.
Proof.
  intros Hclean.
  assert (Hsep : Forall (fun p => has_char "," p = false) uans)
    by (eapply Forall_impl; [ | exact Hclean]; now intros u (_ & _ & H)).
  split.
  - destruct uans as [ | u rest]; [reflexivity | ].
    unfold parse_uans. rewrite split_join by (discriminate || assumption).
    now apply parse_clean_parts.
  - destruct uans as [ | u front _] using rev_ind.
    + reflexivity.
    + apply Forall_app in Hsep as [Hfront Hu]. inversion Hu as [ | ? ? Hu' _]; subst.
      apply Forall_app in Hclean as [Hcf Hcu]. inversion Hcu as [ | ? ? Hcu' _]; subst.
      unfold parse_uans. rewrite (join_newline _ _ Hfront Hu').
      rewrite filter_app, map_app, (parse_clean_parts _ Hcf).
      cbn [filter]. rewrite (strip_clean_newline _ Hcu').
      pose proof (strip_clean_newline _ Hcu') as Hstrip.
      destruct Hcu' as (Hne & _). destruct (String.eqb_spec u ""); [contradiction | ].
      cbn [negb map]. now rewrite Hstrip.
Qed.

Lemma parse_uans_round_trip_witness :
  Forall clean_uan ["100200300400"; "100200300401"]
  /\ parse_uans (join "," ["100200300400"; "100200300401"] ++ newline)
     = ["100200300400"; "100200300401"].
Proof.
  assert (H : Forall clean_uan ["100200300400"; "100200300401"])
    by (repeat constructor; discriminate).
  split; [exact H | ].
  apply (parse_uans_round_trip ["100200300400"; "100200300401"] H).
Defined.

(** *** The ECR button *)

Lemma month_map_range (name : string) (m : Z) :
  month_map name = Some m -> (1 <= m <= 12)%Z.
Proof.
  unfold month_map. destruct (list_index name months) as [i | ] eqn:E; [ | discriminate].
  intros [= <-]. apply list_index_nth in E.
  assert (i < length months) by (apply nth_error_Some; congruence).
  cbn [length months] in *. lia.
Qed.

(** What an entry of the ECR form evaluates to. *)
Lemma entry_date_cases (year_text month_name : string) :
  match entry_date year_text month_name with
  | DateOk d =>
      exists y m, PyStr.int year_text = Some y /\ month_map month_name = Some m
                  /\ d = Datetime y m 1 /\ first_of_month d
  | DateValueError =>
      PyStr.int year_text = None
      \/ exists y, PyStr.int year_text = Some y /\ month_map month_name <> None
                   /\ fits_c_int y = true /\ ~ (1 <= y <= 9999)%Z
  | DateKeyError =>
      PyStr.int year_text <> None /\ month_map month_name = None
  | DateOverflowError =>
      exists y, PyStr.int year_text = Some y /\ month_map month_name <> None
                /\ fits_c_int y = false
  end.
Proof.
  unfold entry_date.
  destruct (PyStr.int year_text) as [y | ]; [ | now left].
  destruct (month_map month_name) as [m | ] eqn:Hm; [ | split; congruence].
  pose proof (month_map_range _ _ Hm) as Hr.
  rewrite mk_datetime_first by lia.
  destruct (fits_c_int y) eqn:Hf; [ | cbn; exists y; repeat split; congruence].
  destruct ((1 <=? y) && (y <=? 9999))%Z eqn:Hy.
  - assert (H1 : (1 <=? m)%Z = true) by lia. rewrite H1.
    exists y, m. unfold first_of_month; cbn [year month day].
    repeat split; auto; lia.
  - cbn [cls]. right. exists y. repeat split; try congruence. lia.
Qed.

(** X20.  The ECR button queues a command only when both entries are
    valid, and then both dates are first days of a month of a year from 1
    to 9999; the order of the two dates is not looked at.  When an entry
    fails with [ValueError] or [KeyError] it shows the one input error and
    queues nothing.  A year too large for a C int leaves the handler with
    an [OverflowError], nothing shown and nothing queued. *)
Theorem ecr_button_outcomes (start_year start_month end_year end_month : string) :
  match ecr_button_command start_year start_month end_year end_month with
  | ([CommandPut c], Returned) =>
      exists start_date end_date,
        c = run_ecr start_date end_date
        /\ entry_date start_year start_month = DateOk start_date
        /\ entry_date end_year end_month = DateOk end_date
        /\ first_of_month start_date /\ first_of_month end_date
  | ([ShowError title text], Returned) =>
      title = "Input Error" /\ text = "Please provide a valid date range."
      /\ (entry_date start_year start_month = DateValueError
          \/ entry_date start_year start_month = DateKeyError
          \/ entry_date end_year end_month = DateValueError
          \/ entry_date end_year end_month = DateKeyError)
  | ([], Escaped c) =>
      c = OverflowError
      /\ (entry_date start_year start_month = DateOverflowError
          \/ entry_date end_year end_month = DateOverflowError)
  | _ => False
  end.
Proof.
  unfold ecr_button_command. cbv zeta.
  pose proof (entry_date_cases start_year start_month) as Hs.
  pose proof (entry_date_cases end_year end_month) as He.
  destruct (entry_date start_year start_month) as [s | | | ]; auto 10.
  destruct (entry_date end_year end_month) as [e | | | ]; auto 10.
  destruct Hs as (y & m & _ & _ & _ & Hs). destruct He as (y' & m' & _ & _ & _ & He).
  exists s, e. auto.
Qed.

(** X21.  The ECR button accepts a start date that lies after the end
    date; the task the worker then runs for the queued command clicks no
    download, saves no file and archives nothing. *)
Theorem reversed_range_is_accepted
    (start_year start_month end_year end_month : string) (start_date end_date : datetime)
    (w : page_world) :
  entry_date start_year start_month = DateOk start_date ->
  entry_date end_year end_month = DateOk end_date ->
  datetime_le start_date end_date = false ->
  ecr_button_command start_year start_month end_year end_month
  = ([CommandPut (run_ecr start_date end_date)], Returned)
  /\ occurrences is_download_click (fst (handle (run_ecr start_date end_date) w)) = 0
  /\ saved (fst (handle (run_ecr start_date end_date) w)) = []
  /\ occurrences is_cleanup (fst (handle (run_ecr start_date end_date) w)) = 0.
Proof.
  intros Hs He Hrange. split.
  - unfold ecr_button_command. now rewrite Hs, He.
  - cbn [handle]. now apply run_ecr_extraction_idle.
Qed.

Lemma reversed_range_is_accepted_witness :
  entry_date "2024" "Mar" = DateOk mar_2024
  /\ entry_date "2024" "Jan" = DateOk jan_2024
  /\ datetime_le mar_2024 jan_2024 = false
  /\ ecr_button_command "2024" "Mar" "2024" "Jan"
     = ([CommandPut (run_ecr mar_2024 jan_2024)], Returned).
Proof.
  split; [reflexivity | ]. split; [reflexivity | ]. split; [reflexivity | ].
  apply (reversed_range_is_accepted "2024" "Mar" "2024" "Jan" mar_2024 jan_2024
           sample_page_world); reflexivity.
Defined.

(** ** The result poll and the window *)

Lemma poll_show_results (n : nat) : forall queue u,
  poll n queue u
  = (fst (show_results (firstn n queue) u), snd (show_results (firstn n queue) u),
     skipn n queue).
Proof.
  induction n as [ | n IH]; intros queue u; [reflexivity | ].
  cbn [poll]. destruct queue as [ | ev rest].
  - cbn [process_result_queue]. rewrite IH. destruct n; reflexivity.
  - cbn [process_result_queue firstn skipn show_results]. rewrite IH. reflexivity.
Qed.

Lemma show_result_screen (ev : result_event) (u : ui) :
  screen u -> screen (snd (show_result ev u)).
Proof.
  intros Hu. destruct ev as [text | text | text | | [ | ]]; cbn; auto.
  - right. left. reflexivity.
  - right. right. reflexivity.
Qed.

Lemma show_results_screen (events : list result_event) : forall u,
  screen u -> screen (snd (show_results events u)).
Proof.
  induction events as [ | ev rest IH]; intros u Hu; [exact Hu | ].
  cbn [show_results snd]. apply IH, show_result_screen, Hu.
Qed.

Lemma show_results_enabled (events : list result_event) : forall u,
  is_normal (task_state (snd (show_results events u)))
  = enabled_after events (is_normal (task_state u)).
Proof.
  induction events as [ | ev rest IH]; intros u; [reflexivity | ].
  cbn [show_results snd]. rewrite IH.
  destruct ev as [text | text | text | | [ | ]]; reflexivity.
Qed.

Lemma enabled_after_spec (events : list result_event) : forall enabled,
  enabled_after events enabled = true
  <-> (exists before after,
         events = before ++ login_verified true :: after /\ ~ In browser_opened after)
      \/ (enabled = true /\ ~ In browser_opened events).
Proof.
  induction events as [ | ev rest IH]; intros enabled.
  - cbn. split.
    + intros ->. right. split; auto.
    + intros [(before & after & H & _) | [H _]]; [ | exact H].
      now destruct before.
  - assert (Hshift : forall x,
              (exists before after,
                 rest = before ++ login_verified true :: after /\ ~ In browser_opened after)
              -> exists before after,
                   x :: rest = before ++ login_verified true :: after
                   /\ ~ In browser_opened after).
    { intros x (before & after & -> & H). now exists (x :: before), after. }
    assert (Hplain : ev <> browser_opened -> ev <> login_verified true ->
              enabled_after (ev :: rest) enabled = enabled_after rest enabled).
    { destruct ev as [text | text | text | | [ | ]]; intros H1 H2;
        try reflexivity; congruence. }
    destruct ev as [text | text | text | | [ | ]].
    1-3, 6:
      (rewrite Hplain by discriminate; rewrite IH; split;
       [ intros [H | [H1 H2]];
         [ left; now apply Hshift
         | right; split; [exact H1 | intros [H | H]; [discriminate | auto]] ]
       | intros [(before & after & H & Hn) | [H1 H2]];
         [ left; destruct before as [ | x before]; [discriminate | ];
           injection H as _ H; now exists before, after
         | right; split; [exact H1 | intros H; apply H2; now right] ] ]).
    + cbn [enabled_after]. rewrite IH. split.
      * intros [H | [H _]]; [ | discriminate]. left. now apply Hshift.
      * intros [(before & after & H & Hn) | [_ H]].
        -- left. destruct before as [ | x before]; [discriminate | ].
           injection H as _ H. now exists before, after.
        -- exfalso. apply H. now left.
    + cbn [enabled_after]. rewrite IH. split.
      * intros [H | [_ H]]; [left; now apply Hshift | ].
        left. now exists [], rest.
      * intros [(before & after & H & Hn) | [_ H]].
        -- destruct before as [ | x before].
           ++ injection H as <-. right. split; auto.
           ++ injection H as _ H. left. now exists before, after.
        -- right. split; [reflexivity | ]. intros H'. apply H. now right.
Qed.

Lemma is_normal_spec (s : tk_state) : is_normal s = true <-> s = NORMAL.
Proof. destruct s; cbn; split; congruence. Qed.

(** X22.  The poll takes the events in queue order, one per run, and
    shows the window in one of the three screens of [update_ui_state] only:
    the task widgets are enabled only together with a hidden login button,
    a hidden verify button and a shown logout button. *)
Theorem poll_keeps_screens (n : nat) (queue : list result_event) (u : ui) :
  screen u ->
  screen (snd (fst (poll n queue u)))
  /\ snd (poll n queue u) = skipn n queue
  /\ (task_state (snd (fst (poll n queue u))) = NORMAL ->
      login_button (snd (fst (poll n queue u))) = false
      /\ verify_button (snd (fst (poll n queue u))) = false
      /\ logout_button (snd (fst (poll n queue u))) = true).
Proof.
  intros Hu. rewrite poll_show_results. cbn [fst snd].
  pose proof (show_results_screen (firstn n queue) u Hu) as Hs.
  split; [exact Hs | ]. split; [reflexivity | ].
  intros Hn. destruct Hs as [H | [H | H]]; injection H as H1 H2 H3 H4;
    rewrite ?H1, ?H2, ?H3; auto; congruence.
Qed.

Lemma poll_keeps_screens_witness :
  screen initial_ui
  /\ screen (snd (fst (poll 2 [browser_opened; login_verified true; error "x"] initial_ui))).
Proof.
  assert (H : screen initial_ui) by (left; reflexivity).
  split; [exact H | ].
  apply (poll_keeps_screens 2 [browser_opened; login_verified true; error "x"]
           initial_ui H).
Defined.

(** X23.  After any number of runs of the poll the task widgets are
    enabled exactly when a successful verification has been shown with no
    [browser_opened] event after it, or they were enabled before and no
    [browser_opened] event has been shown.  A failed verification, an
    [error] or an [info] event does not disable them. *)
Theorem tasks_enabled_after_poll (n : nat) (queue : list result_event) (u : ui) :
  task_state (snd (fst (poll n queue u))) = NORMAL
  <-> (exists before after,
         firstn n queue = before ++ login_verified true :: after
         /\ ~ In browser_opened after)
      \/ (task_state u = NORMAL /\ ~ In browser_opened (firstn n queue)).
Proof.
  rewrite poll_show_results. cbn [fst snd].
  rewrite <- is_normal_spec, show_results_enabled, enabled_after_spec, is_normal_spec.
  reflexivity.
Qed.

(** *** From the worker to the window *)

Lemma in_puts (ev : result_event) (t : trace) : In ev (puts t) <-> In (QueuePut ev) t.
Proof.
  unfold puts. rewrite in_flat_map. split.
  - intros (e & He & Hin). destruct e; try contradiction.
    destruct Hin as [-> | []]. exact He.
  - intros H. exists (QueuePut ev). split; [exact H | now left].
Qed.

Lemma handle_verified (c : command) (w : page_world) :
  In (QueuePut (login_verified true)) (fst (handle c w)) ->
  c = verify_login /\ login_marker w = Ok tt.
Proof.
  intros Hin.
  assert (Hno : forall t : trace,
            Forall (fun e => match e with
                             | QueuePut (login_verified true) => False
                             | _ => True
                             end) t ->
            ~ In (QueuePut (login_verified true)) t).
  { intros t Ht H. rewrite Forall_forall in Ht. exact (Ht _ H). }
  destruct c as [ | | | uans output_file | s e | uans | name]; cbn [handle] in Hin.
  - destruct Hin.
  - destruct (goto_login w) as [[] | text]; destruct Hin as [H | []]; discriminate.
  - split; [reflexivity | ].
    destruct (login_marker w) as [[] | text]; [reflexivity | ].
    destruct Hin as [H | []]; discriminate.
  - exfalso. revert Hin. apply Hno, run_uan_extraction_effects; intros; exact I.
  - exfalso. revert Hin. apply Hno, run_ecr_extraction_effects; intros; exact I.
  - exfalso. revert Hin. apply Hno, run_msd_extraction_effects; intros; exact I.
  - destruct Hin.
Qed.

Lemma worker_loop_verified (queue : list (command * page_world)) :
  In (QueuePut (login_verified true)) (fst (worker_loop queue)) ->
  exists w, In (verify_login, w) queue /\ login_marker w = Ok tt.
Proof.
  induction queue as [ | [c w] later IH]; intros Hin; [destruct Hin | ].
  destruct (is_shutdown c) eqn:Hc.
  - destruct c; try discriminate. rewrite worker_loop_shutdown in Hin.
    destruct Hin as [H | [H | []]]; discriminate.
  - rewrite (worker_loop_step _ _ _ Hc) in Hin.
    assert (Hlater : In (QueuePut (login_verified true)) (fst (worker_loop later)) ->
                     exists w0, In (verify_login, w0) ((c, w) :: later)
                                /\ login_marker w0 = Ok tt).
    { intros H. destruct (IH H) as (w0 & H0 & Hm). exists w0. split; [now right | exact Hm]. }
    assert (Hhere : In (QueuePut (login_verified true)) (fst (handle c w)) ->
                    exists w0, In (verify_login, w0) ((c, w) :: later)
                               /\ login_marker w0 = Ok tt).
    { intros H. apply handle_verified in H as [-> Hm]. exists w. split; [now left | exact Hm]. }
    destruct (handle c w) as [t [[] | e | ]]; cbn [fst snd] in *.
    + destruct Hin as [H | H]; [discriminate | ].
      apply in_app_or in H as [H | H]; auto.
    + destruct Hin as [H | H]; [discriminate | ].
      apply in_app_or in H as [H | [H | H]]; auto. discriminate.
    + destruct Hin as [H | H]; [discriminate | auto].
Qed.

(** X24.  The task widgets of a window that starts in the initial
    screen and shows the events of a worker run can be enabled only when
    one of the queued [verify_login] commands found the Member link on the
    page: no other command, and no failure of the worker, enables them. *)
Theorem tasks_enabled_only_after_login
    (launch : pw unit) (queue : list (command * page_world)) (n : nat) :
  task_state (snd (fst (poll n (puts (fst (playwright_worker launch queue))) initial_ui)))
  = NORMAL ->
  exists w, In (verify_login, w) queue /\ login_marker w = Ok tt.
Proof.
  rewrite poll_show_results. cbn [fst snd].
  rewrite <- is_normal_spec, show_results_enabled, enabled_after_spec.
  intros [(before & after & Hsplit & _) | [H _]]; [ | discriminate].
  assert (Hin : In (login_verified true) (puts (fst (playwright_worker launch queue)))).
  { rewrite <- (firstn_skipn n). apply in_or_app. left.
    rewrite Hsplit. apply in_or_app. right. now left. }
  apply in_puts in Hin. apply worker_loop_verified.
  destruct launch as [[] | text].
  - rewrite playwright_worker_launched in Hin.
    destruct (worker_loop queue) as [t [remaining | e | ]]; cbn [fst] in *;
      destruct Hin as [H | H]; try discriminate; auto.
    apply in_app_or in H as [H | [H | [H | []]]]; auto; discriminate.
  - destruct Hin as [H | [H | []]]; discriminate.
Qed.

Lemma tasks_enabled_only_after_login_witness :
  task_state
    (snd (fst (poll 3 (puts (fst (playwright_worker (Ok tt)
                                   [(open_login_page, logged_in_world);
                                    (verify_login, logged_in_world)])))
                 initial_ui)))
  = NORMAL
  /\ exists w, In (verify_login, w)
                 [(open_login_page, logged_in_world); (verify_login, logged_in_world)]
               /\ login_marker w = Ok tt.
Proof.
  assert (H : task_state
                (snd (fst (poll 3 (puts (fst (playwright_worker (Ok tt)
                                   [(open_login_page, logged_in_world);
                                    (verify_login, logged_in_world)])))
                             initial_ui)))
              = NORMAL) by reflexivity.
  split; [exact H | ].
  apply (tasks_enabled_only_after_login (Ok tt)
           [(open_login_page, logged_in_world); (verify_login, logged_in_world)] 3 H).
Defined.
